(** * Marketplace auto-reply bot: coordination core

    A shallow embedding of [messenger_bot_v4.py] (and of the places where
    [messenger_bot_v3.py] differs): the SQLite message store, the debounce
    windows, the Telegram approval flow, the custom-reply send queue and the
    reply dispatch.

    Conventions of the embedding.
    - Python [str] is [string], the text in its UTF-8 encoding (a text
      without lone surrogates); [None]-or-[str] is [option string].  White
      space is what [str.isspace] accepts, in the ASCII range and beyond.
    - Module-level dicts whose iteration order is never observed are
      [gmap]s; [pending_threads], which is iterated, is an insertion-ordered
      association list.
    - [asyncio] futures live in a heap indexed by allocation order, so that
      two dict entries or two waiting coroutines can refer to one object.
    - A coroutine suspended in [await] is resumed by the event loop; what runs
      meanwhile (the Telegram handlers) is given as a list of UI events.  The
      loop wakes the waiter of a future before it starts another handler, so
      the handlers of a wait are those that run while its future is pending.
      [run_bot] awaits each flush, and a flush its approval: the scan and the
      send queue stand still while an approval is awaited.
    - The collaborators (browser page, Telegram API, HTTP proxy, clocks)
      answer through explicit oracle arguments; their outbound effects are
      appended to logs kept in the state.
    - Exceptions.  A [bot.send_message] of the flush that raises is an
      outcome of the oracle: none of the three is inside a [try], so the
      flush ends there and the main loop takes up its next iteration.  The
      Telegram calls of the handlers change no state after them, or sit in a
      [try] whose [except] passes; a callback query whose [query.answer()]
      raises ends its handler before anything is read, and is no event.  In
      the scan every exception ends the row.  SQLite statements and the
      writes of [meetups.csv] are taken to succeed, and so are the Playwright
      calls of the flush and of the drain that are outside a [try]. *)

From Stdlib Require Import ZArith Lia List Ascii String Floats.
From stdpp Require Import base option list gmap strings pretty.
Import ListNotations.

Local Open Scope string_scope.
Local Open Scope list_scope.
Local Open Scope Z_scope.

(** ** Python built-ins used by the bot *)

Module Py.

(** [str.isspace] on a code point of one byte: TAB, LF, VT, FF, CR, FS, GS,
    RS, US and the blank. *)
Definition is_space (c : ascii) : bool :=
  let n := nat_of_ascii c in
  ((9 <=? n)%nat && (n <=? 13)%nat) || ((28 <=? n)%nat && (n <=? 32)%nat).

(** [str.isspace] on a code point of two bytes: U+0085 (C2 85) and U+00A0
    (C2 A0). *)
Definition is_space2 (c1 c2 : ascii) : bool :=
  (nat_of_ascii c1 =? 194)%nat
  && ((nat_of_ascii c2 =? 133)%nat || (nat_of_ascii c2 =? 160)%nat).

(** [str.isspace] on a code point of three bytes: U+1680 (E1 9A 80), U+2000
    to U+200A (E2 80 80 to E2 80 8A), U+2028 and U+2029 (E2 80 A8, E2 80 A9),
    U+202F (E2 80 AF), U+205F (E2 81 9F) and U+3000 (E3 80 80).  No code
    point of four bytes is white space. *)
Definition is_space3 (c1 c2 c3 : ascii) : bool :=
  let n1 := nat_of_ascii c1 in
  let n2 := nat_of_ascii c2 in
  let n3 := nat_of_ascii c3 in
  ((n1 =? 225)%nat && (n2 =? 154)%nat && (n3 =? 128)%nat)
  || ((n1 =? 226)%nat && (n2 =? 128)%nat
      && (((128 <=? n3)%nat && (n3 <=? 138)%nat)
          || (n3 =? 168)%nat || (n3 =? 169)%nat || (n3 =? 175)%nat))
  || ((n1 =? 226)%nat && (n2 =? 129)%nat && (n3 =? 159)%nat)
  || ((n1 =? 227)%nat && (n2 =? 128)%nat && (n3 =? 128)%nat).

(** The text is one white-space code point. *)
Definition is_space_char (s : string) : bool :=
  match s with
  | String c1 EmptyString => is_space c1
  | String c1 (String c2 EmptyString) => is_space2 c1 c2
  | String c1 (String c2 (String c3 EmptyString)) => is_space3 c1 c2 c3
  | _ => false
  end.

(** [s.lstrip()]: the leading white-space code points are dropped. *)
Fixpoint lstrip (s : string) : string :=
  match s with
  | EmptyString => EmptyString
  | String c1 r1 =>
      if is_space c1 then lstrip r1
      else
        match r1 with
        | EmptyString => s
        | String c2 r2 =>
            if is_space2 c1 c2 then lstrip r2
            else
              match r2 with
              | EmptyString => s
              | String c3 r3 => if is_space3 c1 c2 c3 then lstrip r3 else s
              end
        end
  end.

(** [s.rstrip()]: a byte is kept with what is left of the text after it,
    unless the two together are one white-space code point. *)
Fixpoint rstrip (s : string) : string :=
  match s with
  | EmptyString => EmptyString
  | String c r =>
      let r' := rstrip r in
      if is_space_char (String c r') then EmptyString else String c r'
  end.

(** [s.strip()] *)
Definition strip (s : string) : string := rstrip (lstrip s).

(** Truth value of a [str]. *)
Definition truthy (s : string) : bool :=
  match s with EmptyString => false | _ => true end.

(** Truth value of an optional [str] ([None] is false). *)
Definition otruthy (o : option string) : bool :=
  match o with Some s => truthy s | None => false end.

(** [a or b] on strings. *)
Definition str_or (a b : string) : string := if truthy a then a else b.

(** [a or b] where both sides may be [None]. *)
Definition opt_or (a b : option string) : option string :=
  if otruthy a then a else b.

(** ["\n".join(l)] *)
Fixpoint join_lines (l : list string) : string :=
  match l with
  | [] => ""
  | [x] => x
  | x :: r => x +:+ String (ascii_of_nat 10) (join_lines r)
  end.

(** [sep in s] for a one-character [sep]. *)
Fixpoint contains_char (c : ascii) (s : string) : bool :=
  match s with
  | EmptyString => false
  | String d r => if Ascii.eqb c d then true else contains_char c r
  end.

(** [s.split(sep, 1)] for a one-character [sep]: the text before the first
    [sep] and the text after it; without a [sep] the single piece [s]. *)
Fixpoint split1 (c : ascii) (s : string) : string * option string :=
  match s with
  | EmptyString => (EmptyString, None)
  | String d r =>
      if Ascii.eqb c d then (EmptyString, Some r)
      else let '(a, b) := split1 c r in (String d a, b)
  end.

(** [int(x)] on a float: truncation toward zero.  [int] raises on an
    infinity or a NaN; the clocks never return one, and the value 0 stands
    for that case here. *)
Definition int_of_float (x : float) : Z :=
  match Prim2SF x with
  | S754_finite s m e =>
      let a := if (0 <=? e) then Z.pos m * 2 ^ e else Z.pos m / 2 ^ (- e) in
      if s then - a else a
  | _ => 0
  end.

End Py.

(** ** SHA-256 ([hashlib.sha256]), FIPS 180-4 *)

Module SHA256.

Definition w32 (x : Z) : Z := x mod 2 ^ 32.
Definition rotr (n x : Z) : Z := Z.lor (Z.shiftr x n) (w32 (Z.shiftl x (32 - n))).
Definition ch (x y z : Z) : Z := Z.lxor (Z.land x y) (Z.land (w32 (Z.lnot x)) z).
Definition maj (x y z : Z) : Z :=
  Z.lxor (Z.lxor (Z.land x y) (Z.land x z)) (Z.land y z).
Definition bsig0 x := Z.lxor (Z.lxor (rotr 2 x) (rotr 13 x)) (rotr 22 x).
Definition bsig1 x := Z.lxor (Z.lxor (rotr 6 x) (rotr 11 x)) (rotr 25 x).
Definition ssig0 x := Z.lxor (Z.lxor (rotr 7 x) (rotr 18 x)) (Z.shiftr x 3).
Definition ssig1 x := Z.lxor (Z.lxor (rotr 17 x) (rotr 19 x)) (Z.shiftr x 10).

(** Round constants: the first 32 bits of the fractional parts of the cube
    roots of the first 64 primes. *)
Definition round_constants : list Z :=
  [ 1116352408; 1899447441; 3049323471; 3921009573;  961987163; 1508970993;
    2453635748; 2870763221; 3624381080;  310598401;  607225278; 1426881987;
    1925078388; 2162078206; 2614888103; 3248222580; 3835390401; 4022224774;
     264347078;  604807628;  770255983; 1249150122; 1555081692; 1996064986;
    2554220882; 2821834349; 2952996808; 3210313671; 3336571891; 3584528711;
     113926993;  338241895;  666307205;  773529912; 1294757372; 1396182291;
    1695183700; 1986661051; 2177026350; 2456956037; 2730485921; 2820302411;
    3259730800; 3345764771; 3516065817; 3600352804; 4094571909;  275423344;
     430227734;  506948616;  659060556;  883997877;  958139571; 1322822218;
    1537002063; 1747873779; 1955562222; 2024104815; 2227730452; 2361852424;
    2428436474; 2756734187; 3204031479; 3329325298 ].

Definition initial_hash : list Z :=
  [ 1779033703; 3144134277; 1013904242; 2773480762;
    1359893119; 2600822924;  528734635; 1541459225 ].

Definition bytes_of_string (s : string) : list Z :=
  map (fun c => Z.of_nat (nat_of_ascii c)) (list_ascii_of_string s).

(** Big-endian bytes of [x], [n] of them. *)
Fixpoint be_bytes (n : nat) (x : Z) : list Z :=
  match n with
  | O => []
  | S k => (Z.shiftr x (8 * Z.of_nat k)) mod 256 :: be_bytes k x
  end.

Definition pad (msg : list Z) : list Z :=
  let len := Z.of_nat (length msg) in
  let zeros := Z.to_nat ((55 - len) mod 64) in
  msg ++ [128] ++ repeat 0 zeros ++ be_bytes 8 (8 * len).

Fixpoint be_words (fuel : nat) (bs : list Z) : list Z :=
  match fuel, bs with
  | S k, a :: b :: c :: d :: r =>
      (Z.shiftl a 24 + Z.shiftl b 16 + Z.shiftl c 8 + d) :: be_words k r
  | _, _ => []
  end.

(** The message schedule, most recent word first. *)
Fixpoint schedule (n : nat) (rw : list Z) : list Z :=
  match n with
  | O => rw
  | S k =>
      let w := w32 (ssig1 (nth 1 rw 0) + nth 6 rw 0
                    + ssig0 (nth 14 rw 0) + nth 15 rw 0) in
      schedule k (w :: rw)
  end.

Definition round (st : list Z) (kw : Z * Z) : list Z :=
  match st with
  | [a; b; c; d; e; f; g; h] =>
      let t1 := h + bsig1 e + ch e f g + fst kw + snd kw in
      let t2 := bsig0 a + maj a b c in
      [w32 (t1 + t2); a; b; c; w32 (d + t1); e; f; g]
  | _ => st
  end.

Definition compress (hs : list Z) (block : list Z) : list Z :=
  let w := rev (schedule 48 (rev block)) in
  let st := fold_left round (combine round_constants w) hs in
  map (fun p => w32 (fst p + snd p)) (combine hs st).

Fixpoint blocks (fuel : nat) (ws : list Z) (hs : list Z) : list Z :=
  match fuel, ws with
  | S k, _ :: _ => blocks k (skipn 16 ws) (compress hs (firstn 16 ws))
  | _, _ => hs
  end.

Definition digest (s : string) : list Z :=
  let bs := pad (bytes_of_string s) in
  let ws := be_words (length bs) bs in
  blocks (length ws) ws initial_hash.

Definition hex_digit (d : Z) : ascii :=
  ascii_of_nat (Z.to_nat (if d <? 10 then 48 + d else 87 + d)).

Fixpoint hex (n : nat) (x : Z) : string :=
  match n with
  | O => ""
  | S k => String (hex_digit ((Z.shiftr x (4 * Z.of_nat k)) mod 16)) (hex k x)
  end.

(** [hashlib.sha256(s).hexdigest()] *)
Definition hexdigest (s : string) : string :=
  fold_right (fun w acc => hex 8 w +:+ acc) "" (digest s).

End SHA256.

(** ** The persistent store ([bot_memory.db]) *)

(** A row of table [messages]. *)
Record MessageRow := mkMessageRow {
  m_id : Z;
  m_thread_key : string;
  m_msg_hash : string;
  m_role : string;
  m_text : string;
  m_created_at : Z
}.

(** A row of table [thread_state], without its primary key. *)
Record ThreadStateRow := mkThreadStateRow {
  ts_buyer_name : string;
  ts_thread_href : option string;
  ts_last_seen_bottom : option string;
  ts_last_seen_incoming : option string;
  ts_last_sent_by_us : option string;
  ts_updated_at : Z
}.

(** The database: [messages] in rowid order, the AUTOINCREMENT counter (the
    [seq] that [sqlite_sequence] holds for the table) and [thread_state] by
    primary key. *)
Record DB := mkDB {
  messages : list MessageRow;
  autoinc : Z;
  thread_state : gmap string ThreadStateRow
}.

Definition db_init : DB := mkDB [] 0 ∅.

Definition _hash_msg (thread_key role text : string) : string :=
  String.substring 0 32
    (SHA256.hexdigest (thread_key +:+ "|" +:+ role +:+ "|" +:+ text)).

(** The columns of the unique index [idx_messages_unique]. *)
Definition has_key (thread_key mh : string) (r : MessageRow) : bool :=
  String.eqb (m_thread_key r) thread_key && String.eqb (m_msg_hash r) mh.

(** [db_insert_message]: INSERT OR IGNORE under the unique index on
    [(thread_key, msg_hash)]; the result is [cur.rowcount == 1].  [now] is the
    reading of [int(time.time())].  A blank text returns before any
    statement runs.  A statement that is ignored has taken its rowid before
    the index refuses the row, and the counter keeps it: the next row that
    is stored skips that id. *)
Definition db_insert_message (d : DB) (thread_key role text : string) (now : Z)
  : bool * DB :=
  let text := Py.strip text in
  if negb (Py.truthy text) then (false, d)
  else
    let mh := _hash_msg thread_key role text in
    if existsb (has_key thread_key mh) (messages d)
    then (false, mkDB (messages d) (autoinc d + 1) (thread_state d))
    else
      let row := mkMessageRow (autoinc d + 1) thread_key mh role text now in
      (true, mkDB (messages d ++ [row]) (autoinc d + 1) (thread_state d)).

(** [db_upsert_thread_state]: every column is overwritten except
    [thread_href], which keeps its stored value when the new one is NULL. *)
Definition db_upsert_thread_state (d : DB) (thread_key buyer_name : string)
    (thread_href last_seen_bottom_val last_seen_incoming_val
       last_sent_by_us_val : option string) (now : Z) : DB :=
  let href :=
    match thread_state d !! thread_key with
    | Some old =>
        match thread_href with
        | Some h => Some h
        | None => ts_thread_href old
        end
    | None => thread_href
    end in
  mkDB (messages d) (autoinc d)
    (<[thread_key :=
         mkThreadStateRow buyer_name href last_seen_bottom_val
           last_seen_incoming_val last_sent_by_us_val now]> (thread_state d)).

(** The last [n] elements: ORDER BY id DESC LIMIT n, reversed. *)
Definition last_n {A} (n : nat) (l : list A) : list A :=
  skipn (length l - n)%nat l.

Definition db_get_recent_history (d : DB) (thread_key : string) (limit : nat)
  : list (string * string) :=
  map (fun r => (m_role r, m_text r))
    (last_n limit
       (filter (fun r => String.eqb (m_thread_key r) thread_key = true)
          (messages d))).

Definition db_get_recent_buyer_messages_since (d : DB) (thread_key : string)
    (since_ts : Z) (limit : nat) : list string :=
  map m_text
    (last_n limit
       (filter (fun r => (String.eqb (m_thread_key r) thread_key
                          && String.eqb (m_role r) "buyer"
                          && (since_ts <=? m_created_at r)) = true)
          (messages d))).

Definition history_to_text (history : list (string * string)) : string :=
  Py.join_lines
    (map (fun '(role, text) =>
            (if String.eqb role "buyer" then "Buyer" else "Me")
              +:+ ": " +:+ text)
       history).

(** ** Values decoded from JSON *)

#[local] Unset Elimination Schemes.
Inductive json :=
  | JNull
  | JBool (b : bool)
  | JInt (z : Z)
  | JFloat (f : float)
  | JStr (s : string)
  | JArr (l : list json)
  | JObj (kv : list (string * json)).
#[local] Set Elimination Schemes.

(** Python truth value. *)
Definition json_truthy (v : json) : bool :=
  match v with
  | JNull => false
  | JBool b => b
  | JInt z => negb (z =? 0)
  | JFloat f => negb (f =? 0)%float
  | JStr s => Py.truthy s
  | JArr l => match l with [] => false | _ => true end
  | JObj kv => match kv with [] => false | _ => true end
  end.

(** ** State of the Telegram approval flow *)

Inductive Future :=
  | FutPending
  | FutResult (b : bool)
  | FutCancelled.

(** [fut.done()] *)
Definition fut_done (f : Future) : bool :=
  match f with FutPending => false | _ => true end.

(** A value of [approval_meta]: the [meta] of the flush spread under the
    fields added by [ask_human_approval]. *)
Record ApprovalMeta := mkApprovalMeta {
  am_thread_key : string;
  am_href : option string;
  am_buyer_name : string;
  am_meetup_log : option string;
  am_intent : json;
  am_yes_text : json;
  am_no_text : json
}.

(** An item of [send_queue]. *)
Record SendAction := mkSendAction {
  sa_type : string;
  sa_request_id : string;
  sa_thread_key : string;
  sa_href : option string;
  sa_buyer_name : string;
  sa_text : string;
  sa_meetup_log : option string
}.

(** What the bot sends to, or edits in, the Telegram chat. *)
Inductive TgMsg :=
  | TgOwnerNote (buyer notes : string)
  | TgApprovalRequest (request_id buyer : string) (intent yes_text no_text : json)
  | TgMeetupLogged (buyer time_text location : string)
  | TgSent (buyer text : string)
  | TgEditExpired
  | TgEditDecision (action : string)
  | TgEditCustomPrompt
  | TgCustomExpired
  | TgEmptyMessage
  | TgQueued.

(** [futures] is the heap of future objects; [pending_approvals] maps a
    request id to the future stored under it; [custom_reply_wait] maps a chat
    id to the request id it is composing a custom reply for. *)
Record Approvals := mkApprovals {
  futures : list Future;
  pending_approvals : gmap string nat;
  approval_meta : gmap string ApprovalMeta;
  custom_reply_wait : gmap string string;
  send_queue : list SendAction
}.

Definition approvals_init : Approvals := mkApprovals [] ∅ ∅ ∅ [].

(** [fut = pending_approvals.get(request_id)]
    [if fut and not fut.done(): fut.set_result(b)] *)
Definition set_result_if_pending (a : Approvals) (request_id : string) (b : bool)
  : Approvals :=
  match pending_approvals a !! request_id with
  | Some fid =>
      match futures a !! fid with
      | Some FutPending =>
          mkApprovals (<[fid := FutResult b]> (futures a)) (pending_approvals a)
            (approval_meta a) (custom_reply_wait a) (send_queue a)
      | _ => a
      end
  | None => a
  end.

(** [handle_approval]: the callback of the three inline buttons.  [data] is
    [query.data], [chat_id] is [str(query.message.chat_id)]. *)
Definition handle_approval (a : Approvals) (chat_id : string)
    (data : option string) : Approvals * list TgMsg :=
  let data := default "" data in
  if negb (Py.contains_char "_" data) then (a, [])
  else
    match Py.split1 "_" data with
    | (action, Some request_id) =>
        match approval_meta a !! request_id with
        | None => (a, [TgEditExpired])
        | Some meta =>
            if String.eqb action "approve" || String.eqb action "decline" then
              (set_result_if_pending a request_id (String.eqb action "approve"),
               [TgEditDecision action])
            else if String.eqb action "custom" then
              (mkApprovals (futures a) (pending_approvals a) (approval_meta a)
                 (<[chat_id := request_id]> (custom_reply_wait a)) (send_queue a),
               [TgEditCustomPrompt])
            else (a, [])
        end
    | (_, None) => (a, [])
    end.

(** [custom_reply_wait.pop(chat_id, None)] *)
Definition pop_custom_wait (a : Approvals) (chat_id : string) : Approvals :=
  mkApprovals (futures a) (pending_approvals a) (approval_meta a)
    (delete chat_id (custom_reply_wait a)) (send_queue a).

(** [handle_admin_text]: a plain text message in chat [chat_id]. *)
Definition handle_admin_text (a : Approvals) (chat_id : string) (text : string)
  : Approvals * list TgMsg :=
  match custom_reply_wait a !! chat_id with
  | None => (a, [])
  | Some request_id =>
      match approval_meta a !! request_id with
      | None => (pop_custom_wait a chat_id, [TgCustomExpired])
      | Some meta =>
          let custom_text := Py.strip text in
          if negb (Py.truthy custom_text) then (a, [TgEmptyMessage])
          else
            let action :=
              mkSendAction "send_custom" request_id (am_thread_key meta)
                (am_href meta) (am_buyer_name meta) custom_text
                (am_meetup_log meta) in
            let a1 :=
              mkApprovals (futures a) (pending_approvals a) (approval_meta a)
                (custom_reply_wait a) (send_queue a ++ [action]) in
            let a2 := set_result_if_pending a1 request_id true in
            (pop_custom_wait a2 chat_id, [TgQueued])
      end
  end.

(** What the operator does in Telegram. *)
Inductive UiEvent :=
  | CallbackQuery (chat_id : string) (data : option string)
  | AdminText (chat_id : string) (text : string).

Definition handle_ui (a : Approvals) (ev : UiEvent) : Approvals * list TgMsg :=
  match ev with
  | CallbackQuery chat_id data => handle_approval a chat_id data
  | AdminText chat_id text => handle_admin_text a chat_id text
  end.

(** The id of a request created when [loop.time()] reads [loop_time]:
    [str(int(loop.time() * 1000))]. *)
Definition request_id_at (loop_time : float) : string :=
  pretty (Py.int_of_float (loop_time * 1000)%float).

(** [ask_human_approval] up to its [try]: a new future is stored under the
    request id, then the meta, then the request message is handed to
    Telegram.  The result is the request id, the future, the new state and
    that message.  This is the outcome in which Telegram takes the message;
    the one in which [bot.send_message] raises is [ask_human_approval_raise]
    below, and the flush chooses between the two in [approval_raises]. *)
Definition ask_human_approval_begin (a : Approvals) (loop_time : float)
    (buyer : string) (intent yes_text no_text : json)
    (thread_key : string) (href : option string) (meetup_log : option string)
  : string * nat * Approvals * list TgMsg :=
  let request_id := request_id_at loop_time in
  let fid := length (futures a) in
  let a' :=
    mkApprovals (futures a ++ [FutPending])
      (<[request_id := fid]> (pending_approvals a))
      (<[request_id :=
           mkApprovalMeta thread_key href buyer meetup_log intent yes_text
             no_text]> (approval_meta a))
      (custom_reply_wait a) (send_queue a) in
  (request_id, fid, a',
   [TgApprovalRequest request_id buyer intent yes_text no_text]).

(** The handlers that run while [wait_for(future, 3600)] is suspended: the
    coroutine is woken as soon as the future is done, so handlers are run for
    as long as it is pending. *)
Fixpoint await_future (a : Approvals) (fid : nat) (evs : list UiEvent)
  : Approvals * list TgMsg :=
  match evs with
  | [] => (a, [])
  | ev :: rest =>
      match futures a !! fid with
      | Some FutPending =>
          let '(a1, out1) := handle_ui a ev in
          let '(a2, out2) := await_future a1 fid rest in
          (a2, out1 ++ out2)
      | _ => (a, [])
      end
  end.

(** [ask_human_approval] from the return of [wait_for] on: the result of the
    future when it has one; else the timeout has expired, [wait_for] cancels
    the future and the bare [except] answers [False].  The [finally] block
    pops both dict entries of the request id. *)
Definition ask_human_approval_end (a : Approvals) (request_id : string)
    (fid : nat) : bool * Approvals :=
  let '(res, futs) :=
    match futures a !! fid with
    | Some (FutResult b) => (b, futures a)
    | _ => (false, <[fid := FutCancelled]> (futures a))
    end in
  (res,
   mkApprovals futs (delete request_id (pending_approvals a))
     (delete request_id (approval_meta a)) (custom_reply_wait a)
     (send_queue a)).

(** The call when [bot.send_message] raises: the exception leaves
    [ask_human_approval] from outside its [try], with the future and the meta
    stored and nothing sent.  The state it leaves behind. *)
Definition ask_human_approval_raise (a : Approvals) (loop_time : float)
    (buyer : string) (intent yes_text no_text : json)
    (thread_key : string) (href : option string) (meetup_log : option string)
  : Approvals :=
  (ask_human_approval_begin a loop_time buyer intent yes_text no_text
     thread_key href meetup_log).1.2.

(** The whole call when its request message goes out: [evs] are the handler
    runs during the suspension; a list that leaves the future pending is a
    wait that ends in the timeout. *)
Definition ask_human_approval (a : Approvals) (loop_time : float)
    (buyer : string) (intent yes_text no_text : json)
    (thread_key : string) (href : option string) (meetup_log : option string)
    (evs : list UiEvent) : bool * Approvals * list TgMsg :=
  let '(request_id, fid, a1, out1) :=
    ask_human_approval_begin a loop_time buyer intent yes_text no_text
      thread_key href meetup_log in
  let '(a2, out2) := await_future a1 fid evs in
  let '(res, a3) := ask_human_approval_end a2 request_id fid in
  (res, a3, out1 ++ out2).

(** ** The state of the running bot *)

(** A value of [pending_threads]. *)
Record PendingInfo := mkPendingInfo {
  p_since_ts : Z;
  p_last_update : float;
  p_href : option string;
  p_buyer_name : string
}.

(** The volatile caches, keyed by thread key. *)
Record Caches := mkCaches {
  last_sent_by_us : gmap string string;
  last_seen_bottom : gmap string string;
  last_seen_incoming : gmap string string
}.

(** What the bot reads from [PRODUCT_CFG]. *)
Record ProductCfg := mkProductCfg {
  item_name : string;
  location : string;
  availability_note : string
}.

(** A line of [meetups.csv] after its timestamp. *)
Record Meetup := mkMeetup {
  mu_buyer_name : string;
  mu_thread_key : string;
  mu_item_name : string;
  mu_location : string;
  mu_time_text : string;
  mu_notes : string
}.

(** Outbound effects, oldest first: [outbox] holds the (thread key, text) of
    every [send_message] that returned [True]; [ai_calls] the (history,
    batch) given to [analyze_message]. *)
Record Log := mkLog {
  outbox : list (string * string);
  tg_out : list TgMsg;
  meetups : list Meetup;
  ai_calls : list (string * string)
}.

Record World := mkWorld {
  db : DB;
  caches : Caches;
  pending_threads : list (string * PendingInfo);
  appr : Approvals;
  product_cfg : ProductCfg;
  log : Log
}.

Definition set_db (w : World) (d : DB) : World :=
  mkWorld d (caches w) (pending_threads w) (appr w) (product_cfg w) (log w).
Definition set_caches (w : World) (c : Caches) : World :=
  mkWorld (db w) c (pending_threads w) (appr w) (product_cfg w) (log w).
Definition set_pending_threads (w : World) (p : list (string * PendingInfo))
  : World :=
  mkWorld (db w) (caches w) p (appr w) (product_cfg w) (log w).
Definition set_appr (w : World) (a : Approvals) : World :=
  mkWorld (db w) (caches w) (pending_threads w) a (product_cfg w) (log w).
Definition set_log (w : World) (l : Log) : World :=
  mkWorld (db w) (caches w) (pending_threads w) (appr w) (product_cfg w) l.

Definition log_sent (w : World) (thread_key text : string) : World :=
  set_log w (mkLog (outbox (log w) ++ [(thread_key, text)]) (tg_out (log w))
               (meetups (log w)) (ai_calls (log w))).
Definition log_tg (w : World) (out : list TgMsg) : World :=
  set_log w (mkLog (outbox (log w)) (tg_out (log w) ++ out)
               (meetups (log w)) (ai_calls (log w))).
Definition log_meetup (w : World) (m : Meetup) : World :=
  set_log w (mkLog (outbox (log w)) (tg_out (log w))
               (meetups (log w) ++ [m]) (ai_calls (log w))).
Definition log_ai_call (w : World) (history batch : string) : World :=
  set_log w (mkLog (outbox (log w)) (tg_out (log w))
               (meetups (log w)) (ai_calls (log w) ++ [(history, batch)])).

Definition world_init (cfg : ProductCfg) : World :=
  mkWorld db_init (mkCaches ∅ ∅ ∅) [] approvals_init cfg (mkLog [] [] [] []).

(** A Telegram handler run against the whole state. *)
Definition ui_step (w : World) (ev : UiEvent) : World :=
  let '(a, out) := handle_ui (appr w) ev in
  log_tg (set_appr w a) out.

(** *** [pending_threads] as an insertion-ordered dict *)

Fixpoint dict_get {V} (k : string) (d : list (string * V)) : option V :=
  match d with
  | [] => None
  | (k', v) :: r => if String.eqb k k' then Some v else dict_get k r
  end.

(** [d[k] = v]: in place for a key already there, else at the end. *)
Fixpoint dict_set {V} (k : string) (v : V) (d : list (string * V))
  : list (string * V) :=
  match d with
  | [] => [(k, v)]
  | (k', v') :: r =>
      if String.eqb k k' then (k', v) :: r else (k', v') :: dict_set k v r
  end.

(** [d.pop(k, None)] without its result. *)
Fixpoint dict_remove {V} (k : string) (d : list (string * V))
  : list (string * V) :=
  match d with
  | [] => []
  | (k', v') :: r =>
      if String.eqb k k' then r else (k', v') :: dict_remove k r
  end.

(** ** The Decision Engine adapter *)

(** The answer to one [requests.post]: the call itself raises (no
    connection, timeout); status 503; another error status, on which
    [raise_for_status] raises; or a success whose body gives the content of
    the first choice ([None] when decoding the body or walking to the content
    raises, or when the content is not a string). *)
Inductive HttpResponse :=
  | HttpRaise
  | Http503
  | HttpError
  | HttpOk (content : option string).

(** The suffix of [s] from its first [c] on. *)
Fixpoint from_first (c : ascii) (s : string) : option string :=
  match s with
  | EmptyString => None
  | String d r => if Ascii.eqb c d then Some s else from_first c r
  end.

(** The prefix of [s] up to its last [c]. *)
Fixpoint upto_last (c : ascii) (s : string) : option string :=
  match s with
  | EmptyString => None
  | String d r =>
      match upto_last c r with
      | Some p => Some (String d p)
      | None => if Ascii.eqb c d then Some (String d EmptyString) else None
      end
  end.

(** [re.search(r"\{.*\}", text, re.S)]: from the first opening brace to the
    last closing brace after it. *)
Definition search_braces (text : string) : option string :=
  match from_first "{" text with
  | Some (String b r) => String b <$> upto_last "}" r
  | _ => None
  end.

Definition DEBOUNCE_SECONDS : float := 3.0%float.
Definition MAX_BATCH_MESSAGES : nat := 8.

Inductive Side := Incoming | Outgoing | UnknownSide.

(** How the body of a loop iteration or of a function ends: it falls through
    to the next iteration, it returns from the function, or it raises. *)
Inductive Flow := Next | Return | Raised.

(** What the collaborators answer while one thread is flushed: whether
    [page.goto] succeeds before the batch is read and before the reply is
    sent, the HTTP answers by base URL and attempt, the event-loop clock when
    the approval request is created, the Telegram handlers that run while the
    approval is awaited, whether [send_message] gets the text submitted, the
    wall clock of the two store writes, and whether each [bot.send_message]
    of the flush returns ([false]: it raises): the owner note, the approval
    request, and the report that follows the dispatch (the meetup notice of
    version 4, the sent notice of version 3). *)
Record FlushOracle := mkFlushOracle {
  fo_goto_read : bool;
  fo_http : nat → nat → HttpResponse;
  fo_loop_time : float;
  fo_ui : list UiEvent;
  fo_goto_send : bool;
  fo_send : bool;
  fo_t_insert : Z;
  fo_t_state : Z;
  fo_tg_note : bool;
  fo_tg_ask : bool;
  fo_tg_report : bool
}.

(** The same for one action of the send queue. *)
Record SendOracle := mkSendOracle {
  so_goto : bool;
  so_send : bool;
  so_t_insert : Z;
  so_t_state : Z
}.

(** What the browser shows for one sidebar row.  [ro_click] is [None] when
    the click or the name lookup raises, else the [href] of the row's link;
    an exception after that point ends the row like a missing scroller. *)
Record RowObs := mkRowObs {
  ro_click : option (option string);
  ro_buyer_name : string;
  ro_scroller : bool;
  ro_at_bottom : bool;
  ro_bottom_text : option string;
  ro_side : Side;
  ro_t_meta : Z;
  ro_t_insert : Z;
  ro_t_state : Z;
  ro_ts_now : Z;
  ro_loop_now : float
}.

(** What [flush_debounced_threads] reads off the analysis. *)
Record Decision := mkDecision {
  d_category : string;
  d_requires_approval : bool;
  d_yes_reply : json;
  d_no_reply : json;
  d_intent : json;
  d_meetup_confirmed : bool;
  d_meetup_time_text : string;
  d_notes_for_owner : string
}.

(** [open_thread_by_href]: [False] without an href or when [page.goto]
    raises. *)
Definition open_thread_by_href (href : option string) (goto_ok : bool) : bool :=
  if negb (Py.otruthy href) then false else goto_ok.

(** [send_message]: only a [str] can be typed into the composer; for any
    other value every attempt raises inside the [try] and the result is
    [False].  [submitted] says whether an attempt gets to press Enter. *)
Definition send_message (text : json) (submitted : bool) : bool :=
  match text with JStr _ => submitted | _ => false end.

Definition as_str (v : json) : string :=
  match v with JStr s => s | _ => "" end.

(** [analysis.get(key) or dflt] *)
Definition get_or (analysis : gmap string json) (key : string) (dflt : json)
  : json :=
  match analysis !! key with
  | Some v => if json_truthy v then v else dflt
  | None => dflt
  end.

(** [bool(analysis.get(key, False))] *)
Definition get_bool (analysis : gmap string json) (key : string) : bool :=
  match analysis !! key with
  | Some v => json_truthy v
  | None => false
  end.

(** [v.strip()]: an AttributeError ([None]) unless [v] is a [str]. *)
Definition stripped (v : json) : option string :=
  match v with JStr s => Some (Py.strip s) | _ => None end.

(** The safe fallback of [analyze_message]. *)
Definition ai_error_analysis : gmap string json :=
  <["category" := JStr "other"]>
  (<["requires_approval" := JBool true]>
  (<["intent_summary" := JStr "AI Error"]>
  (<["reply_if_accepted" := JNull]>
  (<["reply_if_declined" := JNull]>
  (<["meetup_confirmed" := JBool false]>
  (<["meetup_time_text" := JStr ""]>
  (<["notes_for_owner" := JStr "AI error occurred."]> ∅))))))).

(** Lines 908-932 of [flush_debounced_threads]: the fields of the analysis,
    the forced approval of the meetup categories, the fallback replies.
    [None] when a [.strip()] raises. *)
Definition read_decision (analysis : gmap string json) (cfg : ProductCfg)
  : option Decision :=
  category ← stripped (get_or analysis "category" (JStr "other"));
  let requires_approval := get_bool analysis "requires_approval" in
  let yes_reply := get_or analysis "reply_if_accepted" (JStr "") in
  let no_reply := get_or analysis "reply_if_declined" (JStr "") in
  let intent := default (JStr category) (analysis !! "intent_summary") in
  let meetup_confirmed := get_bool analysis "meetup_confirmed" in
  meetup_time_text ← stripped (get_or analysis "meetup_time_text" (JStr ""));
  notes_for_owner ← stripped (get_or analysis "notes_for_owner" (JStr ""));
  let requires_approval :=
    if String.eqb category "meetup_scheduling"
       || String.eqb category "meetup_confirmation"
    then true else requires_approval in
  let yes_reply :=
    if negb (json_truthy yes_reply) then
      JStr ("Hi! Yes, it’s available. Pickup at " +:+ location cfg
            +:+ ". My availability is " +:+ availability_note cfg
            +:+ ". What time works for you?")
    else yes_reply in
  let no_reply :=
    if negb (json_truthy no_reply) then JStr "Sorry, I can’t do that."
    else no_reply in
  Some (mkDecision category requires_approval yes_reply no_reply intent
          meetup_confirmed meetup_time_text notes_for_owner).

(** The ["meetup_log"] entry of the approval meta. *)
Definition meetup_log_of (dec : Decision) : option string :=
  if d_meetup_confirmed dec && Py.truthy (d_meetup_time_text dec)
  then Some (d_meetup_time_text dec) else None.

(** The bookkeeping after a successful send, the same in
    [flush_debounced_threads] and in [drain_send_queue]: the seller row, the
    two caches, the persisted thread state. *)
Definition record_sent (w : World) (thread_key buyer_name : string)
    (href : option string) (text : string) (t_insert t_state : Z) : World :=
  let d1 := snd (db_insert_message (db w) thread_key "seller" text t_insert) in
  let c :=
    mkCaches (<[thread_key := text]> (last_sent_by_us (caches w)))
      (<[thread_key := text]> (last_seen_bottom (caches w)))
      (last_seen_incoming (caches w)) in
  let d2 :=
    db_upsert_thread_state d1 thread_key buyer_name href
      (last_seen_bottom c !! thread_key) (last_seen_incoming c !! thread_key)
      (last_sent_by_us c !! thread_key) t_state in
  set_caches (set_db w d2) c.

(** The debounce window of [run_bot]: opened with the wall clock as
    [since_ts], or refreshed. *)
Definition debounce_notify (p : list (string * PendingInfo))
    (thread_key : string) (thread_href : option string) (buyer_name : string)
    (loop_now : float) (ts_now : Z) : list (string * PendingInfo) :=
  match dict_get thread_key p with
  | None =>
      dict_set thread_key
        (mkPendingInfo ts_now loop_now thread_href buyer_name) p
  | Some old =>
      dict_set thread_key
        (mkPendingInfo (p_since_ts old) loop_now
           (Py.opt_or thread_href (p_href old))
           (Py.str_or buyer_name (p_buyer_name old))) p
  end.

(** ** The driver: version 4 *)

Section Driver.

(** [json.loads] on a text that begins with an opening brace: the decoded
    object, or [None] when it raises. *)
Variable json_loads : string → option (gmap string json).

(** [_extract_json]: [None] when it raises. *)
Definition _extract_json (text : string) : option (gmap string json) :=
  m ← search_braces text; json_loads m.

(** The attempts against one base URL, [n] of them left: a 503 goes on to
    the next attempt; anything raised, also by [_extract_json], leaves the
    loop with nothing. *)
Fixpoint proxy_attempts (resp : nat → HttpResponse) (attempt n : nat)
  : option (gmap string json) :=
  match n with
  | O => None
  | S k =>
      match resp attempt with
      | Http503 => proxy_attempts resp (S attempt) k
      | HttpOk (Some content) => _extract_json content
      | _ => None
      end
  end.

(** [_call_proxy_chat]: [None] is the final RuntimeError. *)
Definition _call_proxy_chat (http : nat → nat → HttpResponse)
  : option (gmap string json) :=
  match proxy_attempts (http 0%nat) 1 3 with
  | Some d => Some d
  | None => proxy_attempts (http 1%nat) 1 3
  end.

Definition analyze_message (http : nat → nat → HttpResponse)
  : gmap string json :=
  match _call_proxy_chat http with
  | Some d => d
  | None => ai_error_analysis
  end.

(** The end of a flush iteration, from [if not final_reply] on.  The meetup
    notice is the last statement of the iteration: when it raises, the
    dispatch has been recorded and the meetup logged. *)
Definition flush_send (w : World) (tk buyer_name : string)
    (href : option string) (dec : Decision) (final_reply : json)
    (o : FlushOracle) : Flow * World :=
  if negb (json_truthy final_reply) then (Return, w)
  else if Py.otruthy href && negb (open_thread_by_href href (fo_goto_send o))
  then (Return, w)
  else
    let ok := send_message final_reply (fo_send o) in
    if ok then
      let text := as_str final_reply in
      let w1 := log_sent w tk text in
      let w2 :=
        record_sent w1 tk buyer_name href text (fo_t_insert o) (fo_t_state o) in
      if d_meetup_confirmed dec && Py.truthy (d_meetup_time_text dec) then
        let w3 :=
          log_meetup w2
            (mkMeetup buyer_name tk (item_name (product_cfg w2))
               (location (product_cfg w2)) (d_meetup_time_text dec)
               "Meetup confirmed (AI flagged) - sent reply") in
        if fo_tg_report o then
          (Next,
           log_tg w3
             [TgMeetupLogged buyer_name (d_meetup_time_text dec)
                (location (product_cfg w3))])
        else (Raised, w3)
      else (Next, w2)
    else (Next, w).

(** The two Telegram messages of an approval are sent outside any [try].
    When the owner note raises, the flush ends before a request exists.
    When the request message raises, the flush ends in the state of
    [ask_human_approval_raise]: the request is in both tables, its future is
    pending, nothing waits for it and no [finally] pops it.  [None]: both
    messages go out. *)
Definition approval_raises (w : World) (tk buyer_name : string)
    (href : option string) (dec : Decision) (o : FlushOracle) : option World :=
  if d_requires_approval dec then
    if Py.truthy (d_notes_for_owner dec) && negb (fo_tg_note o) then Some w
    else
      let w1 :=
        if Py.truthy (d_notes_for_owner dec)
        then log_tg w [TgOwnerNote buyer_name (d_notes_for_owner dec)]
        else w in
      if fo_tg_ask o then None
      else
        Some (set_appr w1
                (ask_human_approval_raise (appr w1) (fo_loop_time o)
                   buyer_name (d_intent dec) (d_yes_reply dec)
                   (d_no_reply dec) tk href (meetup_log_of dec)))
  else None.

(** The choice of [final_reply] when those messages go out, with the round
    trip through Telegram when the decision requires approval. *)
Definition flush_decide (w : World) (tk buyer_name : string)
    (href : option string) (dec : Decision) (o : FlushOracle) : json * World :=
  let meetup_log := meetup_log_of dec in
  if d_requires_approval dec then
    let w1 :=
      if Py.truthy (d_notes_for_owner dec)
      then log_tg w [TgOwnerNote buyer_name (d_notes_for_owner dec)]
      else w in
    let '(user_approved, a, out) :=
      ask_human_approval (appr w1) (fo_loop_time o) buyer_name (d_intent dec)
        (d_yes_reply dec) (d_no_reply dec) tk href meetup_log (fo_ui o) in
    (if user_approved then d_yes_reply dec else d_no_reply dec,
     log_tg (set_appr w1 a) out)
  else (d_yes_reply dec, w).

(** One iteration of the flush loop, for the window [info] just popped. *)
Definition flush_thread (w : World) (tk : string) (info : PendingInfo)
    (o : FlushOracle) : Flow * World :=
  let buyer_name := Py.str_or (p_buyer_name info) "Buyer" in
  let href := p_href info in
  if Py.otruthy href && negb (open_thread_by_href href (fo_goto_read o))
  then (Next, w)
  else
    let buyer_msgs :=
      db_get_recent_buyer_messages_since (db w) tk (p_since_ts info)
        MAX_BATCH_MESSAGES in
    match buyer_msgs with
    | [] => (Next, w)
    | _ =>
        let combined_last := Py.join_lines buyer_msgs in
        let history_text :=
          history_to_text (db_get_recent_history (db w) tk 140) in
        let analysis := analyze_message (fo_http o) in
        let w1 := log_ai_call w history_text combined_last in
        match read_decision analysis (product_cfg w1) with
        | None => (Raised, w1)
        | Some dec =>
            match approval_raises w1 tk buyer_name href dec o with
            | Some w2 => (Raised, w2)
            | None =>
                let '(final_reply, w2) :=
                  flush_decide w1 tk buyer_name href dec o in
                flush_send w2 tk buyer_name href dec final_reply o
            end
        end
    end.

Fixpoint flush_loop (w : World) (to_flush : list string)
    (o : string → FlushOracle) : Flow * World :=
  match to_flush with
  | [] => (Next, w)
  | tk :: rest =>
      match dict_get tk (pending_threads w) with
      | None => flush_loop w rest o
      | Some info =>
          let w1 :=
            set_pending_threads w (dict_remove tk (pending_threads w)) in
          match flush_thread w1 tk info (o tk) with
          | (Next, w2) => flush_loop w2 rest o
          | r => r
          end
      end
  end.

(** The windows that have been quiet for [DEBOUNCE_SECONDS]. *)
Definition ripe (now_loop : float) (p : list (string * PendingInfo))
  : list string :=
  map fst
    (filter (fun e => (DEBOUNCE_SECONDS <=? now_loop - p_last_update (snd e))%float
                      = true) p).

Definition flush_debounced_threads (w : World) (now_loop : float)
    (o : string → FlushOracle) : Flow * World :=
  flush_loop w (ripe now_loop (pending_threads w)) o.

(** One action taken off the send queue. *)
Definition drain_action (w : World) (action : SendAction) (o : SendOracle)
  : World :=
  if negb (String.eqb (sa_type action) "send_custom") then w
  else
    let href := sa_href action in
    let buyer_name := sa_buyer_name action in
    let thread_key := sa_thread_key action in
    let text := Py.strip (sa_text action) in
    if negb (Py.otruthy href && Py.truthy thread_key && Py.truthy text) then w
    else if negb (open_thread_by_href href (so_goto o)) then w
    else
      let ok := send_message (JStr text) (so_send o) in
      if ok then
        let w1 := log_sent w thread_key text in
        let w2 :=
          record_sent w1 thread_key buyer_name href text (so_t_insert o)
            (so_t_state o) in
        match sa_meetup_log action with
        | Some time_text =>
            if Py.truthy time_text then
              log_meetup w2
                (mkMeetup buyer_name thread_key (item_name (product_cfg w2))
                   (location (product_cfg w2)) time_text
                   "Custom reply (telegram) - meetup confirmed")
            else w2
        | None => w2
        end
      else w.

Fixpoint drain_actions (w : World) (q : list SendAction)
    (o : nat → SendOracle) (i : nat) : World :=
  match q with
  | [] => w
  | action :: rest => drain_actions (drain_action w action (o i)) rest o (S i)
  end.

(** [drain_send_queue]: the queue is emptied, its actions run in order. *)
Definition drain_send_queue (w : World) (o : nat → SendOracle) : World :=
  let q := send_queue (appr w) in
  let a := appr w in
  let w0 :=
    set_appr w
      (mkApprovals (futures a) (pending_approvals a) (approval_meta a)
         (custom_reply_wait a) []) in
  drain_actions w0 q o 0.

Definition upsert_from_caches (w : World) (thread_key buyer_name : string)
    (thread_href : option string) (now : Z) : World :=
  set_db w
    (db_upsert_thread_state (db w) thread_key buyer_name thread_href
       (last_seen_bottom (caches w) !! thread_key)
       (last_seen_incoming (caches w) !! thread_key)
       (last_sent_by_us (caches w) !! thread_key) now).

(** The thread key of row [i]: [thread_href or f"row{i}:{buyer_name}"]. *)
Definition thread_key_of (i : nat) (thread_href : option string)
    (buyer_name : string) : string :=
  if Py.otruthy thread_href then default "" thread_href
  else "row" +:+ pretty i +:+ ":" +:+ buyer_name.

(** The body of the scan loop of [run_bot] for sidebar row [i]. *)
Definition scan_row (w : World) (i : nat) (obs : RowObs) : World :=
  match ro_click obs with
  | None => w
  | Some thread_href =>
      let buyer_name := ro_buyer_name obs in
      let thread_key := thread_key_of i thread_href buyer_name in
      let w1 :=
        upsert_from_caches w thread_key buyer_name thread_href (ro_t_meta obs) in
      if negb (ro_scroller obs) then w1
      else if negb (ro_at_bottom obs) then w1
      else if negb (Py.otruthy (ro_bottom_text obs)) then w1
      else
        let bottom_text := default "" (ro_bottom_text obs) in
        let side := ro_side obs in
        let w2 :=
          match side with
          | Incoming =>
              set_db w1 (snd (db_insert_message (db w1) thread_key "buyer"
                                bottom_text (ro_t_insert obs)))
          | Outgoing =>
              set_db w1 (snd (db_insert_message (db w1) thread_key "seller"
                                bottom_text (ro_t_insert obs)))
          | UnknownSide => w1
          end in
        if decide (last_seen_bottom (caches w2) !! thread_key = Some bottom_text)
        then w2
        else
          let w3 :=
            set_caches w2
              (mkCaches (last_sent_by_us (caches w2))
                 (<[thread_key := bottom_text]> (last_seen_bottom (caches w2)))
                 (last_seen_incoming (caches w2))) in
          let w4 :=
            upsert_from_caches w3 thread_key buyer_name thread_href
              (ro_t_state obs) in
          match side with
          | Incoming =>
              if decide (last_seen_incoming (caches w4) !! thread_key
                         = Some bottom_text)
              then w4
              else
                let w5 :=
                  set_caches w4
                    (mkCaches (last_sent_by_us (caches w4))
                       (last_seen_bottom (caches w4))
                       (<[thread_key := bottom_text]>
                          (last_seen_incoming (caches w4)))) in
                set_pending_threads w5
                  (debounce_notify (pending_threads w5) thread_key thread_href
                     buyer_name (ro_loop_now obs) (ro_ts_now obs))
          | _ => w4
          end
  end.

Fixpoint scan_rows (w : World) (i : nat) (rows : list RowObs) : World :=
  match rows with
  | [] => w
  | obs :: rest => scan_rows (scan_row w i obs) (S i) rest
  end.

(** What the collaborators answer during one iteration of the main loop;
    [to_rows] are the sidebar rows, of which the first six are scanned. *)
Record TickOracle := mkTickOracle {
  to_drain : nat → SendOracle;
  to_now_loop : float;
  to_flush : string → FlushOracle;
  to_rows : list RowObs
}.

(** One iteration of the [while True] of [run_bot]; an exception out of the
    flush is caught by the loop and ends the iteration. *)
Definition run_bot_tick (w : World) (o : TickOracle) : World :=
  let w1 := drain_send_queue w (to_drain o) in
  match flush_debounced_threads w1 (to_now_loop o) (to_flush o) with
  | (Raised, w2) => w2
  | (_, w2) => scan_rows w2 0 (firstn 6 (to_rows o))
  end.

End Driver.

(** ** Version 3 of the approval flow

    [messenger_bot_v3.py] has the same store, caches, scan loop and debounce
    windows; its approval flow has two buttons, no [approval_meta] and no
    custom reply. *)

Module V3.

(** [handle_approval]: [query.data.split("_", 1)] is unpacked into two
    names, which raises (the handler ends there) without an underscore. *)
Definition handle_approval (a : Approvals) (data : option string)
  : Approvals * list TgMsg :=
  match data with
  | None => (a, [])
  | Some data =>
      match Py.split1 "_" data with
      | (action, Some request_id) =>
          match pending_approvals a !! request_id with
          | Some _ =>
              (set_result_if_pending a request_id (String.eqb action "approve"),
               [TgEditDecision action])
          | None => (a, [])
          end
      | (_, None) => (a, [])
      end
  end.

Definition ask_human_approval_begin (a : Approvals) (loop_time : float)
    (buyer : string) (intent yes_text no_text : json)
  : string * nat * Approvals * list TgMsg :=
  let request_id := request_id_at loop_time in
  let fid := length (futures a) in
  (request_id, fid,
   mkApprovals (futures a ++ [FutPending])
     (<[request_id := fid]> (pending_approvals a))
     (approval_meta a) (custom_reply_wait a) (send_queue a),
   [TgApprovalRequest request_id buyer intent yes_text no_text]).

(** The callback queries handled while the future is awaited. *)
Fixpoint await_future (a : Approvals) (fid : nat) (evs : list (option string))
  : Approvals * list TgMsg :=
  match evs with
  | [] => (a, [])
  | data :: rest =>
      match futures a !! fid with
      | Some FutPending =>
          let '(a1, out1) := handle_approval a data in
          let '(a2, out2) := await_future a1 fid rest in
          (a2, out1 ++ out2)
      | _ => (a, [])
      end
  end.

Definition ask_human_approval_end (a : Approvals) (request_id : string)
    (fid : nat) : bool * Approvals :=
  let '(res, futs) :=
    match futures a !! fid with
    | Some (FutResult b) => (b, futures a)
    | _ => (false, <[fid := FutCancelled]> (futures a))
    end in
  (res,
   mkApprovals futs (delete request_id (pending_approvals a))
     (approval_meta a) (custom_reply_wait a) (send_queue a)).

Definition ask_human_approval (a : Approvals) (loop_time : float)
    (buyer : string) (intent yes_text no_text : json)
    (evs : list (option string)) : bool * Approvals * list TgMsg :=
  let '(request_id, fid, a1, out1) :=
    ask_human_approval_begin a loop_time buyer intent yes_text no_text in
  let '(a2, out2) := await_future a1 fid evs in
  let '(res, a3) := ask_human_approval_end a2 request_id fid in
  (res, a3, out1 ++ out2).

(** The test [if requires_approval] of the version 3 flush: the engine is
    asked for four fields, none of them a category, and the flag is taken as
    the engine gives it. *)
Definition requires_approval (analysis : gmap string json) : bool :=
  get_bool analysis "requires_approval".

(** The call when [bot.send_message] raises, as in version 4. *)
Definition ask_human_approval_raise (a : Approvals) (loop_time : float)
    (buyer : string) (intent yes_text no_text : json) : Approvals :=
  (ask_human_approval_begin a loop_time buyer intent yes_text no_text).1.2.

Definition PRODUCT_CONTEXT : ProductCfg :=
  mkProductCfg "Brand new Type c-c cable non braided 1m"
    "Richmond Public Library main branch (Brighouse)" "Mon-Fri after 4pm".

Definition MAX_BATCH_MESSAGES : nat := 6.

(** The fallback of [analyze_message]. *)
Definition ai_error_analysis : gmap string json :=
  <["requires_approval" := JBool false]>
  (<["intent_summary" := JStr "AI Error"]>
  (<["reply_if_accepted" := JNull]>
  (<["reply_if_declined" := JNull]> ∅))).

Definition analyze_message (json_loads : string → option (gmap string json))
    (http : nat → nat → HttpResponse) : gmap string json :=
  match _call_proxy_chat json_loads http with
  | Some d => d
  | None => ai_error_analysis
  end.

(** The one canned reply, which stands in for any final reply that is
    missing or empty (the text as the source file has it). *)
Definition default_reply : string :=
  "Hi! Yes, it‚Äôs available. Pickup at " +:+ location PRODUCT_CONTEXT
  +:+ ". Available " +:+ availability_note PRODUCT_CONTEXT
  +:+ ". What time works for you?".

(** Version 3 registers a callback-query handler only: a text message of
    the operator reaches no handler. *)
Definition callback_data (evs : list UiEvent) : list (option string) :=
  omap (fun ev =>
          match ev with
          | CallbackQuery _ data => Some data
          | AdminText _ _ => None
          end) evs.

(** One iteration of the flush loop of version 3, for the window [info] just
    popped.  The fields of the analysis are read as they are; nothing here
    raises but the two Telegram messages. *)
Definition flush_thread (json_loads : string → option (gmap string json))
    (w : World) (tk : string) (info : PendingInfo) (o : FlushOracle)
  : Flow * World :=
  let buyer_name := Py.str_or (p_buyer_name info) "Buyer" in
  let href := p_href info in
  if Py.otruthy href && negb (open_thread_by_href href (fo_goto_read o))
  then (Next, w)
  else
    let buyer_msgs :=
      db_get_recent_buyer_messages_since (db w) tk (p_since_ts info)
        MAX_BATCH_MESSAGES in
    match buyer_msgs with
    | [] => (Next, w)
    | _ =>
        let combined_last := Py.join_lines buyer_msgs in
        let history_text :=
          history_to_text (db_get_recent_history (db w) tk 80) in
        let analysis := analyze_message json_loads (fo_http o) in
        let w1 := log_ai_call w history_text combined_last in
        let requires_approval := requires_approval analysis in
        let yes_reply := default JNull (analysis !! "reply_if_accepted") in
        let no_reply := default JNull (analysis !! "reply_if_declined") in
        let intent :=
          default (JStr "General Inquiry") (analysis !! "intent_summary") in
        if requires_approval && negb (fo_tg_ask o) then
          (Raised,
           set_appr w1
             (ask_human_approval_raise (appr w1) (fo_loop_time o) buyer_name
                intent yes_reply no_reply))
        else
          let '(final_reply, w2) :=
            if requires_approval then
              let '(user_approved, a, out) :=
                ask_human_approval (appr w1) (fo_loop_time o) buyer_name
                  intent yes_reply no_reply (callback_data (fo_ui o)) in
              (if user_approved then yes_reply else no_reply,
               log_tg (set_appr w1 a) out)
            else (yes_reply, w1) in
          let final_reply :=
            if negb (json_truthy final_reply) then JStr default_reply
            else final_reply in
          if send_message final_reply (fo_send o) then
            let text := as_str final_reply in
            let w3 :=
              record_sent (log_sent w2 tk text) tk buyer_name href text
                (fo_t_insert o) (fo_t_state o) in
            if requires_approval then
              if fo_tg_report o
              then (Next, log_tg w3 [TgSent buyer_name text])
              else (Raised, w3)
            else (Next, w3)
          else (Next, w2)
    end.

End V3.

(** ** A run of the bot, used to exercise the definitions *)

Module Scenario.

Definition cfg : ProductCfg :=
  mkProductCfg "Brand new Type c-c cable non braided 1m"
    "Richmond Public Library main branch (Brighouse)" "Mon-Fri after 4pm".

(** The object the Decision Engine answers with. *)
Definition engine_answer : gmap string json :=
  <["category" := JStr "meetup_scheduling"]>
  (<["requires_approval" := JBool false]>
  (<["intent_summary" := JStr "Buyer proposes a pickup time"]>
  (<["reply_if_accepted" := JStr "Yes, 5pm works."]>
  (<["reply_if_declined" := JStr "Sorry, 5pm does not work for me."]>
  (<["meetup_confirmed" := JBool false]>
  (<["meetup_time_text" := JStr ""]>
  (<["notes_for_owner" := JStr ""]> ∅))))))).

(** A decoder that reads every text as [engine_answer]. *)
Definition json_loads (m : string) : option (gmap string json) :=
  Some engine_answer.

Definition http_ok (base attempt : nat) : HttpResponse :=
  HttpOk (Some "Here you go: {...}").

Definition http_down (base attempt : nat) : HttpResponse := HttpRaise.

Definition thread : string := "/t/123".

(** The buyer's message at the bottom of the first sidebar row. *)
Definition row_buyer : RowObs :=
  mkRowObs (Some (Some thread)) "Bob" true true
    (Some "Can I pick it up at 5pm?") Incoming 100 100 100 100 10.

(** The same row once a reply [text] of ours is at the bottom. *)
Definition row_seller (text : string) (now : Z) (loop_now : float) : RowObs :=
  mkRowObs (Some (Some thread)) "Bob" true true (Some text) Outgoing
    now now now now loop_now.

(** The buyer echoes the text that is already at the bottom. *)
Definition row_echo (text : string) (now : Z) (loop_now : float) : RowObs :=
  mkRowObs (Some (Some thread)) "Bob" true true (Some text) Incoming
    now now now now loop_now.

Definition send_ok : SendOracle := mkSendOracle true true 120 120.
Definition send_failing : SendOracle := mkSendOracle true false 120 120.

(** A flush in which the operator does [ui]; the request is created at
    14.5 s of the event-loop clock, hence under id 14500. *)
Definition flush_with (ui : list UiEvent) (sent : bool) : FlushOracle :=
  mkFlushOracle true http_ok 14.5 ui true sent 110 110 true true true.

(** The operator taps Custom, then types the reply. *)
Definition ui_custom : list UiEvent :=
  [CallbackQuery "42" (Some "custom_14500");
   AdminText "42" "I'll confirm tonight"].

(** The operator taps Custom and never types anything. *)
Definition ui_custom_only : list UiEvent :=
  [CallbackQuery "42" (Some "custom_14500")].

Definition tick1 : TickOracle :=
  mkTickOracle (fun _ => send_ok) 10 (fun _ => flush_with [] true) [row_buyer].

Definition tick2 : TickOracle :=
  mkTickOracle (fun _ => send_ok) 14 (fun _ => flush_with ui_custom true)
    [row_seller "Yes, 5pm works." 111 15].

Definition tick3 : TickOracle :=
  mkTickOracle (fun _ => send_ok) 16 (fun _ => flush_with [] true)
    [row_seller "I'll confirm tonight" 121 17].

Definition w1 : World := run_bot_tick json_loads (world_init cfg) tick1.
Definition w2 : World := run_bot_tick json_loads w1 tick2.
Definition w3 : World := run_bot_tick json_loads w2 tick3.

(** The decision read off [engine_answer]. *)
Definition decision : Decision :=
  mkDecision "meetup_scheduling" true (JStr "Yes, 5pm works.")
    (JStr "Sorry, 5pm does not work for me.")
    (JStr "Buyer proposes a pickup time") false "" "".

(** The window that the first tick opens. *)
Definition window : PendingInfo := mkPendingInfo 100 10 (Some thread) "Bob".

(** A flush during which Telegram is unreachable when the approval request
    is to be sent; nobody does anything in Telegram. *)
Definition flush_undelivered : FlushOracle :=
  mkFlushOracle true http_ok 14.5 [] true true 110 110 true false true.

(** The tick of that flush, and a later tick with nothing to flush. *)
Definition tick_undelivered : TickOracle :=
  mkTickOracle (fun _ => send_ok) 14 (fun _ => flush_undelivered) [].
Definition tick_idle : TickOracle :=
  mkTickOracle (fun _ => send_ok) 16 (fun _ => flush_with [] true) [].

(** The engine wants the owner's approval and proposes the empty text for
    a refusal. *)
Definition engine_deal : gmap string json :=
  <["requires_approval" := JBool true]>
  (<["intent_summary" := JStr "Buyer asks for a discount"]>
  (<["reply_if_accepted" := JStr "Deal, 3 dollars it is."]>
  (<["reply_if_declined" := JStr ""]> ∅))).

Definition json_loads_deal (m : string) : option (gmap string json) :=
  Some engine_deal.

(** The engine answers with an object that has a number where the category
    is expected, and with an empty object. *)
Definition engine_untyped : gmap string json := <["category" := JInt 5]> ∅.

Definition json_loads_untyped (m : string) : option (gmap string json) :=
  Some engine_untyped.


End Scenario.

(** ** Vocabulary of the statements *)

(** Every stored hash is the hash of its row: the rows come from
    [db_insert_message] alone. *)
Definition db_wf (d : DB) : Prop :=
  Forall (fun r => m_msg_hash r = _hash_msg (m_thread_key r) (m_role r) (m_text r))
    (messages d).

(** No row is stored under the key [(thread_key, mh)] of the unique index. *)
Definition key_free (d : DB) (thread_key mh : string) : Prop :=
  existsb (has_key thread_key mh) (messages d) = false.

(** The stored rows of a given thread, role and text. *)
Definition rows_of (d : DB) (thread_key role text : string) : list MessageRow :=
  filter (fun r => m_thread_key r = thread_key ∧ m_role r = role ∧ m_text r = text)
    (messages d).

(** How one handler run can change the future [fid]. *)
Inductive future_step (s : Approvals) (fid : nat) (ev : UiEvent)
    (s' : Approvals) : Prop :=
  | fs_same f :
      futures s !! fid = Some f → futures s' !! fid = Some f →
      send_queue s' = send_queue s ∨ (∃ act, send_queue s' = send_queue s ++ [act]) →
      future_step s fid ev s'
  | fs_approve chat data request_id :
      ev = CallbackQuery chat (Some data) →
      Py.split1 "_" data = ("approve", Some request_id) →
      pending_approvals s !! request_id = Some fid →
      futures s !! fid = Some FutPending →
      futures s' !! fid = Some (FutResult true) →
      send_queue s' = send_queue s →
      future_step s fid ev s'
  | fs_decline chat data request_id :
      ev = CallbackQuery chat (Some data) →
      Py.split1 "_" data = ("decline", Some request_id) →
      pending_approvals s !! request_id = Some fid →
      futures s !! fid = Some FutPending →
      futures s' !! fid = Some (FutResult false) →
      send_queue s' = send_queue s →
      future_step s fid ev s'
  | fs_custom chat text request_id meta :
      ev = AdminText chat text →
      custom_reply_wait s !! chat = Some request_id →
      approval_meta s !! request_id = Some meta →
      pending_approvals s !! request_id = Some fid →
      futures s !! fid = Some FutPending →
      futures s' !! fid = Some (FutResult true) →
      send_queue s'
      = send_queue s
        ++ [mkSendAction "send_custom" request_id (am_thread_key meta)
              (am_href meta) (am_buyer_name meta) (Py.strip text)
              (am_meetup_log meta)] →
      future_step s fid ev s'.

(** Handler runs in sequence. *)
Definition handle_uis (a : Approvals) (evs : list UiEvent) : Approvals :=
  fold_left (fun s ev => (handle_ui s ev).1) evs a.

(** Every future stored in [pending_approvals] has been allocated. *)
Definition appr_wf (a : Approvals) : Prop :=
  ∀ request_id fid,
    pending_approvals a !! request_id = Some fid → (fid < length (futures a))%nat.

(** The wait of a request created in state [a] ends by the timeout: the
    handlers that run during the wait leave its future pending. *)
Definition times_out (a : Approvals) (loop_time : float) (buyer : string)
    (intent yes_text no_text : json) (thread_key : string)
    (href meetup_log : option string) (evs : list UiEvent) : Prop :=
  let '(_, fid, a1, _) :=
    ask_human_approval_begin a loop_time buyer intent yes_text no_text
      thread_key href meetup_log in
  futures (await_future a1 fid evs).1 !! fid = Some FutPending.

(** The role under which the scan stores a bottom message. *)
Definition role_of_side (side : Side) : option string :=
  match side with
  | Incoming => Some "buyer"
  | Outgoing => Some "seller"
  | UnknownSide => None
  end.

(** ** Vocabulary of stripping *)

(** The text begins with a white-space code point. *)
Definition lead_space (s : string) : bool :=
  match s with
  | EmptyString => false
  | String c1 r1 =>
      Py.is_space c1
      || match r1 with
         | EmptyString => false
         | String c2 r2 =>
             Py.is_space2 c1 c2
             || match r2 with
                | EmptyString => false
                | String c3 _ => Py.is_space3 c1 c2 c3
                end
         end
  end.


(** ** Further parts of the program *)

(** [db_load_thread_state]: the rows of [thread_state] as a dict by thread
    key ([db_init] has created the [thread_href] column). *)
Definition db_load_thread_state (d : DB) : gmap string ThreadStateRow :=
  thread_state d.

(** The caches as [run_bot] fills them at start-up (version 4):
    [last_seen_bottom[k] = v.get("last_seen_bottom") or ""], and the same for
    the other two. *)
Definition load_caches (d : DB) : Caches :=
  mkCaches
    ((fun v => Py.str_or (default "" (ts_last_sent_by_us v)) "")
       <$> db_load_thread_state d)
    ((fun v => Py.str_or (default "" (ts_last_seen_bottom v)) "")
       <$> db_load_thread_state d)
    ((fun v => Py.str_or (default "" (ts_last_seen_incoming v)) "")
       <$> db_load_thread_state d).

(** The state in which a new process starts on the database of [w]: the
    module-level dicts and the queue are empty, the caches are loaded. *)
Definition restart (w : World) : World :=
  mkWorld (db w) (load_caches (db w)) [] approvals_init (product_cfg w) (log w).

(** ** Vocabulary of the further properties *)

(** The columns of the unique index, of a row. *)
Definition row_key (r : MessageRow) : string * string :=
  (m_thread_key r, m_msg_hash r).

(** What holds of every store the bot has built from [db_init]: the hashes
    are those of the rows, no two rows share a key of the unique index, the
    rowids grow along the list (the list order is the order of [ORDER BY
    id]) and lie between 1 and the counter, and every text is non-empty and
    stripped. *)
Definition store_inv (d : DB) : Prop :=
  db_wf d
  ∧ NoDup (map row_key (messages d))
  ∧ (∀ (i j : nat) ri rj,
       messages d !! i = Some ri → messages d !! j = Some rj → (i < j)%nat →
       m_id ri < m_id rj)
  ∧ 0 ≤ autoinc d
  ∧ Forall (fun r => 1 ≤ m_id r ≤ autoinc d) (messages d)
  ∧ Forall (fun r => m_text r ≠ "" ∧ Py.strip (m_text r) = m_text r)
      (messages d).

(** The persisted state of a thread shows what the caches hold for it. *)
Definition mirrored (w : World) (thread_key : string) : Prop :=
  ∃ row, thread_state (db w) !! thread_key = Some row
         ∧ ts_last_seen_bottom row = last_seen_bottom (caches w) !! thread_key
         ∧ ts_last_sent_by_us row = last_sent_by_us (caches w) !! thread_key.

(** Upserts of one thread that bring no href. *)
Definition upserts_without_href (d : DB) (thread_key : string)
    (calls : list (string * option string * option string * option string * Z))
  : DB :=
  fold_left
    (fun d '(name, b, i, s, now) =>
       db_upsert_thread_state d thread_key name None b i s now)
    calls d.

(** What happens to the bot: an iteration of the main loop, a Telegram
    update handled between two awaits, or the process being started anew. *)
Inductive Step :=
  | Tick (o : TickOracle)
  | Ui (ev : UiEvent)
  | Restart.

Definition run_step (json_loads : string → option (gmap string json))
    (w : World) (s : Step) : World :=
  match s with
  | Tick o => run_bot_tick json_loads w o
  | Ui ev => ui_step w ev
  | Restart => restart w
  end.

(** The state after a history of steps from the first start. *)
Definition run_steps (json_loads : string → option (gmap string json))
    (cfg : ProductCfg) (steps : list Step) : World :=
  fold_left (run_step json_loads) steps (world_init cfg).

(** The store, the windows and the approval tables are well formed. *)
Definition bot_inv (w : World) : Prop :=
  store_inv (db w)
  ∧ NoDup (map fst (pending_threads w))
  ∧ appr_wf (appr w).

(** No approval request is open: both request tables are empty. *)
Definition no_open_request (a : Approvals) : Prop :=
  pending_approvals a = ∅ ∧ approval_meta a = ∅.

(** Every approval request of the step is taken by Telegram. *)
Definition requests_go_out (s : Step) : Prop :=
  match s with
  | Tick o => ∀ tk, fo_tg_ask (to_flush o tk) = true
  | _ => True
  end.

(** ** Further runs of the bot *)

Module Scenario2.

(** The engine answers a simple question, without asking for approval. *)
Definition engine_simple : gmap string json :=
  <["category" := JStr "simple_question"]>
  (<["requires_approval" := JBool false]>
  (<["intent_summary" := JStr "Buyer asks whether the item is available"]>
  (<["reply_if_accepted" := JStr "Yes, it is still available."]>
  (<["reply_if_declined" := JStr "Sorry, it is sold."]>
  (<["meetup_confirmed" := JBool false]>
  (<["meetup_time_text" := JStr ""]>
  (<["notes_for_owner" := JStr ""]> ∅))))))).

Definition json_loads (m : string) : option (gmap string json) :=
  Some engine_simple.

Definition simple_decision : Decision :=
  mkDecision "simple_question" false (JStr "Yes, it is still available.")
    (JStr "Sorry, it is sold.")
    (JStr "Buyer asks whether the item is available") false "" "".

(** The window of [Scenario.w1]. *)
Definition window : PendingInfo :=
  mkPendingInfo 100 10 (Some Scenario.thread) "Bob".

(** The operator taps the first button of request 14500. *)
Definition ui_approve : list UiEvent :=
  [CallbackQuery "42" (Some "approve_14500")].

(** A thread without a link in its sidebar row: its key is positional. *)
Definition row_no_link : RowObs :=
  mkRowObs (Some None) "Eve" true true (Some "Is this still for sale?")
    Incoming 200 200 200 200 30.

End Scenario2.

(** ** The [/avail] command *)

(** What [cmd_avail] answers in the chat. *)
Inductive AvailReply :=
  | AvailUsage
  | AvailUpdated (new_avail : string).

(** [cmd_avail]: [text] is [update.message.text].  The note of the global
    [PRODUCT_CFG] is replaced (and the configuration saved) when the text
    has a second part that is not blank. *)
Definition cmd_avail (w : World) (text : option string) : World * AvailReply :=
  let txt := Py.strip (Py.str_or (default "" text) "") in
  match Py.split1 " " txt with
  | (_, Some rest) =>
      if negb (Py.truthy (Py.strip rest)) then (w, AvailUsage)
      else
        let new_avail := Py.strip rest in
        (mkWorld (db w) (caches w) (pending_threads w) (appr w)
           (mkProductCfg (item_name (product_cfg w)) (location (product_cfg w))
              new_avail)
           (log w),
         AvailUpdated new_avail)
  | (_, None) => (w, AvailUsage)
  end.

(** ** Further runs *)

Module Scenario3.

(** The operator taps the second button of request 14500. *)
Definition ui_decline : list UiEvent :=
  [CallbackQuery "42" (Some "decline_14500")].

(** Every endpoint is down; the send succeeds. *)
Definition flush_down : FlushOracle :=
  mkFlushOracle true Scenario.http_down 14.5 [] true true 110 110 true true
    true.

End Scenario3.

(** * Properties *)

(** ** The embedding against Python *)

Example hexdigest_abc :
  SHA256.hexdigest "abc"
  = "ba7816bf8f01cfea414140de5dae2223b00361a396177a9cb410ff61f20015ad".
Proof. vm_compute. reflexivity. Qed.

Example hexdigest_empty :
  SHA256.hexdigest ""
  = "e3b0c44298fc1c149afbf4c8996fb92427ae41e4649b934ca495991b7852b855".
Proof. vm_compute. reflexivity. Qed.

Example int_of_float_ms : Py.int_of_float (1.0009765625 * 1000)%float = 1000.
Proof. vm_compute. reflexivity. Qed.

Example hexdigest_two_blocks :
  SHA256.hexdigest
    "aaaaaaaaaaaaaaaaaaaaaaaaaaaaaaaaaaaaaaaaaaaaaaaaaaaaaaaaaaaaaaaaaaaaaa"
  = "6bd5e5034855a11241f0dee8fc72850ffd9955b28347a86428b5fa19119f6ad0".
Proof. vm_compute. reflexivity. Qed.

Example search_braces_ex :
  search_braces "Sure: {'a': {'b': 1}} done" = Some "{'a': {'b': 1}}".
Proof. reflexivity. Qed.

(** ** The message store *)

Lemma strip_truthy (s : string) : Py.truthy s = true ↔ s ≠ "".
Proof. destruct s; simpl; split; congruence. Qed.

Lemma has_key_true (tk mh : string) (r : MessageRow) :
  has_key tk mh r = true ↔ m_thread_key r = tk ∧ m_msg_hash r = mh.
Proof.
  unfold has_key. rewrite andb_true_iff, !String.eqb_eq. reflexivity.
Qed.

Lemma db_wf_init : db_wf db_init.
Proof. constructor. Qed.

Lemma db_insert_message_wf (d : DB) (tk role text : string) (now : Z) :
  db_wf d → db_wf (snd (db_insert_message d tk role text now)).
Proof.
  intros Hwf. unfold db_insert_message.
  destruct (negb (Py.truthy (Py.strip text))); [exact Hwf|].
  destruct (existsb _ _); [exact Hwf|].
  unfold db_wf in *. simpl. apply Forall_app. split; [exact Hwf|].
  constructor; [reflexivity|constructor].
Qed.

Lemma key_free_no_rows (d : DB) (tk role text : string) :
  db_wf d → key_free d tk (_hash_msg tk role text) → rows_of d tk role text = [].
Proof.
  unfold db_wf, key_free, rows_of. induction (messages d) as [|r l IH]; intros Hwf Hfree.
  - reflexivity.
  - inversion Hwf as [|? ? Hr Hl]; subst. simpl in Hfree.
    apply orb_false_iff in Hfree as [Hk Hfree].
    rewrite filter_cons. destruct (decide _) as [(H1 & H2 & H3)|_].
    + exfalso. assert (has_key tk (_hash_msg tk role text) r = true) as E.
      { apply has_key_true. rewrite Hr, H1, H2, H3. split; reflexivity. }
      congruence.
    + apply IH; assumption.
Qed.

Lemma db_insert_message_fresh (d : DB) (tk role text : string) (now : Z) :
  Py.strip text ≠ "" →
  key_free d tk (_hash_msg tk role (Py.strip text)) →
  db_insert_message d tk role text now
  = (true,
     mkDB (messages d
           ++ [mkMessageRow (autoinc d + 1) tk
                 (_hash_msg tk role (Py.strip text)) role (Py.strip text) now])
       (autoinc d + 1) (thread_state d)).
Proof.
  intros Hne Hfree. unfold db_insert_message.
  apply strip_truthy in Hne. rewrite Hne. unfold key_free in Hfree.
  rewrite Hfree. reflexivity.
Qed.

Lemma db_insert_message_present (d : DB) (tk role text : string) (now : Z) :
  Py.truthy (Py.strip text) = true →
  existsb (has_key tk (_hash_msg tk role (Py.strip text))) (messages d) = true →
  db_insert_message d tk role text now
  = (false, mkDB (messages d) (autoinc d + 1) (thread_state d)).
Proof.
  intros Hne Hin. unfold db_insert_message. rewrite Hne, Hin. reflexivity.
Qed.

(** [str.strip] beyond ASCII: a no-break space (U+00A0) and an ideographic
    space (U+3000) are stripped, an accented letter is kept. *)
Example strip_unicode :
  Py.strip (String (ascii_of_nat 194) (String (ascii_of_nat 160)
              (" a b " +:+ String (ascii_of_nat 227)
                 (String (ascii_of_nat 128) (String (ascii_of_nat 128) "")))))
  = "a b"
  ∧ Py.strip (String (ascii_of_nat 195) (String (ascii_of_nat 169) " "))
    = String (ascii_of_nat 195) (String (ascii_of_nat 169) "").
Proof. split; reflexivity. Qed.

(** C3. Idempotent insertion. Text that is empty after stripping is rejected
    and the database is left as it was. For any other text, two insertions
    of the same (thread_key, role, text) into a store that does not yet hold
    the message's key: the first returns true and appends the row, under the
    next rowid; the second returns false, leaves the rows and the thread
    states as the first left them, and takes one rowid off the counter;
    exactly one row of that thread, role and (stripped) text is stored, the
    store having grown by one row. *)
Theorem insert_message_idempotent :
  ∀ (d : DB) (thread_key role text : string) (now1 now2 : Z),
    db_wf d →
    (Py.strip text = "" →
       db_insert_message d thread_key role text now1 = (false, d)) ∧
    (Py.strip text ≠ "" →
     key_free d thread_key (_hash_msg thread_key role (Py.strip text)) →
       let r1 := db_insert_message d thread_key role text now1 in
       let r2 := db_insert_message (snd r1) thread_key role text now2 in
       fst r1 = true ∧ fst r2 = false
       ∧ messages (snd r1)
         = messages d
           ++ [mkMessageRow (autoinc d + 1) thread_key
                 (_hash_msg thread_key role (Py.strip text)) role
                 (Py.strip text) now1]
       ∧ messages (snd r2) = messages (snd r1)
       ∧ thread_state (snd r2) = thread_state d
       ∧ autoinc (snd r1) = autoinc d + 1
       ∧ autoinc (snd r2) = autoinc d + 2
       ∧ length (rows_of (snd r2) thread_key role (Py.strip text)) = 1%nat
       ∧ length (messages (snd r2)) = S (length (messages d))).
Proof.
  intros d tk role text now1 now2 Hwf. split.
  - intros E. unfold db_insert_message. rewrite E. reflexivity.
  - intros Hne Hfree. cbv zeta.
    rewrite (db_insert_message_fresh d tk role text now1 Hne Hfree).
    cbn [fst snd].
    rewrite db_insert_message_present.
    2:{ apply strip_truthy in Hne. exact Hne. }
    2:{ cbn [messages]. rewrite existsb_app. cbn [existsb].
        rewrite (proj2 (has_key_true _ _ _)) by (split; reflexivity).
        apply orb_true_r. }
    cbn [fst snd messages autoinc thread_state].
    do 6 (split; [done|]). split; [lia|]. split.
    + unfold rows_of. cbn [messages]. rewrite filter_app, length_app.
      fold (rows_of d tk role (Py.strip text)).
      rewrite (key_free_no_rows d tk role (Py.strip text) Hwf Hfree).
      rewrite filter_cons. cbn [m_thread_key m_role m_text].
      destruct (decide _) as [_|N]; [reflexivity|]. exfalso. apply N. auto.
    + rewrite length_app. simpl. lia.
Qed.

(** The statement at a fresh store: a text of blanks and of a no-break space
    (U+00A0), and the text [" hello "] inserted twice. *)
Lemma insert_message_idempotent_witness :
  db_insert_message db_init "t1" "buyer"
    (" " +:+ String (ascii_of_nat 194) (String (ascii_of_nat 160) " ")) 5
  = (false, db_init)
  ∧ (let r1 := db_insert_message db_init "t1" "buyer" " hello " 5 in
     let r2 := db_insert_message (snd r1) "t1" "buyer" " hello " 6 in
     fst r1 = true ∧ fst r2 = false
     ∧ map (fun r => (m_id r, m_role r, m_text r)) (messages (snd r2))
       = [(1, "buyer", "hello")]
     ∧ autoinc (snd r2) = 2
     ∧ length (rows_of (snd r2) "t1" "buyer" "hello") = 1%nat).
Proof.
  split.
  - apply (insert_message_idempotent db_init "t1" "buyer"
             (" " +:+ String (ascii_of_nat 194) (String (ascii_of_nat 160) " "))
             5 5 db_wf_init).
    reflexivity.
  - destruct (proj2 (insert_message_idempotent db_init "t1" "buyer" " hello "
                       5 6 db_wf_init))
      as (H1 & H2 & H3 & H4 & _ & _ & H7 & H8 & _);
      [discriminate | reflexivity |].
    cbv zeta in *. split; [exact H1|]. split; [exact H2|].
    split; [by rewrite H4, H3|]. split; [exact H7|exact H8].
Defined.

(** The rowids after an insert, its repetition and another insert are 1 and
    3: the ignored statement has used up 2. *)
Example rowid_after_ignored_insert :
  let d1 := (db_insert_message db_init "t1" "buyer" "hello" 5).2 in
  let d2 := (db_insert_message d1 "t1" "buyer" "hello" 6).2 in
  let d3 := (db_insert_message d2 "t1" "buyer" "bye" 7).2 in
  map m_id (messages d3) = [1; 3].
Proof. vm_compute. reflexivity. Qed.

(** ** The approval flow *)

Section ApprovalFacts.

Implicit Types (a s : Approvals) (fid : nat) (f : Future).

(** What the guarded [set_result] does: nothing, or it completes the pending
    future stored under the request id. *)
Lemma set_result_if_pending_cases a request_id b :
  set_result_if_pending a request_id b = a
  ∨ ∃ fid, pending_approvals a !! request_id = Some fid
           ∧ futures a !! fid = Some FutPending
           ∧ set_result_if_pending a request_id b
             = mkApprovals (<[fid := FutResult b]> (futures a))
                 (pending_approvals a) (approval_meta a) (custom_reply_wait a)
                 (send_queue a).
Proof.
  unfold set_result_if_pending.
  destruct (pending_approvals a !! request_id) as [fid|] eqn:E; [|by left].
  destruct (futures a !! fid) as [[]|] eqn:F; try by left.
  right. exists fid. done.
Qed.

Lemma set_result_if_pending_maps a request_id b :
  pending_approvals (set_result_if_pending a request_id b) = pending_approvals a
  ∧ approval_meta (set_result_if_pending a request_id b) = approval_meta a
  ∧ custom_reply_wait (set_result_if_pending a request_id b) = custom_reply_wait a
  ∧ send_queue (set_result_if_pending a request_id b) = send_queue a.
Proof.
  destruct (set_result_if_pending_cases a request_id b) as [->|(fid & _ & _ & ->)];
    done.
Qed.

(** The future [fid] after a guarded [set_result]: as before, or completed
    with [b] when it was pending and is the one stored under the id. *)
Lemma set_result_if_pending_future a request_id b fid f :
  futures a !! fid = Some f →
  futures (set_result_if_pending a request_id b) !! fid = Some f
  ∨ (f = FutPending ∧ pending_approvals a !! request_id = Some fid
     ∧ futures (set_result_if_pending a request_id b) !! fid = Some (FutResult b)).
Proof.
  intros Hf.
  destruct (set_result_if_pending_cases a request_id b)
    as [->|(fid' & Hp & Hpend & ->)]; [by left|].
  cbn [futures]. destruct (decide (fid' = fid)) as [->|Hne].
  - right. rewrite Hf in Hpend. injection Hpend as ->. split; [done|].
    split; [done|]. apply list_lookup_insert_eq. by eapply lookup_lt_Some.
  - left. by rewrite list_lookup_insert_ne.
Qed.

Lemma split1_contains c data action rest :
  Py.split1 c data = (action, Some rest) → Py.contains_char c data = true.
Proof.
  revert action. induction data as [|d r IH]; intros action; simpl; [done|].
  destruct (Ascii.eqb c d); [done|].
  destruct (Py.split1 c r) as [x y] eqn:E. intros [= <- ->]. by eapply IH.
Qed.

Lemma handle_ui_future_step s fid f ev :
  futures s !! fid = Some f → future_step s fid ev (handle_ui s ev).1.
Proof.
  intros Hf. destruct ev as [chat data|chat text]; cbn [handle_ui].
  - unfold handle_approval.
    destruct (negb _); [by eapply fs_same; eauto|].
    destruct (Py.split1 "_" (default "" data)) as [action [rid|]] eqn:Hs;
      [|by eapply fs_same; eauto].
    destruct (approval_meta s !! rid) as [meta|]; [|by eapply fs_same; eauto].
    destruct (String.eqb action "approve" || String.eqb action "decline") eqn:Ha.
    + cbn [fst].
      destruct (set_result_if_pending_future s rid (String.eqb action "approve")
                  fid f Hf) as [Same|(-> & Hp & Hres)].
      * eapply fs_same; eauto. left. apply set_result_if_pending_maps.
      * destruct data as [data|]; [|done]. cbn [default] in Hs.
        pose proof (set_result_if_pending_maps s rid (String.eqb action "approve"))
          as (_ & _ & _ & Hq).
        destruct (String.eqb action "approve") eqn:Happ.
        -- apply String.eqb_eq in Happ as ->. by eapply fs_approve.
        -- cbn [orb] in Ha. apply String.eqb_eq in Ha as ->.
           by eapply fs_decline.
    + destruct (String.eqb action "custom"); by eapply fs_same; eauto.
  - unfold handle_admin_text.
    destruct (custom_reply_wait s !! chat) as [rid|] eqn:Hw;
      [|by eapply fs_same; eauto].
    destruct (approval_meta s !! rid) as [meta|] eqn:Hm;
      [|by eapply fs_same; eauto].
    destruct (negb _); [by eapply fs_same; eauto|]. cbn [fst].
    set (a1 := mkApprovals _ _ _ _ (send_queue s ++ _)).
    assert (futures a1 !! fid = Some f) as Hf1 by done.
    pose proof (set_result_if_pending_maps a1 rid true) as (_ & _ & _ & Hq).
    destruct (set_result_if_pending_future a1 rid true fid f Hf1)
      as [Same|(-> & Hp & Hres)].
    + eapply fs_same; [exact Hf|exact Same|].
      right. cbn [pop_custom_wait send_queue]. rewrite Hq. by eexists.
    + eapply fs_custom; eauto.
Qed.

(** No handler touches [pending_approvals] or [approval_meta], and the heap
    of futures keeps its size. *)
Lemma handle_ui_maps s ev :
  pending_approvals (handle_ui s ev).1 = pending_approvals s
  ∧ approval_meta (handle_ui s ev).1 = approval_meta s.
Proof.
  assert (∀ a rid b,
            pending_approvals (set_result_if_pending a rid b) = pending_approvals a
            ∧ approval_meta (set_result_if_pending a rid b) = approval_meta a) as Hset.
  { intros a rid b.
    destruct (set_result_if_pending_maps a rid b) as (? & ? & _). done. }
  destruct ev as [chat data|chat text]; cbn [handle_ui].
  - unfold handle_approval. repeat case_match; cbn [fst]; try done; apply Hset.
  - unfold handle_admin_text. repeat case_match; cbn [fst]; try done.
    cbn [pop_custom_wait pending_approvals approval_meta].
    by destruct (Hset (mkApprovals (futures s) (pending_approvals s)
                         (approval_meta s) (custom_reply_wait s)
                         (send_queue s
                          ++ [mkSendAction "send_custom" s0 (am_thread_key a)
                                (am_href a) (am_buyer_name a) (Py.strip text)
                                (am_meetup_log a)])) s0 true) as [-> ->].
Qed.

(** A future that is done is left alone by every handler. *)
Lemma handle_ui_done_stable s fid f ev :
  futures s !! fid = Some f → fut_done f = true →
  futures (handle_ui s ev).1 !! fid = Some f.
Proof.
  intros Hf Hd.
  destruct (handle_ui_future_step s fid f ev Hf)
    as [f' H1 H2 _|? ? ? _ _ _ H1|? ? ? _ _ _ H1|? ? ? ? _ _ _ _ H1];
    rewrite Hf in H1; simplify_eq; done.
Qed.

(** The wait ends with the future still pending or completed with a
    result. *)
Lemma await_future_outcome a fid evs :
  futures a !! fid = Some FutPending →
  futures (await_future a fid evs).1 !! fid = Some FutPending
  ∨ ∃ b, futures (await_future a fid evs).1 !! fid = Some (FutResult b).
Proof.
  revert a. induction evs as [|ev rest IH]; intros a Hp; cbn [await_future].
  - by left.
  - rewrite Hp. destruct (handle_ui a ev) as [a1 out1] eqn:E1.
    destruct (await_future a1 fid rest) as [a2 out2] eqn:E2. cbn [fst].
    pose proof (handle_ui_future_step a fid _ ev Hp) as Hs. rewrite E1 in Hs.
    cbn [fst] in Hs.
    assert (futures a1 !! fid = Some FutPending
            ∨ ∃ b, futures a1 !! fid = Some (FutResult b)) as [H1|[b H1]].
    { destruct Hs as [f' H1 H2 _|? ? ? _ _ _ _ H2|? ? ? _ _ _ _ H2
                     |? ? ? ? _ _ _ _ _ H2]; eauto.
      rewrite Hp in H1. simplify_eq. by left. }
    + specialize (IH a1 H1). rewrite E2 in IH. exact IH.
    + right. exists b. destruct rest as [|ev' rest']; cbn [await_future] in E2.
      * by injection E2 as <- _.
      * rewrite H1 in E2. by injection E2 as <- _.
Qed.

Lemma await_future_maps a fid evs :
  pending_approvals (await_future a fid evs).1 = pending_approvals a
  ∧ approval_meta (await_future a fid evs).1 = approval_meta a.
Proof.
  revert a. induction evs as [|ev rest IH]; intros a; cbn [await_future]; [done|].
  destruct (futures a !! fid) as [[]|]; try done.
  destruct (handle_ui a ev) as [a1 out1] eqn:E1.
  destruct (await_future a1 fid rest) as [a2 out2] eqn:E2. cbn [fst].
  specialize (IH a1). rewrite E2 in IH. cbn [fst] in IH.
  pose proof (handle_ui_maps a ev) as H. rewrite E1 in H. cbn [fst] in H.
  destruct IH as [-> ->]. exact H.
Qed.

End ApprovalFacts.

Lemma handle_uis_maps (evs : list UiEvent) (a : Approvals) :
  pending_approvals (handle_uis a evs) = pending_approvals a
  ∧ approval_meta (handle_uis a evs) = approval_meta a.
Proof.
  unfold handle_uis. revert a. induction evs as [|ev rest IH]; intros a; [done|].
  cbn [fold_left]. destruct (IH (handle_ui a ev).1) as [-> ->].
  apply handle_ui_maps.
Qed.

(** The handlers complete futures; only the timeout of its own wait cancels
    one. *)
Lemma handle_uis_never_cancel (evs : list UiEvent) (a : Approvals) (fid : nat)
    (f : Future) :
  futures a !! fid = Some f → f ≠ FutCancelled →
  ∃ f', futures (handle_uis a evs) !! fid = Some f' ∧ f' ≠ FutCancelled.
Proof.
  unfold handle_uis. revert a f.
  induction evs as [|ev rest IH]; intros a f Hf Hne; [by exists f|].
  cbn [fold_left].
  destruct (handle_ui_future_step a fid f ev Hf)
    as [f' H1 H2 _|? ? ? _ _ _ _ H2 _|? ? ? _ _ _ _ H2 _|? ? ? ? _ _ _ _ _ H2 _].
  - rewrite Hf in H1. injection H1 as <-. by eapply IH.
  - by eapply IH.
  - by eapply IH.
  - by eapply IH.
Qed.

Lemma appr_wf_init : appr_wf approvals_init.
Proof. intros rid fid H. cbn in H. by rewrite lookup_empty in H. Qed.

Lemma set_appr_same (w : World) : set_appr w (appr w) = w.
Proof. by destruct w. Qed.

Lemma flush_send_outbox (w : World) (tk buyer_name : string)
    (href : option string) (dec : Decision) (final_reply : json)
    (o : FlushOracle) :
  outbox (log (flush_send w tk buyer_name href dec final_reply o).2)
  = outbox (log w)
    ++ (if json_truthy final_reply
           && negb (Py.otruthy href
                    && negb (open_thread_by_href href (fo_goto_send o)))
           && send_message final_reply (fo_send o)
        then [(tk, as_str final_reply)] else []).
Proof.
  unfold flush_send.
  destruct (json_truthy final_reply); cbn [negb andb]; [|by rewrite app_nil_r].
  destruct (Py.otruthy href && negb _); cbn [negb andb]; [by rewrite app_nil_r|].
  destruct (send_message final_reply (fo_send o)); [|by rewrite app_nil_r].
  destruct (d_meetup_confirmed dec && Py.truthy (d_meetup_time_text dec));
    [|done].
  by destruct (fo_tg_report o).
Qed.

Lemma ask_human_approval_timeout (a : Approvals) (loop_time : float)
    (buyer : string) (intent yes_text no_text : json) (thread_key : string)
    (href meetup_log : option string) (evs : list UiEvent) :
  times_out a loop_time buyer intent yes_text no_text thread_key href
    meetup_log evs →
  (ask_human_approval a loop_time buyer intent yes_text no_text thread_key href
     meetup_log evs).1.1 = false.
Proof.
  unfold times_out, ask_human_approval, ask_human_approval_begin. cbv zeta.
  destruct (await_future _ _ evs) as [a2 out2]. cbn [fst]. intros Hp.
  unfold ask_human_approval_end. by rewrite Hp.
Qed.

(** A future that no request id refers to is out of reach of the handlers. *)
Lemma handle_ui_unreachable (s : Approvals) (fid : nat) (ev : UiEvent) :
  futures s !! fid = Some FutPending →
  (∀ request_id, pending_approvals s !! request_id ≠ Some fid) →
  futures (handle_ui s ev).1 !! fid = Some FutPending.
Proof.
  intros Hp Hno.
  destruct (handle_ui_future_step s fid _ ev Hp)
    as [f' H1 H2 _|? ? rid _ _ H1|? ? rid _ _ H1|? ? rid ? _ _ _ H1].
  - rewrite Hp in H1. by simplify_eq.
  - by destruct (Hno rid).
  - by destruct (Hno rid).
  - by destruct (Hno rid).
Qed.

Lemma handle_uis_unreachable (s : Approvals) (fid : nat) (evs : list UiEvent) :
  futures s !! fid = Some FutPending →
  (∀ request_id, pending_approvals s !! request_id ≠ Some fid) →
  futures (handle_uis s evs) !! fid = Some FutPending.
Proof.
  unfold handle_uis. revert s. induction evs as [|ev rest IH]; intros s Hp Hno.
  - exact Hp.
  - cbn [fold_left]. apply IH.
    + by apply handle_ui_unreachable.
    + intros rid. destruct (handle_ui_maps s ev) as [-> _]. apply Hno.
Qed.

(** Version 3: the same for its single handler. *)
Lemma v3_handle_approval_unreachable (s : Approvals) (fid : nat)
    (data : option string) :
  futures s !! fid = Some FutPending →
  (∀ request_id, pending_approvals s !! request_id ≠ Some fid) →
  futures (V3.handle_approval s data).1 !! fid = Some FutPending
  ∧ pending_approvals (V3.handle_approval s data).1 = pending_approvals s.
Proof.
  intros Hp Hno. unfold V3.handle_approval.
  destruct data as [data|]; [|done].
  destruct (Py.split1 "_" data) as [action [rid|]]; [|done].
  destruct (pending_approvals s !! rid) as [fid'|] eqn:E; [|done]. cbn [fst].
  split; [|apply set_result_if_pending_maps].
  destruct (set_result_if_pending_future s rid (String.eqb action "approve")
              fid _ Hp) as [H|(_ & H & _)]; [done|]. by destruct (Hno rid).
Qed.

Lemma request_id_at_eq (t1 t2 : float) :
  request_id_at t1 = request_id_at t2
  ↔ Py.int_of_float (t1 * 1000)%float = Py.int_of_float (t2 * 1000)%float.
Proof.
  unfold request_id_at. split; [apply (inj pretty)|by intros ->].
Qed.

(** The state after two requests were created one after the other, the
    second while the first was still waiting. *)
Lemma two_requests_heap (fs : list Future) :
  (fs ++ [FutPending]) ++ [FutPending] = fs ++ [FutPending; FutPending].
Proof. by rewrite <- app_assoc. Qed.

(** C10. The id of a request is the decimal text of the event-loop clock in
    whole milliseconds, so two requests have the same id exactly when their
    clocks agree after truncation.  With different ids both futures are
    registered and a button of either id completes its own future and leaves
    the other pending.  With the same id the entry of the first future is
    overwritten: the id leads to the second future, a button of that id
    completes the second future only, and no sequence of handler runs ever
    completes the first, whose call can end only by its timeout, with result
    false.  The same holds for the version 3 flow. *)
Theorem request_id_collision :
  ∀ (a : Approvals) (t1 t2 : float) (buyer1 buyer2 : string)
    (intent1 yes1 no1 intent2 yes2 no2 : json) (tk1 tk2 : string)
    (href1 ml1 href2 ml2 : option string),
    appr_wf a →
    let '(rid1, fid1, a1, _) :=
      ask_human_approval_begin a t1 buyer1 intent1 yes1 no1 tk1 href1 ml1 in
    let '(rid2, fid2, a2, _) :=
      ask_human_approval_begin a1 t2 buyer2 intent2 yes2 no2 tk2 href2 ml2 in
    rid1 = request_id_at t1 ∧ rid2 = request_id_at t2
    ∧ (rid1 = rid2
       ↔ Py.int_of_float (t1 * 1000)%float = Py.int_of_float (t2 * 1000)%float)
    ∧ fid1 ≠ fid2
    ∧ futures a2 !! fid1 = Some FutPending
    ∧ futures a2 !! fid2 = Some FutPending
    ∧ (rid1 ≠ rid2 →
       pending_approvals a2 !! rid1 = Some fid1
       ∧ pending_approvals a2 !! rid2 = Some fid2
       ∧ (∀ chat,
            let s := (handle_approval a2 chat (Some ("approve_" +:+ rid1))).1 in
            futures s !! fid1 = Some (FutResult true)
            ∧ futures s !! fid2 = Some FutPending)
       ∧ (∀ chat,
            let s := (handle_approval a2 chat (Some ("decline_" +:+ rid2))).1 in
            futures s !! fid2 = Some (FutResult false)
            ∧ futures s !! fid1 = Some FutPending))
    ∧ (rid1 = rid2 →
       pending_approvals a2 !! rid1 = Some fid2
       ∧ (∀ chat,
            let s := (handle_approval a2 chat (Some ("approve_" +:+ rid1))).1 in
            futures s !! fid2 = Some (FutResult true)
            ∧ futures s !! fid1 = Some FutPending)
       ∧ (∀ evs, futures (handle_uis a2 evs) !! fid1 = Some FutPending)
       ∧ (∀ evs, (ask_human_approval_end (handle_uis a2 evs) rid1 fid1).1 = false))
    ∧ (let '(_, _, b1, _) :=
         V3.ask_human_approval_begin a t1 buyer1 intent1 yes1 no1 in
       let '(_, _, b2, _) :=
         V3.ask_human_approval_begin b1 t2 buyer2 intent2 yes2 no2 in
       rid1 = rid2 →
       pending_approvals b2 !! rid1 = Some fid2
       ∧ (∀ datas,
            futures (fold_left (fun s d => (V3.handle_approval s d).1) datas b2)
              !! fid1 = Some FutPending)).
Proof.
  intros a t1 t2 buyer1 buyer2 intent1 yes1 no1 intent2 yes2 no2 tk1 tk2
    href1 ml1 href2 ml2 Hwf.
  unfold ask_human_approval_begin, V3.ask_human_approval_begin. cbv zeta.
  cbn [futures pending_approvals approval_meta custom_reply_wait send_queue].
  rewrite !length_app. cbn [length].
  set (rid1 := request_id_at t1). set (rid2 := request_id_at t2).
  set (n := length (futures a)).
  set (a2 := mkApprovals _ _ _ _ _).
  assert (futures a2 = futures a ++ [FutPending; FutPending]) as Hfs
    by apply two_requests_heap.
  assert (futures a2 !! n = Some FutPending) as Hp1.
  { rewrite Hfs, lookup_app_r by done.
    by replace (n - length (futures a))%nat with 0%nat by (unfold n; lia). }
  assert (futures a2 !! (n + 1)%nat = Some FutPending) as Hp2.
  { rewrite Hfs, lookup_app_r by (unfold n; lia).
    by replace (n + 1 - length (futures a))%nat with 1%nat by (unfold n; lia). }
  assert (∀ rid, pending_approvals a !! rid ≠ Some n) as Hold.
  { intros rid H. apply Hwf in H. unfold n in H. lia. }
  assert (∀ rid, pending_approvals a !! rid ≠ Some (n + 1)%nat) as Hold2.
  { intros rid H. apply Hwf in H. unfold n in H. lia. }
  assert (∀ chat data action rid fid b,
            Py.split1 "_" data = (action, Some rid) →
            rid = rid1 ∨ rid = rid2 →
            action = "approve" ∧ b = true ∨ action = "decline" ∧ b = false →
            pending_approvals a2 !! rid = Some fid →
            futures a2 !! fid = Some FutPending →
            futures (handle_approval a2 chat (Some data)).1
            = <[fid := FutResult b]> (futures a2)) as Htap.
  { intros chat data action rid fid b Hs Hwhich Hact Hrid Hfid.
    unfold handle_approval. change (default "" (Some data)) with data.
    rewrite (split1_contains _ _ _ _ Hs), Hs. cbn [negb].
    assert (is_Some (approval_meta a2 !! rid)) as [meta Hm].
    { unfold a2. cbn [approval_meta]. rewrite lookup_insert.
      destruct (decide (rid2 = rid)); [by eexists|].
      rewrite lookup_insert. destruct (decide (rid1 = rid)); [by eexists|].
      destruct Hwhich; congruence. }
    rewrite Hm.
    destruct Hact as [[-> ->]|[-> ->]]; cbn [String.eqb Ascii.eqb Bool.eqb orb fst];
      unfold set_result_if_pending; by rewrite Hrid, Hfid. }
  split; [done|]. split; [done|]. split; [apply request_id_at_eq|].
  split; [lia|]. split; [exact Hp1|]. split; [exact Hp2|]. split; [|split].
  - intros Hne.
    assert (pending_approvals a2 !! rid1 = Some n) as H1.
    { cbn [a2 pending_approvals]. rewrite lookup_insert_ne by done.
      apply lookup_insert_eq. }
    assert (pending_approvals a2 !! rid2 = Some (n + 1)%nat) as H2
      by apply lookup_insert_eq.
    split; [exact H1|]. split; [exact H2|]. split; intros chat; cbv zeta.
    + rewrite (Htap chat _ "approve" rid1 n true) by auto.
      rewrite list_lookup_insert_eq by (by eapply lookup_lt_Some).
      rewrite list_lookup_insert_ne by lia. done.
    + rewrite (Htap chat _ "decline" rid2 (n + 1)%nat false) by auto.
      rewrite list_lookup_insert_eq by (by eapply lookup_lt_Some).
      rewrite list_lookup_insert_ne by lia. done.
  - intros Heq.
    assert (pending_approvals a2 !! rid1 = Some (n + 1)%nat) as H2.
    { rewrite Heq. apply lookup_insert_eq. }
    assert (∀ rid, pending_approvals a2 !! rid ≠ Some n) as Hno.
    { intros rid. cbn [a2 pending_approvals]. rewrite <- Heq, insert_insert_eq.
      rewrite lookup_insert. destruct (decide (rid1 = rid)); [intros [=]; lia|].
      apply Hold. }
    split; [exact H2|]. split; [|split].
    + intros chat. cbv zeta.
      rewrite (Htap chat _ "approve" rid1 (n + 1)%nat true) by auto.
      rewrite list_lookup_insert_eq by (by eapply lookup_lt_Some).
      rewrite list_lookup_insert_ne by lia. done.
    + intros evs. by apply handle_uis_unreachable.
    + intros evs. unfold ask_human_approval_end.
      by rewrite (handle_uis_unreachable a2 n evs Hp1 Hno).
  - intros Heq. set (b2 := mkApprovals _ _ _ _ _).
    assert (futures b2 !! n = Some FutPending) as Hq1.
    { cbn [b2 futures]. rewrite two_requests_heap, lookup_app_r by done.
      by replace (n - length (futures a))%nat with 0%nat by (unfold n; lia). }
    assert (∀ rid, pending_approvals b2 !! rid ≠ Some n) as Hno.
    { intros rid. cbn [b2 pending_approvals]. rewrite <- Heq, insert_insert_eq.
      rewrite lookup_insert. destruct (decide (rid1 = rid)); [intros [=]; lia|].
      apply Hold. }
    split; [rewrite Heq; apply lookup_insert_eq|].
    intros datas. revert Hq1 Hno. generalize b2. clear.
    induction datas as [|d rest IH]; intros s Hq Hno; [exact Hq|].
    cbn [fold_left].
    destruct (v3_handle_approval_unreachable s n d Hq Hno) as [H1 H2].
    apply IH; [exact H1|]. intros rid. rewrite H2. apply Hno.
Qed.

(** ** Debounce windows and the scan loop *)

Lemma dict_get_set_eq {V} (k : string) (v : V) (d : list (string * V)) :
  dict_get k (dict_set k v d) = Some v.
Proof.
  induction d as [|[k' v'] r IH]; cbn [dict_set dict_get].
  - by rewrite String.eqb_refl.
  - destruct (String.eqb k k') eqn:E; cbn [dict_get]; rewrite E; [done|exact IH].
Qed.

Lemma dict_get_set_ne {V} (k k0 : string) (v : V) (d : list (string * V)) :
  k0 ≠ k → dict_get k0 (dict_set k v d) = dict_get k0 d.
Proof.
  intros Hne. induction d as [|[k' v'] r IH]; cbn [dict_set dict_get].
  - by rewrite (proj2 (String.eqb_neq k0 k) Hne).
  - destruct (String.eqb k k') eqn:E; cbn [dict_get].
    + apply String.eqb_eq in E as <-. by rewrite (proj2 (String.eqb_neq k0 k) Hne).
    + by rewrite IH.
Qed.

(** A window that is open keeps its [since_ts] through a notify of any
    thread. *)
Lemma debounce_notify_since_ts (p : list (string * PendingInfo))
    (tk tk0 : string) (href : option string) (name : string) (loop_now : float)
    (ts_now : Z) (info : PendingInfo) :
  dict_get tk0 p = Some info →
  ∃ info', dict_get tk0 (debounce_notify p tk href name loop_now ts_now)
             = Some info'
           ∧ p_since_ts info' = p_since_ts info.
Proof.
  intros Hopen. unfold debounce_notify.
  destruct (decide (tk0 = tk)) as [->|Hne].
  - rewrite Hopen, dict_get_set_eq. by eexists.
  - exists info. split; [|done].
    destruct (dict_get tk p); by rewrite dict_get_set_ne.
Qed.

(** The scan of a row leaves the windows alone or notifies one thread. *)
Lemma scan_row_pending (w : World) (i : nat) (obs : RowObs) :
  pending_threads (scan_row w i obs) = pending_threads w
  ∨ ∃ tk href name loop_now ts_now,
      pending_threads (scan_row w i obs)
      = debounce_notify (pending_threads w) tk href name loop_now ts_now.
Proof.
  unfold scan_row.
  destruct (ro_click obs) as [href|]; [|by left].
  destruct (negb (ro_scroller obs)); [by left|].
  destruct (negb (ro_at_bottom obs)); [by left|].
  destruct (negb (Py.otruthy (ro_bottom_text obs))); [by left|].
  cbv zeta. destruct (decide _); [by destruct (ro_side obs); left|].
  destruct (ro_side obs); try by left.
  destruct (decide _); [by left|]. right. by repeat eexists.
Qed.

Lemma scan_rows_since_ts (rows : list RowObs) (w : World) (i : nat)
    (tk : string) (info : PendingInfo) :
  dict_get tk (pending_threads w) = Some info →
  ∃ info', dict_get tk (pending_threads (scan_rows w i rows)) = Some info'
           ∧ p_since_ts info' = p_since_ts info.
Proof.
  revert w i info. induction rows as [|obs rest IH]; intros w i info Hopen.
  - by exists info.
  - cbn [scan_rows].
    assert (∃ info1, dict_get tk (pending_threads (scan_row w i obs)) = Some info1
                     ∧ p_since_ts info1 = p_since_ts info) as (info1 & H1 & E1).
    { destruct (scan_row_pending w i obs) as [->|(tk' & h & nm & l & t & ->)].
      - by exists info.
      - by apply debounce_notify_since_ts. }
    destruct (IH _ (S i) info1 H1) as (info' & H' & E').
    exists info'. split; [exact H'|congruence].
Qed.

(** C8. While a window is open for a thread, a notify of that thread leaves
    [since_ts] as it was and sets [last_update] to the event-loop clock,
    [href] and [buyer_name] to the new value when it is non-empty and to the
    old one otherwise; the windows of the other threads are untouched; and
    after any number of notifies of the thread, and after any scan of sidebar
    rows, the window is still open with the [since_ts] it was opened with. *)
Theorem since_ts_fixed_while_open :
  ∀ (w : World) (tk : string) (info : PendingInfo),
    dict_get tk (pending_threads w) = Some info →
    (∀ href name loop_now ts_now,
       dict_get tk
         (debounce_notify (pending_threads w) tk href name loop_now ts_now)
       = Some (mkPendingInfo (p_since_ts info) loop_now
                 (Py.opt_or href (p_href info))
                 (Py.str_or name (p_buyer_name info)))
       ∧ ∀ tk', tk' ≠ tk →
           dict_get tk'
             (debounce_notify (pending_threads w) tk href name loop_now ts_now)
           = dict_get tk' (pending_threads w))
    ∧ (∀ calls : list (option string * string * float * Z),
         ∃ info',
           dict_get tk
             (fold_left
                (fun p '(href, name, loop_now, ts_now) =>
                   debounce_notify p tk href name loop_now ts_now)
                calls (pending_threads w)) = Some info'
           ∧ p_since_ts info' = p_since_ts info)
    ∧ (∀ i rows,
         ∃ info',
           dict_get tk (pending_threads (scan_rows w i rows)) = Some info'
           ∧ p_since_ts info' = p_since_ts info).
Proof.
  intros w tk info Hopen. split; [|split].
  - intros href name loop_now ts_now. unfold debounce_notify. rewrite Hopen.
    split; [apply dict_get_set_eq|]. intros tk' Hne. by apply dict_get_set_ne.
  - intros calls. revert Hopen. generalize (pending_threads w). revert info.
    induction calls as [|[[[href name] loop_now] ts_now] rest IH];
      intros info p Hopen; cbn [fold_left].
    + by exists info.
    + destruct (debounce_notify_since_ts p tk tk href name loop_now ts_now info
                  Hopen) as (info1 & H1 & E1).
      destruct (IH info1 _ H1) as (info' & H' & E').
      exists info'. split; [exact H'|congruence].
  - intros i rows. by apply scan_rows_since_ts.
Qed.

(** An insertion leaves the rows as they are or appends the one new row. *)
Lemma db_insert_message_rows (d : DB) (tk role text : string) (now : Z) :
  (messages (db_insert_message d tk role text now).2 = messages d
   ∧ (Py.strip text = ""
      ∨ ¬ key_free d tk (_hash_msg tk role (Py.strip text))))
  ∨ (Py.strip text ≠ ""
     ∧ key_free d tk (_hash_msg tk role (Py.strip text))
     ∧ messages (db_insert_message d tk role text now).2
       = messages d
         ++ [mkMessageRow (autoinc d + 1) tk (_hash_msg tk role (Py.strip text))
               role (Py.strip text) now]).
Proof.
  unfold db_insert_message, key_free.
  destruct (Py.truthy (Py.strip text)) eqn:E; cbn [negb].
  - apply strip_truthy in E.
    destruct (existsb _ (messages d)) eqn:X; [left|right]; cbn [snd]; auto.
  - left. split; [done|]. left. by destruct (Py.strip text).
Qed.

Lemma db_upsert_thread_state_messages (d : DB) (tk name : string)
    (href b i s : option string) (now : Z) :
  messages (db_upsert_thread_state d tk name href b i s now) = messages d
  ∧ autoinc (db_upsert_thread_state d tk name href b i s now) = autoinc d.
Proof. done. Qed.

(** C9, as the code has it. When the bottom text observed for a thread
    equals the cached last-seen-bottom value, the scan of the row opens or
    refreshes no debounce window and changes no cache, approval state or
    outbound log. The bottom message is still handed to the idempotent
    insert, which runs before the jitter lock: the stored rows are unchanged
    when the side is unknown, when the scroller is not found or not at the
    bottom, or when the store already holds the message's key, and otherwise
    they grow by exactly the one row of the observed message. *)
Theorem unchanged_bottom_suppressed :
  ∀ (w : World) (i : nat) (obs : RowObs) (href : option string) (b : string),
    ro_click obs = Some href →
    ro_bottom_text obs = Some b →
    last_seen_bottom (caches w) !! thread_key_of i href (ro_buyer_name obs)
    = Some b →
    let tk := thread_key_of i href (ro_buyer_name obs) in
    let w' := scan_row w i obs in
    pending_threads w' = pending_threads w
    ∧ caches w' = caches w
    ∧ appr w' = appr w
    ∧ log w' = log w
    ∧ (messages (db w') = messages (db w)
       ∨ ∃ role,
           role_of_side (ro_side obs) = Some role
           ∧ ro_scroller obs = true ∧ ro_at_bottom obs = true
           ∧ Py.strip b ≠ ""
           ∧ key_free (db w) tk (_hash_msg tk role (Py.strip b))
           ∧ messages (db w')
             = messages (db w)
               ++ [mkMessageRow (autoinc (db w) + 1) tk
                     (_hash_msg tk role (Py.strip b)) role (Py.strip b)
                     (ro_t_insert obs)])
    ∧ (ro_side obs = UnknownSide → messages (db w') = messages (db w))
    ∧ (∀ role, role_of_side (ro_side obs) = Some role →
         ¬ key_free (db w) tk (_hash_msg tk role (Py.strip b)) →
         messages (db w') = messages (db w))
    ∧ (ro_scroller obs = false ∨ ro_at_bottom obs = false ∨ Py.strip b = "" →
       messages (db w') = messages (db w))
    ∧ (∀ role, role_of_side (ro_side obs) = Some role →
         ro_scroller obs = true → ro_at_bottom obs = true →
         Py.strip b ≠ "" →
         key_free (db w) tk (_hash_msg tk role (Py.strip b)) →
         messages (db w')
         = messages (db w)
           ++ [mkMessageRow (autoinc (db w) + 1) tk
                 (_hash_msg tk role (Py.strip b)) role (Py.strip b)
                 (ro_t_insert obs)]
         ∧ autoinc (db w') = autoinc (db w) + 1)
    ∧ thread_state (db w')
      = <[tk := mkThreadStateRow (ro_buyer_name obs)
                  (match href with
                   | Some h => Some h
                   | None => thread_state (db w) !! tk ≫= ts_thread_href
                   end)
                  (Some b) (last_seen_incoming (caches w) !! tk)
                  (last_sent_by_us (caches w) !! tk) (ro_t_meta obs)]>
          (thread_state (db w)).
Proof.
  intros w i obs href b Hclick Hbot Hcache tk w'.
  unfold w', scan_row. rewrite Hclick, Hbot. fold tk. cbv zeta.
  change (default "" (Some b)) with b.
  set (w1 := upsert_from_caches w tk (ro_buyer_name obs) href (ro_t_meta obs)).
  assert (messages (db w1) = messages (db w) ∧ autoinc (db w1) = autoinc (db w)
          ∧ pending_threads w1 = pending_threads w ∧ caches w1 = caches w
          ∧ appr w1 = appr w ∧ log w1 = log w) as (Hm1 & Ha1 & Hp1 & Hc1 & Hap1 & Hl1)
    by done.
  assert (thread_state (db w1)
          = <[tk := mkThreadStateRow (ro_buyer_name obs)
                      (match href with
                       | Some h => Some h
                       | None => thread_state (db w) !! tk ≫= ts_thread_href
                       end)
                      (Some b) (last_seen_incoming (caches w) !! tk)
                      (last_sent_by_us (caches w) !! tk) (ro_t_meta obs)]>
              (thread_state (db w))) as Hts1.
  { unfold w1, upsert_from_caches, db_upsert_thread_state.
    cbn [set_db db thread_state].
    assert (last_seen_bottom (caches w) !! tk = Some b) as -> by exact Hcache.
    by destruct (thread_state (db w) !! tk), href. }
  assert (∀ role, key_free (db w1) tk (_hash_msg tk role (Py.strip b))
                  ↔ key_free (db w) tk (_hash_msg tk role (Py.strip b))) as Hkf.
  { intros role. unfold key_free. by rewrite Hm1. }
  assert (∀ wf : World,
            pending_threads wf = pending_threads w → caches wf = caches w →
            appr wf = appr w → log wf = log w →
            messages (db wf) = messages (db w) →
            thread_state (db wf) = thread_state (db w1) →
            (ro_scroller obs = false ∨ ro_at_bottom obs = false
             ∨ ro_side obs = UnknownSide ∨ Py.strip b = ""
             ∨ ∃ role, role_of_side (ro_side obs) = Some role
                       ∧ ¬ key_free (db w) tk (_hash_msg tk role (Py.strip b))) →
            pending_threads wf = pending_threads w
            ∧ caches wf = caches w ∧ appr wf = appr w ∧ log wf = log w
            ∧ (messages (db wf) = messages (db w)
               ∨ ∃ role,
                   role_of_side (ro_side obs) = Some role
                   ∧ ro_scroller obs = true ∧ ro_at_bottom obs = true
                   ∧ Py.strip b ≠ ""
                   ∧ key_free (db w) tk (_hash_msg tk role (Py.strip b))
                   ∧ messages (db wf)
                     = messages (db w)
                       ++ [mkMessageRow (autoinc (db w) + 1) tk
                             (_hash_msg tk role (Py.strip b)) role (Py.strip b)
                             (ro_t_insert obs)])
            ∧ (ro_side obs = UnknownSide → messages (db wf) = messages (db w))
            ∧ (∀ role, role_of_side (ro_side obs) = Some role →
                 ¬ key_free (db w) tk (_hash_msg tk role (Py.strip b)) →
                 messages (db wf) = messages (db w))
            ∧ (ro_scroller obs = false ∨ ro_at_bottom obs = false
               ∨ Py.strip b = "" →
               messages (db wf) = messages (db w))
            ∧ (∀ role, role_of_side (ro_side obs) = Some role →
                 ro_scroller obs = true → ro_at_bottom obs = true →
                 Py.strip b ≠ "" →
                 key_free (db w) tk (_hash_msg tk role (Py.strip b)) →
                 messages (db wf)
                 = messages (db w)
                   ++ [mkMessageRow (autoinc (db w) + 1) tk
                         (_hash_msg tk role (Py.strip b)) role (Py.strip b)
                         (ro_t_insert obs)]
                 ∧ autoinc (db wf) = autoinc (db w) + 1)
            ∧ thread_state (db wf)
              = <[tk := mkThreadStateRow (ro_buyer_name obs)
                          (match href with
                           | Some h => Some h
                           | None =>
                               thread_state (db w) !! tk ≫= ts_thread_href
                           end)
                          (Some b) (last_seen_incoming (caches w) !! tk)
                          (last_sent_by_us (caches w) !! tk) (ro_t_meta obs)]>
                  (thread_state (db w))) as Hsame.
  { intros wf Hp Hc Ha Hl Hm Ht Hwhy. do 4 (split; [done|]).
    split; [by left|]. do 3 (split; [done|]). split; [|by rewrite Ht].
    intros role Hrole Hsc Hab Hne Hfree. exfalso.
    destruct Hwhy as [E|[E|[E|[E|(role' & Hr' & Hnot)]]]]; try congruence.
    by rewrite E in Hrole. }
  destruct (ro_scroller obs) eqn:Hsc; cbn [negb]; [|apply Hsame; auto].
  destruct (ro_at_bottom obs) eqn:Hab; cbn [negb]; [|apply Hsame; auto].
  destruct (Py.otruthy (Some b)) eqn:Hb; cbn [negb].
  2:{ apply Hsame; auto. do 3 right. left. by destruct b. }
  assert (∀ role,
            role_of_side (ro_side obs) = Some role →
            let wf :=
              set_db w1 (db_insert_message (db w1) tk role b (ro_t_insert obs)).2
            in
            pending_threads wf = pending_threads w
            ∧ caches wf = caches w ∧ appr wf = appr w ∧ log wf = log w
            ∧ (messages (db wf) = messages (db w)
               ∨ ∃ role,
                   role_of_side (ro_side obs) = Some role
                   ∧ true = true ∧ true = true
                   ∧ Py.strip b ≠ ""
                   ∧ key_free (db w) tk (_hash_msg tk role (Py.strip b))
                   ∧ messages (db wf)
                     = messages (db w)
                       ++ [mkMessageRow (autoinc (db w) + 1) tk
                             (_hash_msg tk role (Py.strip b)) role (Py.strip b)
                             (ro_t_insert obs)])
            ∧ (ro_side obs = UnknownSide → messages (db wf) = messages (db w))
            ∧ (∀ role, role_of_side (ro_side obs) = Some role →
                 ¬ key_free (db w) tk (_hash_msg tk role (Py.strip b)) →
                 messages (db wf) = messages (db w))
            ∧ (true = false ∨ true = false ∨ Py.strip b = "" →
               messages (db wf) = messages (db w))
            ∧ (∀ role, role_of_side (ro_side obs) = Some role →
                 true = true → true = true →
                 Py.strip b ≠ "" →
                 key_free (db w) tk (_hash_msg tk role (Py.strip b)) →
                 messages (db wf)
                 = messages (db w)
                   ++ [mkMessageRow (autoinc (db w) + 1) tk
                         (_hash_msg tk role (Py.strip b)) role (Py.strip b)
                         (ro_t_insert obs)]
                 ∧ autoinc (db wf) = autoinc (db w) + 1)
            ∧ thread_state (db wf)
              = <[tk := mkThreadStateRow (ro_buyer_name obs)
                          (match href with
                           | Some h => Some h
                           | None =>
                               thread_state (db w) !! tk ≫= ts_thread_href
                           end)
                          (Some b) (last_seen_incoming (caches w) !! tk)
                          (last_sent_by_us (caches w) !! tk) (ro_t_meta obs)]>
                  (thread_state (db w))) as Hins.
  { intros role Hrole. cbv zeta. cbn [set_db pending_threads caches appr log db].
    pose proof (db_insert_message_rows (db w1) tk role b (ro_t_insert obs))
      as Hrows. rewrite Hm1, Ha1 in Hrows.
    assert (thread_state (db_insert_message (db w1) tk role b (ro_t_insert obs)).2
            = thread_state (db w1)) as Hts.
    { unfold db_insert_message.
      destruct (negb (Py.truthy (Py.strip b))); [done|].
      by destruct (existsb _ _). }
    do 4 (split; [done|]). split.
    { destruct Hrows as [[-> _]|(Hne & Hfree & ->)]; [by left|].
      right. exists role. apply Hkf in Hfree. done. }
    split; [intros E; by rewrite E in Hrole|]. split.
    { intros role' Hr' Hnot. rewrite Hrole in Hr'. injection Hr' as <-.
      destruct Hrows as [[-> _]|(_ & Hfree & _)]; [done|].
      apply Hkf in Hfree. done. }
    split.
    { intros [E|[E|E]]; try done.
      destruct Hrows as [[-> _]|(Hne & _)]; done. }
    split; [|by rewrite Hts].
    intros role' Hr' _ _ Hne Hfree. rewrite Hrole in Hr'. injection Hr' as <-.
    apply Hkf in Hfree.
    rewrite (db_insert_message_fresh (db w1) tk role b (ro_t_insert obs) Hne
               Hfree).
    cbn [snd messages autoinc]. by rewrite Hm1, Ha1. }
  destruct (ro_side obs) eqn:Hside; cbn [role_of_side] in *.
  - rewrite decide_True by (cbn [set_db caches]; by rewrite Hc1).
    by apply (Hins "buyer").
  - rewrite decide_True by (cbn [set_db caches]; by rewrite Hc1).
    by apply (Hins "seller").
  - rewrite decide_True by (by rewrite Hc1). apply Hsame; auto.
Qed.

(** ** The decision and the dispatch *)



Lemma flush_send_failed (w : World) (tk buyer_name : string)
    (href : option string) (dec : Decision) (final_reply : json)
    (o : FlushOracle) :
  send_message final_reply (fo_send o) = false →
  (flush_send w tk buyer_name href dec final_reply o).2 = w.
Proof.
  intros Hs. unfold flush_send. rewrite Hs.
  destruct (negb (json_truthy final_reply)); [done|].
  by destruct (Py.otruthy href && negb _).
Qed.

Lemma send_message_failed (text : json) : send_message text false = false.
Proof. by destruct text. Qed.

Lemma flush_decide_store (w : World) (tk buyer_name : string)
    (href : option string) (dec : Decision) (o : FlushOracle) :
  db (flush_decide w tk buyer_name href dec o).2 = db w
  ∧ caches (flush_decide w tk buyer_name href dec o).2 = caches w
  ∧ outbox (log (flush_decide w tk buyer_name href dec o).2) = outbox (log w)
  ∧ meetups (log (flush_decide w tk buyer_name href dec o).2) = meetups (log w).
Proof.
  unfold flush_decide. cbv zeta.
  destruct (d_requires_approval dec); [|done].
  destruct (ask_human_approval _ _ _ _ _ _ _ _ _ _) as [[b a'] out].
  by destruct (Py.truthy (d_notes_for_owner dec)).
Qed.

(** A flush that ends in one of the Telegram messages of the approval has
    touched neither the store, the caches, the windows nor what was sent. *)
Lemma approval_raises_store (w w' : World) (tk buyer_name : string)
    (href : option string) (dec : Decision) (o : FlushOracle) :
  approval_raises w tk buyer_name href dec o = Some w' →
  db w' = db w ∧ caches w' = caches w
  ∧ outbox (log w') = outbox (log w) ∧ meetups (log w') = meetups (log w)
  ∧ pending_threads w' = pending_threads w
  ∧ product_cfg w' = product_cfg w ∧ ai_calls (log w') = ai_calls (log w).
Proof.
  unfold approval_raises. destruct (d_requires_approval dec); [|done].
  destruct (Py.truthy (d_notes_for_owner dec)); cbn [andb].
  - destruct (negb (fo_tg_note o)); [by intros [= <-]|].
    destruct (fo_tg_ask o); [done|]. by intros [= <-].
  - destruct (fo_tg_ask o); [done|]. by intros [= <-].
Qed.

(** C6. When the Sender fails, the [ok] of the dispatch is false and the
    dispatch leaves the whole state as it was, in the flush and in the send
    queue alike; a whole flush iteration whose send fails leaves the message
    rows, the thread states, the caches, the outbox and the meetup log
    unchanged. Conversely a dispatch that changes the state had a successful
    send. *)
Theorem failed_send_changes_nothing :
  ∀ (json_loads : string → option (gmap string json)) (w : World)
    (tk buyer_name : string) (href : option string) (dec : Decision)
    (final_reply : json) (info : PendingInfo) (action : SendAction)
    (o : FlushOracle) (so : SendOracle),
    fo_send o = false →
    so_send so = false →
    send_message final_reply (fo_send o) = false
    ∧ (flush_send w tk buyer_name href dec final_reply o).2 = w
    ∧ drain_action w action so = w
    ∧ (let w' := (flush_thread json_loads w tk info o).2 in
       db w' = db w ∧ caches w' = caches w
       ∧ outbox (log w') = outbox (log w) ∧ meetups (log w') = meetups (log w))
    ∧ (∀ o', (flush_send w tk buyer_name href dec final_reply o').2 ≠ w →
             fo_send o' = true
             ∧ send_message final_reply (fo_send o') = true)
    ∧ (∀ so', drain_action w action so' ≠ w → so_send so' = true).
Proof.
  intros json_loads w tk buyer_name href dec final_reply info action o so Hfo Hso.
  assert (∀ text, send_message text (fo_send o) = false) as Hsend.
  { intros text. rewrite Hfo. apply send_message_failed. }
  split; [apply Hsend|]. split; [by apply flush_send_failed|]. split.
  { unfold drain_action. rewrite Hso. cbn [send_message].
    by repeat (case_match; try done). }
  split.
  { cbv zeta. unfold flush_thread. cbv zeta.
    destruct (Py.otruthy (p_href info) && negb _); [done|].
    destruct (db_get_recent_buyer_messages_since _ _ _ _); [done|].
    set (w1 := log_ai_call w _ _).
    destruct (read_decision _ _) as [dec1|]; [|done].
    destruct (approval_raises w1 tk _ (p_href info) dec1 o) as [wr|] eqn:Er.
    { cbn [snd].
      by destruct (approval_raises_store _ _ _ _ _ _ _ Er)
        as (-> & -> & -> & -> & _). }
    destruct (flush_decide w1 tk _ (p_href info) dec1 o) as [fin w2] eqn:E.
    pose proof (flush_decide_store w1 tk (Py.str_or (p_buyer_name info) "Buyer")
                  (p_href info) dec1 o) as Hst.
    rewrite E in Hst. cbn [snd] in Hst.
    rewrite flush_send_failed by apply Hsend. exact Hst. }
  split.
  - intros o' Hch. destruct (fo_send o') eqn:E.
    + split; [done|]. destruct (send_message final_reply true) eqn:E2; [done|].
      destruct Hch. apply flush_send_failed. by rewrite E.
    + destruct Hch. apply flush_send_failed. rewrite E.
      apply send_message_failed.
  - intros so' Hch. destruct (so_send so') eqn:E; [done|]. destruct Hch.
    unfold drain_action. rewrite E. cbn [send_message].
    by repeat (case_match; try done).
Qed.



(** ** The properties on the run of [Scenario] *)

Section OnTheRun.

Import Scenario.

(** C1, as the code behaves. The buyer asks for a pickup time, the decision
    requires approval, the operator taps Custom and types his own reply. The
    waiting call answers true, so the flush sends the suggested accept text;
    the next iteration of the loop takes the custom action off the queue and
    sends the operator's text as well: the buyer gets both, and both are
    stored as seller messages. *)
Theorem custom_reply_sends_suggested_text_too :
  send_queue (appr w2)
  = [mkSendAction "send_custom" "14500" thread (Some thread) "Bob"
       "I'll confirm tonight" None]
  ∧ outbox (log w2) = [(thread, "Yes, 5pm works.")]
  ∧ outbox (log w3)
    = [(thread, "Yes, 5pm works."); (thread, "I'll confirm tonight")]
  ∧ map (fun r => (m_role r, m_text r)) (messages (db w3))
    = [("buyer", "Can I pick it up at 5pm?"); ("seller", "Yes, 5pm works.");
       ("seller", "I'll confirm tonight")].
Proof. vm_compute. repeat split. Qed.

(** C10 on two requests created 0.5 ms apart: the first future is still
    pending after the buttons of the shared id were pressed. *)
Lemma request_id_collision_witness :
  appr_wf approvals_init
  ∧ futures
      (handle_uis
         (ask_human_approval_begin
            (ask_human_approval_begin approvals_init 14.5 "Bob" JNull JNull
               JNull "/t/1" None None).1.2
            14.50048828125 "Eve" JNull JNull JNull "/t/2" None None).1.2
         [CallbackQuery "42" (Some "approve_14500");
          CallbackQuery "42" (Some "decline_14500")])
    !! 0%nat = Some FutPending.
Proof.
  split; [exact appr_wf_init|].
  pose proof (request_id_collision approvals_init 14.5 14.50048828125 "Bob"
                "Eve" JNull JNull JNull JNull JNull JNull "/t/1" "/t/2" None
                None None None appr_wf_init) as H.
  unfold ask_human_approval_begin in H |- *. cbv zeta in H. cbn [fst snd].
  destruct H as (_ & _ & Hiff & _ & _ & _ & _ & Hsame & _).
  apply Hsame. apply Hiff. vm_compute. reflexivity.
Defined.

(** C8 on the run: the window opened in the first tick, after the buyer's
    next message is scanned. *)
Lemma since_ts_fixed_while_open_witness :
  ∃ info',
    dict_get thread
      (pending_threads (scan_rows w1 0 [row_echo "Is 6pm fine too?" 102 12]))
    = Some info'
    ∧ p_since_ts info' = 100.
Proof.
  apply (since_ts_fixed_while_open w1 thread
           (mkPendingInfo 100 10 (Some thread) "Bob")).
  vm_compute. reflexivity.
Defined.

(** C9 as claimed fails: our reply "Yes, 5pm works." is the cached bottom
    text of the thread after the second tick; the buyer answers with the same
    words, the scan sees the cached text again, and a new buyer row is
    stored all the same. *)
Lemma unchanged_bottom_inserts_counterexample :
  let obs := row_echo "Yes, 5pm works." 130 20 in
  last_seen_bottom (caches w2) !! thread = ro_bottom_text obs
  ∧ messages (db (scan_row w2 0 obs)) ≠ messages (db w2).
Proof.
  cbv zeta. split; [vm_compute; reflexivity|].
  intros H. apply (f_equal (@length MessageRow)) in H. vm_compute in H.
  discriminate H.
Qed.

(** C9 as amended, on the same observation. *)
Lemma unchanged_bottom_suppressed_witness :
  pending_threads (scan_row w2 0 (row_echo "Yes, 5pm works." 130 20))
  = pending_threads w2.
Proof.
  refine (proj1 (unchanged_bottom_suppressed w2 0
                   (row_echo "Yes, 5pm works." 130 20) (Some thread)
                   "Yes, 5pm works." eq_refl eq_refl _)).
  vm_compute. reflexivity.
Defined.


(** C6 on the run: the flush of the second tick with a failing send. *)
Lemma failed_send_changes_nothing_witness :
  db (flush_thread json_loads w1 thread (mkPendingInfo 100 10 (Some thread) "Bob")
        (flush_with [] false)).2 = db w1.
Proof.
  refine (proj1 (proj1 (proj2 (proj2 (proj2
            (failed_send_changes_nothing json_loads w1 thread "Bob" (Some thread)
               decision JNull (mkPendingInfo 100 10 (Some thread) "Bob")
               (mkSendAction "send_custom" "14500" thread (Some thread) "Bob"
                  "I'll confirm tonight" None)
               (flush_with [] false) send_failing eq_refl eq_refl)))))).
Defined.



(** C4 where the code fails it.  The decision of the second tick requires
    approval and Telegram cannot be reached when the request is to be sent:
    the flush raises with the request 14500 in both tables and its future
    pending.  Nothing was sent to the buyer or to the owner; nothing waits
    for the future, so no timeout ever cancels it, and no handler and no
    later iteration of the loop takes the request out of the tables. *)
Theorem undelivered_request_is_never_resolved :
  let r := flush_thread json_loads w1 thread window flush_undelivered in
  r.1 = Raised
  ∧ pending_approvals (appr r.2) !! "14500" = Some 0%nat
  ∧ futures (appr r.2) !! 0%nat = Some FutPending
  ∧ is_Some (approval_meta (appr r.2) !! "14500")
  ∧ outbox (log r.2) = [] ∧ tg_out (log r.2) = []
  ∧ pending_threads r.2 = pending_threads w1
  ∧ (let w' :=
       run_bot_tick json_loads (run_bot_tick json_loads w1 tick_undelivered)
         tick_idle in
     pending_threads w' = []
     ∧ pending_approvals (appr w') !! "14500" = Some 0%nat
     ∧ futures (appr w') !! 0%nat = Some FutPending
     ∧ is_Some (approval_meta (appr w') !! "14500")
     ∧ outbox (log w') = [])
  ∧ (∀ evs,
       let a := handle_uis (appr r.2) evs in
       pending_approvals a !! "14500" = Some 0%nat
       ∧ is_Some (approval_meta a !! "14500")
       ∧ futures a !! 0%nat ≠ Some FutCancelled).
Proof.
  cbv zeta.
  set (r := flush_thread json_loads w1 thread window flush_undelivered).
  assert (pending_approvals (appr r.2) !! "14500" = Some 0%nat) as Hp
    by (vm_compute; reflexivity).
  assert (futures (appr r.2) !! 0%nat = Some FutPending) as Hf
    by (vm_compute; reflexivity).
  assert (is_Some (approval_meta (appr r.2) !! "14500")) as Hm
    by (vm_compute; eexists; reflexivity).
  split; [vm_compute; reflexivity|]. split; [exact Hp|]. split; [exact Hf|].
  split; [exact Hm|]. split; [vm_compute; reflexivity|].
  split; [vm_compute; reflexivity|]. split; [vm_compute; reflexivity|]. split.
  { split; [vm_compute; reflexivity|]. split; [vm_compute; reflexivity|].
    split; [vm_compute; reflexivity|].
    split; [vm_compute; eexists; reflexivity|vm_compute; reflexivity]. }
  intros evs. destruct (handle_uis_maps evs (appr r.2)) as [-> ->].
  split; [exact Hp|]. split; [exact Hm|].
  destruct (handle_uis_never_cancel evs (appr r.2) 0 FutPending Hf)
    as (f' & -> & Hne); [done|]. congruence.
Qed.

(** C5 where the code fails it.  Version 3: the engine requires approval
    and gives the empty text for a refusal; nobody answers the request, the call
    returns false after its timeout, and the reply that goes out is the
    canned offer.  Version 4 on a request that Telegram does not take: the
    flush raises and no text goes out at all. *)
Theorem timeout_without_decline_text_sends_the_offer :
  let r :=
    V3.flush_thread json_loads_deal w1 thread window (flush_with [] true) in
  V3.requires_approval engine_deal = true
  ∧ engine_deal !! "reply_if_declined" = Some (JStr "")
  ∧ (V3.ask_human_approval (appr w1) 14.5 "Bob"
       (JStr "Buyer asks for a discount") (JStr "Deal, 3 dollars it is.")
       (JStr "") []).1.1 = false
  ∧ r.1 = Next
  ∧ outbox (log r.2) = [(thread, V3.default_reply)]
  ∧ V3.default_reply
    = "Hi! Yes, it‚Äôs available. Pickup at Richmond Public Library main branch (Brighouse). Available Mon-Fri after 4pm. What time works for you?"
  ∧ tg_out (log r.2)
    = [TgApprovalRequest "14500" "Bob" (JStr "Buyer asks for a discount")
         (JStr "Deal, 3 dollars it is.") (JStr "");
       TgSent "Bob" V3.default_reply]
  ∧ (let r4 := flush_thread json_loads w1 thread window flush_undelivered in
     r4.1 = Raised ∧ outbox (log r4.2) = []).
Proof.
  cbv zeta. repeat split; vm_compute; reflexivity.
Qed.

End OnTheRun.

(** * Further properties *)

(** ** Stripping *)

Lemma rstrip_idem (s : string) : Py.rstrip (Py.rstrip s) = Py.rstrip s.
Proof.
  induction s as [|c r IH]; [done|]. cbn [Py.rstrip]. cbv zeta.
  destruct (Py.is_space_char (String c (Py.rstrip r))) eqn:E; [done|].
  cbn [Py.rstrip]. cbv zeta. by rewrite IH, E.
Qed.

(** A text that [rstrip] leaves alone: so are its tails, and none of them
    is a single white-space code point. *)
Lemma rstrip_fix_tail (c : ascii) (r : string) :
  Py.rstrip (String c r) = String c r →
  Py.rstrip r = r ∧ Py.is_space_char (String c r) = false.
Proof.
  cbn [Py.rstrip]. cbv zeta.
  destruct (Py.is_space_char (String c (Py.rstrip r))) eqn:E; [done|].
  intros [= H]. by rewrite H in E.
Qed.

Lemma lstrip_no_lead (s : string) : lead_space s = false → Py.lstrip s = s.
Proof.
  destruct s as [|c1 [|c2 [|c3 r3]]]; cbn [lead_space Py.lstrip]; [done|..].
  - rewrite orb_false_r. by intros ->.
  - rewrite orb_false_r. intros H. apply orb_false_iff in H as [H1 H2].
    by rewrite H1, H2.
  - intros H. apply orb_false_iff in H as [H1 H].
    apply orb_false_iff in H as [H2 H3]. by rewrite H1, H2, H3.
Qed.

Lemma lstrip_lead (s : string) : lead_space (Py.lstrip s) = false.
Proof.
  assert (∀ n s, (String.length s ≤ n)%nat → lead_space (Py.lstrip s) = false)
    as H; [|by apply (H (String.length s))].
  clear s. induction n as [|n IH]; intros s Hlen.
  { destruct s; [done|cbn in Hlen; lia]. }
  destruct s as [|c1 r1]; [done|]. cbn [String.length] in Hlen.
  cbn [Py.lstrip]. destruct (Py.is_space c1) eqn:E1; [apply IH; lia|].
  destruct r1 as [|c2 r2]; [by cbn; rewrite E1|]. cbn [String.length] in Hlen.
  destruct (Py.is_space2 c1 c2) eqn:E2; [apply IH; lia|].
  destruct r2 as [|c3 r3]; [by cbn; rewrite E1, E2|].
  cbn [String.length] in Hlen.
  destruct (Py.is_space3 c1 c2 c3) eqn:E3; [apply IH; lia|].
  cbn. by rewrite E1, E2, E3.
Qed.

(** What [rstrip] keeps begins as the text does. *)
Lemma rstrip_lead (s : string) :
  lead_space s = false → lead_space (Py.rstrip s) = false.
Proof.
  assert (∀ c r, Py.rstrip (String c r) = ""
                 ∨ Py.rstrip (String c r) = String c (Py.rstrip r)) as Hstep.
  { intros c r. cbn [Py.rstrip]. cbv zeta.
    destruct (Py.is_space_char _); auto. }
  destruct s as [|c1 r1]; [done|].
  destruct (Hstep c1 r1) as [-> | ->]; [done|].
  cbn [lead_space]. intros [E1 H]%orb_false_iff. rewrite E1. cbn [orb].
  destruct r1 as [|c2 r2]; [done|].
  destruct (Hstep c2 r2) as [-> | ->]; [done|].
  apply orb_false_iff in H as [E2 H]. rewrite E2. cbn [orb].
  destruct r2 as [|c3 r3]; [done|].
  destruct (Hstep c3 r3) as [-> | ->]; [done|]. exact H.
Qed.

Lemma strip_idem (s : string) : Py.strip (Py.strip s) = Py.strip s.
Proof.
  unfold Py.strip.
  rewrite (lstrip_no_lead (Py.rstrip (Py.lstrip s))).
  - apply rstrip_idem.
  - apply rstrip_lead, lstrip_lead.
Qed.

(** ** The store *)

Lemma key_free_not_in (d : DB) (tk mh : string) :
  key_free d tk mh ↔ (tk, mh) ∉ map row_key (messages d).
Proof.
  unfold key_free. induction (messages d) as [|r l IH]; cbn [existsb map].
  - split; [intros _; apply not_elem_of_nil|done].
  - rewrite orb_false_iff, IH, not_elem_of_cons. unfold row_key at 1.
    split.
    + intros [Hk Hl]. split; [|done]. intros [= -> ->].
      unfold has_key in Hk. by rewrite !String.eqb_refl in Hk.
    + intros [Hk Hl]. split; [|done].
      destruct (has_key tk mh r) eqn:E; [|done].
      apply has_key_true in E as [<- <-]. done.
Qed.

Lemma store_inv_init : store_inv db_init.
Proof.
  split; [constructor|]. split; [constructor|]. split; [|by repeat split].
  intros i j ri rj H. cbn [db_init messages] in H. by destruct i.
Qed.

Lemma db_insert_message_cases (d : DB) (tk role text : string) (now : Z) :
  (Py.strip text = "" ∧ db_insert_message d tk role text now = (false, d))
  ∨ (Py.strip text ≠ ""
     ∧ ¬ key_free d tk (_hash_msg tk role (Py.strip text))
     ∧ db_insert_message d tk role text now
       = (false, mkDB (messages d) (autoinc d + 1) (thread_state d)))
  ∨ (Py.strip text ≠ ""
     ∧ key_free d tk (_hash_msg tk role (Py.strip text))
     ∧ db_insert_message d tk role text now
       = (true,
          mkDB (messages d
                ++ [mkMessageRow (autoinc d + 1) tk
                      (_hash_msg tk role (Py.strip text)) role (Py.strip text)
                      now])
            (autoinc d + 1) (thread_state d))).
Proof.
  unfold db_insert_message, key_free.
  destruct (Py.truthy (Py.strip text)) eqn:E; cbn [negb].
  - apply strip_truthy in E.
    destruct (existsb _ _); [right; left|right; right]; by repeat split.
  - left. split; [by destruct (Py.strip text)|done].
Qed.

Lemma db_insert_message_store_inv (d : DB) (tk role text : string) (now : Z) :
  store_inv d → store_inv (db_insert_message d tk role text now).2.
Proof.
  intros (Hwf & Hnd & Hord & Hpos & Hids & Htxt).
  destruct (db_insert_message_cases d tk role text now)
    as [[_ ->]|[(_ & _ & ->)|(Hne & Hfree & ->)]]; cbn [snd].
  - done.
  - split; [exact Hwf|]. split; [exact Hnd|]. split; [exact Hord|].
    cbn [messages autoinc]. split; [lia|]. split; [|exact Htxt].
    eapply Forall_impl; [exact Hids|]. cbn. intros r ?. lia.
  - unfold store_inv, db_wf. cbn [messages autoinc].
    rewrite !map_app. cbn [map].
    split; [apply Forall_app; split; [exact Hwf|by repeat constructor]|].
    split.
    { apply NoDup_app. split; [exact Hnd|]. split; [|apply NoDup_singleton].
      intros k Hk Hin. apply list_elem_of_singleton in Hin. subst k.
      by apply key_free_not_in in Hfree. }
    split.
    { intros i j ri rj Hi Hj Hlt.
      apply lookup_app_Some in Hj as [Hj|[Hlen Hj]].
      - apply lookup_app_Some in Hi as [Hi|[Hlen' _]].
        + by eapply Hord.
        + apply lookup_lt_Some in Hj. lia.
      - apply list_lookup_singleton_Some in Hj as [Hj0 <-]. cbn [m_id].
        apply lookup_app_Some in Hi as [Hi|[Hlen' _]]; [|lia].
        rewrite Forall_forall in Hids.
        assert (ri ∈ messages d) as Hin by (by eapply list_elem_of_lookup_2).
        specialize (Hids ri Hin). cbn in Hids. lia. }
    split; [lia|]. split.
    { apply Forall_app. split.
      - eapply Forall_impl; [exact Hids|]. cbn. intros r ?. lia.
      - repeat constructor; cbn [m_id]; lia. }
    apply Forall_app. split; [exact Htxt|]. repeat constructor; cbn [m_text].
    + exact Hne.
    + apply strip_idem.
Qed.

Lemma db_insert_message_prefix (d : DB) (tk role text : string) (now : Z) :
  messages d `prefix_of` messages (db_insert_message d tk role text now).2
  ∧ thread_state (db_insert_message d tk role text now).2 = thread_state d.
Proof.
  destruct (db_insert_message_cases d tk role text now)
    as [[_ ->]|[(_ & _ & ->)|(_ & _ & ->)]]; cbn [snd messages thread_state];
    try done.
  split; [|done]. by apply prefix_app_r.
Qed.

Lemma db_upsert_thread_state_store_inv (d : DB) (tk name : string)
    (href b i s : option string) (now : Z) :
  store_inv d → store_inv (db_upsert_thread_state d tk name href b i s now).
Proof. done. Qed.

(** X1. An insertion keeps the store well formed and only ever appends:
    the old rows are a prefix of the new ones and the thread states are not
    touched.  When it returns false the rows are as before; when it returns
    true the one new row has the rowid after the counter, the stripped text
    and the given time.  The counter moves by one at most. *)
Theorem insert_keeps_store_invariant :
  ∀ (d : DB) (thread_key role text : string) (now : Z),
    store_inv d →
    let r := db_insert_message d thread_key role text now in
    store_inv r.2
    ∧ messages d `prefix_of` messages r.2
    ∧ thread_state r.2 = thread_state d
    ∧ (r.1 = false → messages r.2 = messages d)
    ∧ (r.1 = true →
       messages r.2
       = messages d
         ++ [mkMessageRow (autoinc d + 1) thread_key
               (_hash_msg thread_key role (Py.strip text)) role
               (Py.strip text) now]
       ∧ autoinc r.2 = autoinc d + 1)
    ∧ autoinc d ≤ autoinc r.2 ≤ autoinc d + 1.
Proof.
  intros d tk role text now Hinv. cbv zeta.
  split; [by apply db_insert_message_store_inv|].
  split; [apply db_insert_message_prefix|].
  split; [apply db_insert_message_prefix|].
  destruct (db_insert_message_cases d tk role text now)
    as [[_ ->]|[(_ & _ & ->)|(_ & _ & ->)]];
    cbn [fst snd messages autoinc]; repeat split; try done; lia.
Qed.

Lemma insert_keeps_store_invariant_witness :
  store_inv (db_insert_message db_init "t1" "buyer" " hello " 5).2.
Proof.
  exact (proj1 (insert_keeps_store_invariant db_init "t1" "buyer" " hello " 5
                  store_inv_init)).
Defined.

Lemma rows_of_key (d : DB) (tk role text : string) (r : MessageRow) :
  db_wf d → r ∈ rows_of d tk role text →
  r ∈ messages d ∧ row_key r = (tk, _hash_msg tk role text).
Proof.
  unfold rows_of, db_wf. intros Hwf Hin.
  apply list_elem_of_filter in Hin as [(H1 & H2 & H3) Hin]. split; [done|].
  rewrite Forall_forall in Hwf. unfold row_key.
  rewrite (Hwf r Hin). by rewrite H1, H2, H3.
Qed.


Lemma filter_same_image {A B} (f : A → B) (P : A → Prop)
    `{!∀ x, base.Decision (P x)} (k : B) (l : list A) :
  NoDup (map f l) → (∀ x, x ∈ l → P x → f x = k) →
  (length (filter P l) ≤ 1)%nat.
Proof.
  induction l as [|x l IH]; intros Hnd Hk; [cbn; lia|].
  cbn [map] in Hnd. apply NoDup_cons in Hnd as [Hx Hnd].
  assert (∀ y, y ∈ l → P y → f y = k) as Hk'.
  { intros y Hy. apply Hk. by right. }
  rewrite filter_cons. destruct (decide (P x)) as [Hp|Hp]; [|by apply IH].
  assert (filter P l = []) as ->; [|cbn; lia].
  destruct (filter P l) as [|y t] eqn:E; [done|]. exfalso.
  assert (y ∈ filter P l) as Hy by (rewrite E; left).
  apply list_elem_of_filter in Hy as [Hpy Hy]. apply Hx.
  rewrite (Hk x) by (by left || done). rewrite <- (Hk' y Hy Hpy).
  by apply list_elem_of_fmap_2.
Qed.

(** X2. A well-formed store never holds two rows of the same thread, role
    and text, and never two rows with the same rowid. *)
Theorem store_has_no_duplicates :
  ∀ (d : DB),
    store_inv d →
    (∀ thread_key role text,
       (length (rows_of d thread_key role text) ≤ 1)%nat)
    ∧ NoDup (map m_id (messages d)).
Proof.
  intros d (Hwf & Hnd & Hord & _). split.
  - intros tk role text. unfold rows_of.
    apply (filter_same_image row_key _ (tk, _hash_msg tk role text)); [done|].
    intros r Hr (H1 & H2 & H3). unfold db_wf in Hwf.
    rewrite Forall_forall in Hwf. unfold row_key.
    by rewrite (Hwf r Hr), H1, H2, H3.
  - apply NoDup_alt. intros i j x Hi Hj.
    apply list_lookup_fmap_Some in Hi as (ri & -> & Hi).
    apply list_lookup_fmap_Some in Hj as (rj & Hx & Hj).
    destruct (Nat.lt_trichotomy i j) as [Hlt|[->|Hlt]]; [|done|].
    + pose proof (Hord i j ri rj Hi Hj Hlt). lia.
    + pose proof (Hord j i rj ri Hj Hi Hlt). lia.
Qed.

Lemma store_has_no_duplicates_witness :
  (length
     (rows_of
        (db_insert_message
           (db_insert_message db_init "t1" "buyer" "hello" 5).2 "t1" "buyer"
           "hello  " 6).2 "t1" "buyer" "hello") ≤ 1)%nat.
Proof.
  apply (store_has_no_duplicates
           (db_insert_message
              (db_insert_message db_init "t1" "buyer" "hello" 5).2 "t1" "buyer"
              "hello  " 6).2).
  apply db_insert_message_store_inv, db_insert_message_store_inv.
  exact store_inv_init.
Defined.

Lemma last_n_suffix {A} (n : nat) (l : list A) :
  last_n n l `suffix_of` l ∧ length (last_n n l) = Nat.min n (length l).
Proof.
  unfold last_n. split; [apply suffix_drop|]. rewrite length_drop. lia.
Qed.

Lemma last_n_all {A} (n : nat) (l : list A) :
  (length l ≤ n)%nat → last_n n l = l.
Proof.
  intros H. unfold last_n. by replace (length l - n)%nat with 0%nat by lia.
Qed.

Lemma last_n_snoc {A} (n : nat) (l : list A) (x : A) :
  (0 < n)%nat → last (last_n n (l ++ [x])) = Some x.
Proof.
  intros Hn. unfold last_n. rewrite length_app. cbn [length].
  rewrite drop_app_le by lia. apply last_snoc.
Qed.

(** X3. The history of a thread is read in insertion order, holds rows of
    that thread only, is the tail end of them and is never longer than the
    limit; with no more rows than the limit it is all of them. *)
Theorem recent_history_is_bounded_tail :
  ∀ (d : DB) (thread_key : string) (limit : nat),
    let rows :=
      filter (fun r => String.eqb (m_thread_key r) thread_key = true)
        (messages d) in
    let all := map (fun r => (m_role r, m_text r)) rows in
    db_get_recent_history d thread_key limit `suffix_of` all
    ∧ length (db_get_recent_history d thread_key limit)
      = Nat.min limit (length rows)
    ∧ rows `sublist_of` messages d
    ∧ ((length rows ≤ limit)%nat →
       db_get_recent_history d thread_key limit = all)
    ∧ db_get_recent_history d thread_key 0 = [].
Proof.
  intros d tk limit rows all. unfold db_get_recent_history. fold rows.
  destruct (last_n_suffix limit rows) as [[k Hk] Hlen].
  split; [|split; [|split; [|split]]].
  - exists (map (fun r => (m_role r, m_text r)) k). unfold all.
    rewrite Hk at 1. apply map_app.
  - by rewrite length_map.
  - apply sublist_filter.
  - intros H. by rewrite last_n_all.
  - unfold last_n. rewrite Nat.sub_0_r, drop_all. done.
Qed.

Lemma buyer_batch_sound (d : DB) (tk : string) (since : Z) (limit : nat)
    (x : string) :
  x ∈ db_get_recent_buyer_messages_since d tk since limit →
  ∃ r, r ∈ messages d ∧ m_text r = x ∧ m_thread_key r = tk
       ∧ m_role r = "buyer" ∧ since ≤ m_created_at r.
Proof.
  unfold db_get_recent_buyer_messages_since. intros Hx.
  apply list_elem_of_fmap in Hx as (r & -> & Hr).
  destruct (last_n_suffix limit
              (filter (fun r => (String.eqb (m_thread_key r) tk
                                 && String.eqb (m_role r) "buyer"
                                 && (since <=? m_created_at r)) = true)
                 (messages d))) as [[k Hk] _].
  assert (r ∈ filter (fun r => (String.eqb (m_thread_key r) tk
                                 && String.eqb (m_role r) "buyer"
                                 && (since <=? m_created_at r)) = true)
                 (messages d)) as Hin.
  { rewrite Hk. apply elem_of_app. by right. }
  apply list_elem_of_filter in Hin as [Hp Hin].
  apply andb_true_iff in Hp as [Hp H3]. apply andb_true_iff in Hp as [H1 H2].
  apply String.eqb_eq in H1, H2. apply Z.leb_le in H3. by exists r.
Qed.

(** X4. A buyer message that has just been stored, at or after the start
    of the window, is the last line of the batch read for the flush (for a
    positive limit); every line of a batch is the text of a stored buyer row
    of that thread, created at or after the start of the window; and a batch
    is never longer than the limit. *)
Theorem stored_buyer_message_is_in_batch :
  ∀ (d : DB) (thread_key text : string) (now since_ts : Z) (limit : nat),
    Py.strip text ≠ "" →
    key_free d thread_key (_hash_msg thread_key "buyer" (Py.strip text)) →
    since_ts ≤ now →
    (0 < limit)%nat →
    let d' := (db_insert_message d thread_key "buyer" text now).2 in
    last (db_get_recent_buyer_messages_since d' thread_key since_ts limit)
    = Some (Py.strip text)
    ∧ (length (db_get_recent_buyer_messages_since d' thread_key since_ts limit)
       ≤ limit)%nat
    ∧ (∀ x,
         x ∈ db_get_recent_buyer_messages_since d' thread_key since_ts limit →
         ∃ r, r ∈ messages d' ∧ m_text r = x ∧ m_thread_key r = thread_key
              ∧ m_role r = "buyer" ∧ since_ts ≤ m_created_at r).
Proof.
  intros d tk text now since limit Hne Hfree Hsince Hlimit. cbv zeta.
  split; [|split].
  - rewrite (db_insert_message_fresh d tk "buyer" text now Hne Hfree).
    cbn [snd]. unfold db_get_recent_buyer_messages_since. cbn [messages].
    rewrite filter_app, filter_cons, filter_nil.
    cbn [m_thread_key m_role m_created_at].
    rewrite decide_True.
    2:{ rewrite !String.eqb_refl. cbn [andb]. by apply Z.leb_le. }
    rewrite fmap_last, last_n_snoc by done. done.
  - unfold db_get_recent_buyer_messages_since. rewrite length_map.
    destruct (last_n_suffix limit
                (filter (fun r => (String.eqb (m_thread_key r) tk
                                   && String.eqb (m_role r) "buyer"
                                   && (since <=? m_created_at r)) = true)
                   (messages (db_insert_message d tk "buyer" text now).2)))
      as [_ ->]. lia.
  - intros x. apply buyer_batch_sound.
Qed.

Lemma stored_buyer_message_is_in_batch_witness :
  last (db_get_recent_buyer_messages_since
          (db_insert_message db_init "t1" "buyer" " hello " 5).2 "t1" 5 8)
  = Some "hello".
Proof.
  apply (stored_buyer_message_is_in_batch db_init "t1" " hello " 5 5 8);
    [discriminate | reflexivity | lia | lia].
Defined.


Lemma upserts_without_href_lookup (calls : list
      (string * option string * option string * option string * Z))
    (d : DB) (tk : string) (row : ThreadStateRow) :
  thread_state d !! tk = Some row →
  ∃ row', thread_state (upserts_without_href d tk calls) !! tk = Some row'
          ∧ ts_thread_href row' = ts_thread_href row.
Proof.
  unfold upserts_without_href. revert d row.
  induction calls as [|[[[[name b] i] s] now] rest IH]; intros d row Hrow;
    cbn [fold_left]; [by exists row|].
  destruct (IH (db_upsert_thread_state d tk name None b i s now)
              (mkThreadStateRow name (ts_thread_href row) b i s now))
    as (row' & H1 & H2).
  { unfold db_upsert_thread_state. cbn [thread_state]. rewrite Hrow.
    apply lookup_insert_eq. }
  by exists row'.
Qed.

(** X5. An upsert writes every column of the thread's row as given, but a
    missing href never replaces a stored one: the row keeps the href it has,
    also through any number of further upserts without href. The rows of
    other threads and the messages are not touched. *)
Theorem upsert_keeps_known_href :
  ∀ (d : DB) (thread_key buyer_name : string)
    (thread_href bottom incoming sent : option string) (now : Z),
    let d' :=
      db_upsert_thread_state d thread_key buyer_name thread_href bottom
        incoming sent now in
    thread_state d' !! thread_key
    = Some (mkThreadStateRow buyer_name
              (match thread_href with
               | Some h => Some h
               | None => thread_state d !! thread_key ≫= ts_thread_href
               end) bottom incoming sent now)
    ∧ (∀ other, other ≠ thread_key →
         thread_state d' !! other = thread_state d !! other)
    ∧ messages d' = messages d
    ∧ autoinc d' = autoinc d
    ∧ (∀ calls,
         ∃ row', thread_state (upserts_without_href d' thread_key calls)
                 !! thread_key = Some row'
                 ∧ ts_thread_href row'
                   = match thread_href with
                     | Some h => Some h
                     | None => thread_state d !! thread_key ≫= ts_thread_href
                     end).
Proof.
  intros d tk name href b i s now. cbv zeta.
  assert (thread_state (db_upsert_thread_state d tk name href b i s now) !! tk
          = Some (mkThreadStateRow name
                    (match href with
                     | Some h => Some h
                     | None => thread_state d !! tk ≫= ts_thread_href
                     end) b i s now)) as Hrow.
  { unfold db_upsert_thread_state. cbn [thread_state].
    rewrite lookup_insert_eq.
    by destruct (thread_state d !! tk), href. }
  split; [exact Hrow|]. split.
  { intros other Hne. unfold db_upsert_thread_state. cbn [thread_state].
    by rewrite lookup_insert_ne. }
  split; [done|]. split; [done|]. intros calls.
  by apply (upserts_without_href_lookup calls _ _ _ Hrow).
Qed.

Lemma upsert_from_caches_mirrored (w : World) (tk name : string)
    (href : option string) (now : Z) :
  mirrored (upsert_from_caches w tk name href now) tk
  ∧ (∃ row, thread_state (db (upsert_from_caches w tk name href now)) !! tk
            = Some row ∧ ts_buyer_name row = name).
Proof.
  unfold mirrored, upsert_from_caches, db_upsert_thread_state.
  cbn [set_db db caches thread_state]. rewrite lookup_insert_eq.
  split; eexists; (split; [reflexivity|done]).
Qed.

(** Steps of the scan that leave the persisted state and the two mirrored
    caches of a thread alone. *)
Lemma mirrored_frame (w w' : World) (tk : string) :
  thread_state (db w') = thread_state (db w) →
  last_seen_bottom (caches w') = last_seen_bottom (caches w) →
  last_sent_by_us (caches w') = last_sent_by_us (caches w) →
  (mirrored w tk → mirrored w' tk)
  ∧ (∀ name, (∃ row, thread_state (db w) !! tk = Some row
                     ∧ ts_buyer_name row = name) →
             ∃ row, thread_state (db w') !! tk = Some row
                    ∧ ts_buyer_name row = name).
Proof.
  intros H1 H2 H3. unfold mirrored. rewrite H1, H2, H3. done.
Qed.

Lemma db_insert_message_thread_state (d : DB) (tk role text : string) (now : Z) :
  thread_state (db_insert_message d tk role text now).2 = thread_state d.
Proof. apply db_insert_message_prefix. Qed.

Lemma scan_row_mirrored (w : World) (i : nat) (obs : RowObs)
    (href : option string) :
  ro_click obs = Some href →
  let tk := thread_key_of i href (ro_buyer_name obs) in
  mirrored (scan_row w i obs) tk
  ∧ ∃ row, thread_state (db (scan_row w i obs)) !! tk = Some row
           ∧ ts_buyer_name row = ro_buyer_name obs.
Proof.
  intros Hclick tk. unfold scan_row. rewrite Hclick. fold tk. cbv zeta.
  set (w1 := upsert_from_caches w tk (ro_buyer_name obs) href (ro_t_meta obs)).
  pose proof (upsert_from_caches_mirrored w tk (ro_buyer_name obs) href
                (ro_t_meta obs)) as H1. fold w1 in H1.
  destruct (negb (ro_scroller obs)); [exact H1|].
  destruct (negb (ro_at_bottom obs)); [exact H1|].
  destruct (negb (Py.otruthy (ro_bottom_text obs))); [exact H1|].
  set (b := default "" (ro_bottom_text obs)).
  set (w2 := match ro_side obs with
             | Incoming => _ | Outgoing => _ | UnknownSide => w1 end).
  assert (mirrored w2 tk
          ∧ ∃ row, thread_state (db w2) !! tk = Some row
                   ∧ ts_buyer_name row = ro_buyer_name obs) as H2.
  { destruct H1 as [Ha Hb].
    assert (thread_state (db w2) = thread_state (db w1)
            ∧ caches w2 = caches w1) as [E1 E2].
    { unfold w2. destruct (ro_side obs); cbn [set_db db caches]; split;
        try done; apply db_insert_message_thread_state. }
    destruct (mirrored_frame w1 w2 tk E1) as [Hm Hn];
      [by rewrite E2|by rewrite E2|]. split; [by apply Hm|by apply Hn]. }
  destruct (decide _); [exact H2|].
  set (w3 := set_caches w2 _).
  set (w4 := upsert_from_caches w3 tk (ro_buyer_name obs) href (ro_t_state obs)).
  pose proof (upsert_from_caches_mirrored w3 tk (ro_buyer_name obs) href
                (ro_t_state obs)) as H4. fold w4 in H4.
  destruct (ro_side obs); try exact H4.
  destruct (decide _); [exact H4|].
  destruct H4 as [Ha Hb].
  match goal with |- mirrored ?w' _ ∧ _ =>
    destruct (mirrored_frame w4 w' tk eq_refl eq_refl eq_refl) as [Hm Hn] end.
  split; [by apply Hm|by apply Hn].
Qed.

(** X6. After the scan of a sidebar row whose thread could be identified,
    the persisted state of the thread shows the cached last-seen-bottom and
    last-sent values and the observed buyer name. *)
Theorem scan_persists_the_caches :
  ∀ (w : World) (i : nat) (obs : RowObs) (href : option string),
    ro_click obs = Some href →
    let tk := thread_key_of i href (ro_buyer_name obs) in
    ∃ row,
      thread_state (db (scan_row w i obs)) !! tk = Some row
      ∧ ts_buyer_name row = ro_buyer_name obs
      ∧ ts_last_seen_bottom row
        = last_seen_bottom (caches (scan_row w i obs)) !! tk
      ∧ ts_last_sent_by_us row
        = last_sent_by_us (caches (scan_row w i obs)) !! tk.
Proof.
  intros w i obs href Hclick tk.
  destruct (scan_row_mirrored w i obs href Hclick) as [(row & H1 & H2 & H3) Hn].
  fold tk in H1, Hn. destruct Hn as (row' & H1' & Hname).
  rewrite H1 in H1'. injection H1' as <-. by exists row.
Qed.

Lemma scan_persists_the_caches_witness :
  ∃ row,
    thread_state (db (scan_row (world_init Scenario.cfg) 0 Scenario.row_buyer))
    !! Scenario.thread = Some row
    ∧ ts_last_seen_bottom row = Some "Can I pick it up at 5pm?".
Proof.
  destruct (scan_persists_the_caches (world_init Scenario.cfg) 0
              Scenario.row_buyer (Some Scenario.thread) eq_refl)
    as (row & H1 & _ & H3 & _).
  exists row. split; [exact H1|]. rewrite H3. vm_compute. reflexivity.
Defined.

(** The jitter lock: a bottom text equal to the cached one leaves the windows
    as they are. *)
Lemma scan_row_jitter_lock (w : World) (i : nat) (obs : RowObs)
    (href : option string) (b : string) :
  ro_click obs = Some href →
  ro_bottom_text obs = Some b →
  last_seen_bottom (caches w) !! thread_key_of i href (ro_buyer_name obs)
  = Some b →
  pending_threads (scan_row w i obs) = pending_threads w.
Proof.
  intros Hclick Hbot Hcache. unfold scan_row. rewrite Hclick, Hbot. cbv zeta.
  destruct (negb (ro_scroller obs)); [done|].
  destruct (negb (ro_at_bottom obs)); [done|].
  destruct (negb (Py.otruthy (Some b))); [done|].
  change (default "" (Some b)) with b.
  rewrite decide_True; [by destruct (ro_side obs)|].
  by destruct (ro_side obs).
Qed.

Lemma load_caches_lookup (d : DB) (tk : string) (row : ThreadStateRow) :
  thread_state d !! tk = Some row →
  last_seen_bottom (load_caches d) !! tk
  = Some (default "" (ts_last_seen_bottom row))
  ∧ last_seen_incoming (load_caches d) !! tk
    = Some (default "" (ts_last_seen_incoming row))
  ∧ last_sent_by_us (load_caches d) !! tk
    = Some (default "" (ts_last_sent_by_us row)).
Proof.
  intros Hrow. unfold load_caches, db_load_thread_state.
  cbn [last_seen_bottom last_seen_incoming last_sent_by_us].
  rewrite !lookup_fmap, Hrow. cbn [fmap option_fmap option_map].
  assert (∀ o : option string, Py.str_or (default "" o) "" = default "" o) as E.
  { intros [[|c s]|]; done. }
  by rewrite !E.
Qed.

(** X7. A new process starts without windows, approvals or queued sends;
    it reads each cache entry back from the database, a missing value as the
    empty text. For a thread whose persisted state shows the caches, the
    reloaded last-seen-bottom is the cached one, so the bottom message that
    was cached before the restart opens no window when it is scanned again:
    a window that was open at the restart is not reopened by the message that
    opened it. *)
Theorem restart_keeps_the_jitter_lock :
  ∀ (w : World) (i : nat) (obs : RowObs) (href : option string) (b : string),
    ro_click obs = Some href →
    ro_bottom_text obs = Some b →
    let tk := thread_key_of i href (ro_buyer_name obs) in
    mirrored w tk →
    last_seen_bottom (caches w) !! tk = Some b →
    db (restart w) = db w
    ∧ pending_threads (restart w) = []
    ∧ send_queue (appr (restart w)) = []
    ∧ last_seen_bottom (caches (restart w)) !! tk = Some b
    ∧ last_sent_by_us (caches (restart w)) !! tk
      = Some (default "" (last_sent_by_us (caches w) !! tk))
    ∧ pending_threads (scan_row (restart w) i obs) = [].
Proof.
  intros w i obs href b Hclick Hbot tk (row & Hrow & Hb & Hs) Hcache.
  destruct (load_caches_lookup (db w) tk row Hrow) as (Lb & _ & Ls).
  assert (last_seen_bottom (caches (restart w)) !! tk = Some b) as Hb'.
  { cbn [restart caches]. rewrite Lb, Hb, Hcache. done. }
  repeat split; try done.
  - cbn [restart caches]. by rewrite Ls, Hs.
  - by rewrite (scan_row_jitter_lock (restart w) i obs href b Hclick Hbot Hb').
Qed.

Lemma restart_keeps_the_jitter_lock_witness :
  pending_threads
    (scan_row (restart Scenario.w1) 0 Scenario.row_buyer) = [].
Proof.
  refine (proj2 (proj2 (proj2 (proj2 (proj2
            (restart_keeps_the_jitter_lock Scenario.w1 0 Scenario.row_buyer
               (Some Scenario.thread) "Can I pick it up at 5pm?" eq_refl eq_refl
               _ _)))))).
  - eexists. split; [vm_compute; reflexivity|]. split; vm_compute; reflexivity.
  - vm_compute. reflexivity.
Defined.

(** ** The decision and the flush *)

Lemma read_decision_replies (analysis : gmap string json) (cfg : ProductCfg)
    (dec : Decision) :
  read_decision analysis cfg = Some dec →
  json_truthy (d_yes_reply dec) = true ∧ json_truthy (d_no_reply dec) = true
  ∧ (json_truthy (get_or analysis "reply_if_accepted" (JStr "")) = true →
     d_yes_reply dec = get_or analysis "reply_if_accepted" (JStr ""))
  ∧ (json_truthy (get_or analysis "reply_if_declined" (JStr "")) = true →
     d_no_reply dec = get_or analysis "reply_if_declined" (JStr "")).
Proof.
  unfold read_decision. intros Hr.
  destruct (stripped (get_or analysis "category" _)); [|done].
  destruct (stripped (get_or analysis "meetup_time_text" _)); [|done].
  destruct (stripped (get_or analysis "notes_for_owner" _)); [|done].
  cbn in Hr. injection Hr as <-. cbn [d_yes_reply d_no_reply].
  destruct (json_truthy (get_or analysis "reply_if_accepted" _)) eqn:Ey,
    (json_truthy (get_or analysis "reply_if_declined" _)) eqn:En;
    cbn [negb]; repeat split; try done.
Qed.

Lemma flush_send_return (w : World) (tk buyer_name : string)
    (href : option string) (dec : Decision) (final_reply : json)
    (o : FlushOracle) :
  json_truthy final_reply = true →
  (flush_send w tk buyer_name href dec final_reply o).1 = Return →
  Py.otruthy href = true ∧ fo_goto_send o = false.
Proof.
  intros Ht. unfold flush_send, open_thread_by_href. rewrite Ht. cbn [negb].
  destruct (Py.otruthy href); cbn [negb andb].
  - destruct (fo_goto_send o); cbn [negb]; [|done].
    destruct (send_message _ _); [|done].
    destruct (_ && _); [|done]. by destruct (fo_tg_report o).
  - destruct (send_message _ _); [|done].
    destruct (_ && _); [|done]. by destruct (fo_tg_report o).
Qed.

Lemma flush_decide_reply (w : World) (tk buyer_name : string)
    (href : option string) (dec : Decision) (o : FlushOracle) :
  (flush_decide w tk buyer_name href dec o).1 = d_yes_reply dec
  ∨ (flush_decide w tk buyer_name href dec o).1 = d_no_reply dec.
Proof.
  unfold flush_decide. cbv zeta. destruct (d_requires_approval dec); [|by left].
  destruct (ask_human_approval _ _ _ _ _ _ _ _ _ _) as [[[] a'] out];
    [by left|by right].
Qed.

(** X8. A decision read off an analysis always carries a non-empty accept
    reply and a non-empty decline reply (the engine's, or the built-in
    texts), so the final reply of a flush is never empty: a flush iteration
    ends the whole flush early only when the thread cannot be opened for
    sending. *)
Theorem final_reply_is_never_empty :
  ∀ (json_loads : string → option (gmap string json)) (w : World)
    (tk : string) (info : PendingInfo) (o : FlushOracle)
    (analysis : gmap string json) (cfg : ProductCfg) (dec : Decision),
    read_decision analysis cfg = Some dec →
    json_truthy (d_yes_reply dec) = true
    ∧ json_truthy (d_no_reply dec) = true
    ∧ (∀ w' buyer_name href o',
         json_truthy (flush_decide w' tk buyer_name href dec o').1 = true)
    ∧ ((flush_thread json_loads w tk info o).1 = Return →
       Py.otruthy (p_href info) = true ∧ fo_goto_send o = false).
Proof.
  intros json_loads w tk info o analysis cfg dec Hr.
  destruct (read_decision_replies _ _ _ Hr) as (Hy & Hn & _).
  split; [exact Hy|]. split; [exact Hn|]. split.
  - intros w' buyer_name href o'.
    by destruct (flush_decide_reply w' tk buyer_name href dec o') as [-> | ->].
  - unfold flush_thread. cbv zeta.
    destruct (Py.otruthy (p_href info) && negb _); [done|].
    destruct (db_get_recent_buyer_messages_since _ _ _ _) as [|s l]; [done|].
    destruct (read_decision (analyze_message json_loads (fo_http o)) _)
      as [dec1|] eqn:Hr1; [|done].
    destruct (approval_raises _ tk _ (p_href info) dec1 o); [done|].
    destruct (flush_decide _ tk _ (p_href info) dec1 o) as [fin w2] eqn:E.
    apply flush_send_return.
    destruct (read_decision_replies _ _ _ Hr1) as (Hy1 & Hn1 & _).
    pose proof (flush_decide_reply (log_ai_call w
                   (history_to_text (db_get_recent_history (db w) tk 140))
                   (Py.join_lines (s :: l))) tk
                  (Py.str_or (p_buyer_name info) "Buyer") (p_href info) dec1 o)
      as Hd.
    rewrite E in Hd. cbn [fst] in Hd. by destruct Hd as [-> | ->].
Qed.

Lemma final_reply_is_never_empty_witness :
  json_truthy (d_yes_reply Scenario.decision) = true.
Proof.
  refine (proj1 (final_reply_is_never_empty Scenario.json_loads Scenario.w1
                   Scenario.thread
                   (mkPendingInfo 100 10 (Some Scenario.thread) "Bob")
                   (Scenario.flush_with [] true) Scenario.engine_answer
                   Scenario.cfg Scenario.decision _)).
  vm_compute. reflexivity.
Defined.

Lemma stripped_get_or_none (analysis : gmap string json) (key : string)
    (dflt : string) :
  stripped (get_or analysis key (JStr dflt)) = None
  ↔ ∃ v, analysis !! key = Some v ∧ json_truthy v = true ∧ ∀ s, v ≠ JStr s.
Proof.
  unfold get_or. destruct (analysis !! key) as [v|]; cbn.
  - destruct (json_truthy v) eqn:E.
    + split.
      * intros Hs. exists v. repeat split; try done. intros s ->. done.
      * intros (v' & [= <-] & _ & Hv). destruct v; try done. by destruct (Hv s).
    + split; [done|]. intros (v' & [= <-] & Ht & _). congruence.
  - split; [done|]. by intros (v & Hv & _).
Qed.

(** X9. Reading the decision fails exactly when the analysis holds, under
    [category], [meetup_time_text] or [notes_for_owner], a value that is
    true in Python's sense and not a string. A flush iteration that has
    opened the thread and found a batch then raises, after the window was
    taken and the engine consulted, with nothing sent, stored or asked. *)
Theorem read_decision_raises_on_untyped_fields :
  ∀ (json_loads : string → option (gmap string json))
    (analysis : gmap string json) (cfg : ProductCfg),
    (read_decision analysis cfg = None
     ↔ ∃ key v,
         (key = "category" ∨ key = "meetup_time_text"
          ∨ key = "notes_for_owner")
         ∧ analysis !! key = Some v ∧ json_truthy v = true
         ∧ ∀ s, v ≠ JStr s)
    ∧ (∀ w tk info o,
         (Py.otruthy (p_href info) = true → fo_goto_read o = true) →
         db_get_recent_buyer_messages_since (db w) tk (p_since_ts info)
           MAX_BATCH_MESSAGES ≠ [] →
         read_decision (analyze_message json_loads (fo_http o)) (product_cfg w)
         = None →
         let r := flush_thread json_loads w tk info o in
         r.1 = Raised
         ∧ db r.2 = db w ∧ caches r.2 = caches w ∧ appr r.2 = appr w
         ∧ outbox (log r.2) = outbox (log w)
         ∧ tg_out (log r.2) = tg_out (log w)).
Proof.
  intros json_loads analysis cfg. split.
  - unfold read_decision.
    pose proof (stripped_get_or_none analysis "category" "other") as Hc.
    pose proof (stripped_get_or_none analysis "meetup_time_text" "") as Hm.
    pose proof (stripped_get_or_none analysis "notes_for_owner" "") as Hn.
    destruct (stripped (get_or analysis "category" _)) as [c|].
    + destruct (stripped (get_or analysis "meetup_time_text" _)) as [m|].
      * destruct (stripped (get_or analysis "notes_for_owner" _)) as [n|].
        -- cbn. split; [done|]. intros (key & v & [-> | [-> | ->]] & Hv).
           ++ assert (Some c = None) by (apply Hc; by exists v). done.
           ++ assert (Some m = None) by (apply Hm; by exists v). done.
           ++ assert (Some n = None) by (apply Hn; by exists v). done.
        -- cbn. split; [|done]. intros _.
           destruct (proj1 Hn eq_refl) as (v & Hv).
           exists "notes_for_owner", v. auto.
      * cbn. split; [|done]. intros _.
        destruct (proj1 Hm eq_refl) as (v & Hv).
        exists "meetup_time_text", v. auto.
    + cbn. split; [|done]. intros _. destruct (proj1 Hc eq_refl) as (v & Hv).
      exists "category", v. auto.
  - intros w tk info o Hgoto Hbatch Hr. cbv zeta. unfold flush_thread.
    cbv zeta. unfold open_thread_by_href.
    assert (Py.otruthy (p_href info)
            && negb (if negb (Py.otruthy (p_href info)) then false
                     else fo_goto_read o) = false) as ->.
    { destruct (Py.otruthy (p_href info)); [|done]. by rewrite Hgoto. }
    destruct (db_get_recent_buyer_messages_since _ _ _ _); [done|].
    change (product_cfg (log_ai_call w _ _)) with (product_cfg w).
    by rewrite Hr.
Qed.

Lemma read_decision_raises_on_untyped_fields_witness :
  let r :=
    flush_thread Scenario.json_loads_untyped Scenario.w1 Scenario.thread
      Scenario.window (Scenario.flush_with [] true) in
  r.1 = Raised
  ∧ db r.2 = db Scenario.w1 ∧ outbox (log r.2) = outbox (log Scenario.w1).
Proof.
  destruct (proj2 (read_decision_raises_on_untyped_fields
                     Scenario.json_loads_untyped ∅ Scenario.cfg)
              Scenario.w1 Scenario.thread Scenario.window
              (Scenario.flush_with [] true))
    as (H & Hdb & _ & _ & Hout & _).
  - intros _. reflexivity.
  - vm_compute. discriminate.
  - vm_compute. reflexivity.
  - cbv zeta. split; [exact H|]. split; [exact Hdb|exact Hout].
Defined.

Lemma flush_send_raised (w : World) (tk buyer_name : string)
    (href : option string) (dec : Decision) (final_reply : json)
    (o : FlushOracle) :
  (flush_send w tk buyer_name href dec final_reply o).1 = Raised →
  fo_tg_report o = false
  ∧ d_meetup_confirmed dec = true ∧ d_meetup_time_text dec ≠ ""
  ∧ send_message final_reply (fo_send o) = true
  ∧ outbox (log (flush_send w tk buyer_name href dec final_reply o).2)
    = outbox (log w) ++ [(tk, as_str final_reply)]
  ∧ length (meetups (log (flush_send w tk buyer_name href dec final_reply o).2))
    = S (length (meetups (log w)))
  ∧ tg_out (log (flush_send w tk buyer_name href dec final_reply o).2)
    = tg_out (log w).
Proof.
  unfold flush_send.
  destruct (negb (json_truthy final_reply)); [done|].
  destruct (Py.otruthy href && negb _); [done|].
  destruct (send_message final_reply (fo_send o)); [|done].
  destruct (d_meetup_confirmed dec) eqn:Ec; cbn [andb]; [|done].
  destruct (Py.truthy (d_meetup_time_text dec)) eqn:Et; [|done].
  destruct (fo_tg_report o); [done|]. intros _.
  apply strip_truthy in Et.
  unfold record_sent.
  cbn [snd log_meetup log_sent set_caches set_db set_log log outbox meetups
       tg_out].
  rewrite length_app. cbn [length].
  repeat split; try done. lia.
Qed.

(** X10. Why a flush iteration raises.  There are four ways and no other:
    the fields of the analysis cannot be read; the owner note cannot be
    sent; the approval request cannot be sent, which leaves the request
    registered; or the meetup notice cannot be sent, after the reply has
    gone out and the meetup was logged.  In the first three nothing was
    sent to the buyer and the store and the caches are as they were. *)
Theorem flush_raises_in_four_ways :
  ∀ (json_loads : string → option (gmap string json)) (w : World)
    (tk : string) (info : PendingInfo) (o : FlushOracle),
    let r := flush_thread json_loads w tk info o in
    let buyer_name := Py.str_or (p_buyer_name info) "Buyer" in
    let analysis := analyze_message json_loads (fo_http o) in
    r.1 = Raised →
    (read_decision analysis (product_cfg w) = None
     ∧ db r.2 = db w ∧ caches r.2 = caches w ∧ appr r.2 = appr w
     ∧ outbox (log r.2) = outbox (log w) ∧ tg_out (log r.2) = tg_out (log w))
    ∨ ∃ dec,
        read_decision analysis (product_cfg w) = Some dec
        ∧ ((d_requires_approval dec = true
            ∧ d_notes_for_owner dec ≠ "" ∧ fo_tg_note o = false
            ∧ db r.2 = db w ∧ caches r.2 = caches w ∧ appr r.2 = appr w
            ∧ outbox (log r.2) = outbox (log w)
            ∧ tg_out (log r.2) = tg_out (log w))
           ∨ (d_requires_approval dec = true ∧ fo_tg_ask o = false
              ∧ db r.2 = db w ∧ caches r.2 = caches w
              ∧ outbox (log r.2) = outbox (log w)
              ∧ appr r.2
                = ask_human_approval_raise (appr w) (fo_loop_time o)
                    buyer_name (d_intent dec) (d_yes_reply dec)
                    (d_no_reply dec) tk (p_href info) (meetup_log_of dec)
              ∧ pending_approvals (appr r.2)
                !! request_id_at (fo_loop_time o)
                = Some (length (futures (appr w)))
              ∧ futures (appr r.2) !! length (futures (appr w))
                = Some FutPending)
           ∨ (fo_tg_report o = false
              ∧ d_meetup_confirmed dec = true ∧ d_meetup_time_text dec ≠ ""
              ∧ ∃ text,
                  outbox (log r.2) = outbox (log w) ++ [(tk, text)]
                  ∧ length (meetups (log r.2))
                    = S (length (meetups (log w))))).
Proof.
  intros json_loads w tk info o. cbv zeta. unfold flush_thread. cbv zeta.
  destruct (Py.otruthy (p_href info) && negb _); [done|].
  destruct (db_get_recent_buyer_messages_since _ _ _ _) as [|m0 ms]; [done|].
  set (w1 := log_ai_call w _ _).
  change (product_cfg w1) with (product_cfg w).
  destruct (read_decision _ _) as [dec|] eqn:Hr; [|intros _; by left].
  set (name := Py.str_or (p_buyer_name info) "Buyer").
  intros Hraised. right. exists dec. split; [done|]. revert Hraised.
  destruct (approval_raises w1 tk name (p_href info) dec o) as [wr|] eqn:Er.
  - intros _. cbn [fst snd]. unfold approval_raises in Er.
    destruct (d_requires_approval dec) eqn:Hq; [|done].
    destruct (Py.truthy (d_notes_for_owner dec)) eqn:Hn; cbn [andb] in Er.
    + destruct (fo_tg_note o) eqn:Hno; cbn [negb] in Er.
      * destruct (fo_tg_ask o) eqn:Ha; [done|]. injection Er as <-.
        right. left. apply strip_truthy in Hn.
        cbn [set_appr log_tg set_log db caches log outbox appr].
        do 5 (split; [done|]). split; [done|].
        unfold ask_human_approval_raise, ask_human_approval_begin.
        cbn [fst snd pending_approvals futures].
        split; [apply lookup_insert_eq|].
        rewrite lookup_app_r by done. by rewrite Nat.sub_diag.
      * injection Er as <-. left. apply strip_truthy in Hn. by repeat split.
    + destruct (fo_tg_ask o) eqn:Ha; [done|]. injection Er as <-.
      right. left.
      cbn [set_appr log_tg set_log db caches log outbox appr].
      do 5 (split; [done|]). split; [done|].
      unfold ask_human_approval_raise, ask_human_approval_begin.
      cbn [fst snd pending_approvals futures].
      split; [apply lookup_insert_eq|].
      rewrite lookup_app_r by done. by rewrite Nat.sub_diag.
  - destruct (flush_decide w1 tk name (p_href info) dec o) as [fin w2] eqn:E.
    intros Hraised.
    destruct (flush_send_raised w2 tk name (p_href info) dec fin o Hraised)
      as (H1 & H2 & H3 & _ & H5 & H6 & _).
    right. right. do 3 (split; [done|]). exists (as_str fin).
    pose proof (flush_decide_store w1 tk name (p_href info) dec o) as Hst.
    rewrite E in Hst. cbn [snd] in Hst. destruct Hst as (_ & _ & Ho & Hm).
    rewrite H5, H6, Ho, Hm. done.
Qed.

Lemma record_sent_effects (w : World) (tk buyer_name : string)
    (href : option string) (text : string) (t_insert t_state : Z) :
  let w' := record_sent w tk buyer_name href text t_insert t_state in
  last_sent_by_us (caches w') !! tk = Some text
  ∧ last_seen_bottom (caches w') !! tk = Some text
  ∧ last_seen_incoming (caches w') = last_seen_incoming (caches w)
  ∧ pending_threads w' = pending_threads w
  ∧ appr w' = appr w ∧ log w' = log w ∧ product_cfg w' = product_cfg w
  ∧ messages (db w')
    = messages (db_insert_message (db w) tk "seller" text t_insert).2
  ∧ autoinc (db w')
    = autoinc (db_insert_message (db w) tk "seller" text t_insert).2
  ∧ mirrored w' tk.
Proof.
  cbv zeta. unfold record_sent, mirrored.
  cbn [set_caches set_db caches db pending_threads appr log product_cfg
       last_sent_by_us last_seen_bottom last_seen_incoming].
  rewrite !lookup_insert_eq. repeat split.
  unfold db_upsert_thread_state. cbn [thread_state].
  rewrite lookup_insert_eq. by eexists.
Qed.

Lemma flush_send_sent (w : World) (tk buyer_name : string)
    (href : option string) (dec : Decision) (text : string) (o : FlushOracle) :
  text ≠ "" →
  (Py.otruthy href = true → fo_goto_send o = true) →
  fo_send o = true →
  let r := flush_send w tk buyer_name href dec (JStr text) o in
  let ws :=
    record_sent (log_sent w tk text) tk buyer_name href text (fo_t_insert o)
      (fo_t_state o) in
  r.1 = (if d_meetup_confirmed dec && Py.truthy (d_meetup_time_text dec)
             && negb (fo_tg_report o)
          then Raised else Next)
  ∧ r.2 = (if d_meetup_confirmed dec && Py.truthy (d_meetup_time_text dec)
           then log_tg
                  (log_meetup ws
                     (mkMeetup buyer_name tk (item_name (product_cfg w))
                        (location (product_cfg w)) (d_meetup_time_text dec)
                        "Meetup confirmed (AI flagged) - sent reply"))
                  (if fo_tg_report o
                   then [TgMeetupLogged buyer_name (d_meetup_time_text dec)
                           (location (product_cfg w))]
                   else [])
           else ws).
Proof.
  intros Hne Hgoto Hsend. cbv zeta. unfold flush_send, open_thread_by_href.
  cbn [json_truthy send_message as_str].
  rewrite (proj2 (strip_truthy text) Hne), Hsend. cbn [negb].
  assert (Py.otruthy href && negb (if negb (Py.otruthy href) then false
                                   else fo_goto_send o) = false) as ->.
  { destruct (Py.otruthy href); [|done]. by rewrite Hgoto. }
  destruct (d_meetup_confirmed dec && Py.truthy (d_meetup_time_text dec));
    [|done].
  destruct (fo_tg_report o); cbn [negb andb fst snd]; [done|].
  split; [done|]. unfold log_tg. cbn [set_log log tg_out].
  rewrite app_nil_r. by destruct (log_meetup _ _) as [? ? ? ? ? []].
Qed.

(** X11. The automatic path. When the thread opens, the window holds buyer
    messages, the decision does not require approval and the send succeeds,
    the flush iteration sends exactly the accept reply, asks nothing in
    Telegram and leaves the approval state alone; the reply is stored as a
    seller message and becomes the cached last-sent and last-seen-bottom text
    of the thread, and the engine was consulted once, on the history and the
    joined batch.  The iteration raises only when a meetup notice is due and
    cannot be sent. *)
Theorem auto_reply_sends_the_accept_text :
  ∀ (json_loads : string → option (gmap string json)) (w : World)
    (tk : string) (info : PendingInfo) (o : FlushOracle) (dec : Decision)
    (text : string),
    (Py.otruthy (p_href info) = true →
     fo_goto_read o = true ∧ fo_goto_send o = true) →
    db_get_recent_buyer_messages_since (db w) tk (p_since_ts info)
      MAX_BATCH_MESSAGES ≠ [] →
    read_decision (analyze_message json_loads (fo_http o)) (product_cfg w)
    = Some dec →
    d_requires_approval dec = false →
    d_yes_reply dec = JStr text →
    fo_send o = true →
    let r := flush_thread json_loads w tk info o in
    r.1 = (if d_meetup_confirmed dec && Py.truthy (d_meetup_time_text dec)
              && negb (fo_tg_report o)
           then Raised else Next)
    ∧ outbox (log r.2) = outbox (log w) ++ [(tk, text)]
    ∧ appr r.2 = appr w
    ∧ (d_meetup_confirmed dec && Py.truthy (d_meetup_time_text dec) = false →
       tg_out (log r.2) = tg_out (log w))
    ∧ last_sent_by_us (caches r.2) !! tk = Some text
    ∧ last_seen_bottom (caches r.2) !! tk = Some text
    ∧ messages (db r.2)
      = messages (db_insert_message (db w) tk "seller" text (fo_t_insert o)).2
    ∧ ai_calls (log r.2)
      = ai_calls (log w)
        ++ [(history_to_text (db_get_recent_history (db w) tk 140),
             Py.join_lines
               (db_get_recent_buyer_messages_since (db w) tk (p_since_ts info)
                  MAX_BATCH_MESSAGES))].
Proof.
  intros json_loads w tk info o dec text Hgoto Hbatch Hr Hreq Hyes Hsend.
  assert (text ≠ "") as Hne.
  { destruct (read_decision_replies _ _ _ Hr) as (Hy & _).
    rewrite Hyes in Hy. by apply strip_truthy. }
  cbv zeta. unfold flush_thread, open_thread_by_href. cbv zeta.
  assert (Py.otruthy (p_href info)
          && negb (if negb (Py.otruthy (p_href info)) then false
                   else fo_goto_read o) = false) as ->.
  { destruct (Py.otruthy (p_href info)); [|done]. by destruct Hgoto as [-> _]. }
  destruct (db_get_recent_buyer_messages_since _ _ _ _) as [|m0 ms] eqn:Eb;
    [done|].
  change (product_cfg (log_ai_call w _ _)) with (product_cfg w). rewrite Hr.
  unfold approval_raises, flush_decide. cbv zeta. rewrite Hreq, Hyes.
  set (w1 := log_ai_call w _ _).
  pose proof (flush_send_sent w1 tk (Py.str_or (p_buyer_name info) "Buyer")
                (p_href info) dec text o Hne) as Hs.
  destruct Hs as [H1 H2]; [intros H; by apply Hgoto|exact Hsend|].
  cbv zeta in H1, H2. rewrite H1. split; [done|]. rewrite H2.
  pose proof (record_sent_effects (log_sent w1 tk text) tk
                (Py.str_or (p_buyer_name info) "Buyer") (p_href info) text
                (fo_t_insert o) (fo_t_state o)) as Hrec.
  cbv zeta in Hrec.
  destruct Hrec as (R1 & R2 & _ & _ & R5 & R6 & _ & R8 & _).
  destruct (d_meetup_confirmed dec && Py.truthy (d_meetup_time_text dec));
    cbn [log_tg log_meetup set_log log outbox tg_out ai_calls caches appr db];
    rewrite ?R6, ?R5, ?R8; repeat split; try done.
Qed.

Lemma ask_human_approval_tap (a : Approvals) (loop_time : float)
    (buyer : string) (intent yes_text no_text : json) (thread_key : string)
    (href meetup_log : option string) (chat data action : string) (b : bool) :
  Py.split1 "_" data = (action, Some (request_id_at loop_time)) →
  action = "approve" ∧ b = true ∨ action = "decline" ∧ b = false →
  (ask_human_approval a loop_time buyer intent yes_text no_text thread_key href
     meetup_log [CallbackQuery chat (Some data)]).1.1 = b.
Proof.
  intros Hs Hact. unfold ask_human_approval, ask_human_approval_begin.
  cbv zeta. set (rid := request_id_at loop_time) in *.
  set (fid := length (futures a)). set (a1 := mkApprovals _ _ _ _ _).
  assert (futures a1 !! fid = Some FutPending) as Hp.
  { unfold a1. cbn [futures]. rewrite lookup_app_r by done.
    by replace (fid - length (futures a))%nat with 0%nat by (unfold fid; lia). }
  cbn [await_future]. rewrite Hp. cbn [handle_ui]. unfold handle_approval.
  change (default "" (Some data)) with data.
  rewrite (split1_contains _ _ _ _ Hs), Hs. cbn [negb].
  assert (approval_meta a1 !! rid
          = Some (mkApprovalMeta thread_key href buyer meetup_log intent
                    yes_text no_text)) as -> by apply lookup_insert_eq.
  assert (set_result_if_pending a1 rid b
          = mkApprovals (<[fid := FutResult b]> (futures a1))
              (pending_approvals a1) (approval_meta a1) (custom_reply_wait a1)
              (send_queue a1)) as Hset.
  { unfold set_result_if_pending.
    assert (pending_approvals a1 !! rid = Some fid) as ->
      by apply lookup_insert_eq.
    by rewrite Hp. }
  assert (String.eqb action "approve" || String.eqb action "decline" = true
          ∧ String.eqb action "approve" = b) as [-> ->].
  { by destruct Hact as [[-> ->]|[-> ->]]. }
  rewrite Hset. cbn [fst]. unfold ask_human_approval_end. cbn [futures fst].
  rewrite list_lookup_insert_eq by (by eapply lookup_lt_Some). done.
Qed.

(** X12. The two buttons. When the request of a flush has gone out and the
    operator answers it with its first button, the final reply is the accept
    text; with its second button it is the decline text. Either way the
    request is gone from the tables when the call returns. *)
Theorem buttons_choose_the_reply :
  ∀ (w : World) (tk buyer_name : string) (href : option string)
    (dec : Decision) (o : FlushOracle) (chat : string),
    d_requires_approval dec = true →
    let rid := request_id_at (fo_loop_time o) in
    (fo_ui o = [CallbackQuery chat (Some ("approve_" +:+ rid))] →
     (flush_decide w tk buyer_name href dec o).1 = d_yes_reply dec)
    ∧ (fo_ui o = [CallbackQuery chat (Some ("decline_" +:+ rid))] →
       (flush_decide w tk buyer_name href dec o).1 = d_no_reply dec)
    ∧ pending_approvals (appr (flush_decide w tk buyer_name href dec o).2)
      !! rid = None
    ∧ approval_meta (appr (flush_decide w tk buyer_name href dec o).2)
      !! rid = None.
Proof.
  intros w tk buyer_name href dec o chat Hreq rid.
  unfold flush_decide. cbv zeta. rewrite Hreq.
  set (w1 := if Py.truthy (d_notes_for_owner dec) then _ else w).
  split; [|split].
  - intros Hui. rewrite Hui.
    pose proof (ask_human_approval_tap (appr w1) (fo_loop_time o) buyer_name
                  (d_intent dec) (d_yes_reply dec) (d_no_reply dec) tk href
                  (meetup_log_of dec) chat ("approve_" +:+ rid) "approve" true
                  eq_refl (or_introl (conj eq_refl eq_refl))) as H.
    destruct (ask_human_approval _ _ _ _ _ _ _ _ _ _) as [[b a'] out].
    cbn [fst] in H. by subst b.
  - intros Hui. rewrite Hui.
    pose proof (ask_human_approval_tap (appr w1) (fo_loop_time o) buyer_name
                  (d_intent dec) (d_yes_reply dec) (d_no_reply dec) tk href
                  (meetup_log_of dec) chat ("decline_" +:+ rid) "decline" false
                  eq_refl (or_intror (conj eq_refl eq_refl))) as H.
    destruct (ask_human_approval _ _ _ _ _ _ _ _ _ _) as [[b a'] out].
    cbn [fst] in H. by subst b.
  - unfold ask_human_approval, ask_human_approval_begin. cbv zeta. fold rid.
    destruct (await_future _ _ (fo_ui o)) as [a2 out2].
    unfold ask_human_approval_end.
    destruct (futures a2 !! length (futures (appr w1))) as [[]|];
      cbn [snd fst log_tg set_log set_appr appr pending_approvals approval_meta];
      split; apply lookup_delete_eq.
Qed.

Lemma buttons_choose_the_reply_witness :
  (flush_decide Scenario.w1 Scenario.thread "Bob" (Some Scenario.thread)
     Scenario.decision (Scenario.flush_with Scenario2.ui_approve true)).1
  = JStr "Yes, 5pm works.".
Proof.
  refine (proj1 (buttons_choose_the_reply Scenario.w1 Scenario.thread "Bob"
                   (Some Scenario.thread) Scenario.decision
                   (Scenario.flush_with Scenario2.ui_approve true) "42"
                   eq_refl) _).
  vm_compute. reflexivity.
Defined.

Lemma auto_reply_sends_the_accept_text_witness :
  outbox (log (flush_thread Scenario2.json_loads Scenario.w1 Scenario.thread
                 Scenario2.window (Scenario.flush_with [] true)).2)
  = [(Scenario.thread, "Yes, it is still available.")].
Proof.
  refine (proj1 (proj2 (auto_reply_sends_the_accept_text Scenario2.json_loads
                          Scenario.w1 Scenario.thread Scenario2.window
                          (Scenario.flush_with [] true)
                          Scenario2.simple_decision
                          "Yes, it is still available." _ _ _ eq_refl eq_refl
                          eq_refl))).
  - intros _. split; reflexivity.
  - vm_compute. discriminate.
  - vm_compute. reflexivity.
Defined.

Lemma flush_thread_effects (json_loads : string → option (gmap string json))
    (w : World) (tk : string) (info : PendingInfo) (o : FlushOracle) :
  let w' := (flush_thread json_loads w tk info o).2 in
  pending_threads w' = pending_threads w
  ∧ product_cfg w' = product_cfg w
  ∧ ((outbox (log w') = outbox (log w) ∧ meetups (log w') = meetups (log w)
      ∧ db w' = db w ∧ caches w' = caches w)
     ∨ ∃ dec text,
         read_decision (analyze_message json_loads (fo_http o)) (product_cfg w)
         = Some dec
         ∧ (d_yes_reply dec = JStr text ∨ d_no_reply dec = JStr text)
         ∧ text ≠ ""
         ∧ fo_send o = true
         ∧ outbox (log w') = outbox (log w) ++ [(tk, text)]
         ∧ messages (db w')
           = messages (db_insert_message (db w) tk "seller" text
                         (fo_t_insert o)).2
         ∧ (meetups (log w') = meetups (log w)
            ∨ (d_meetup_confirmed dec = true
               ∧ d_meetup_time_text dec ≠ ""
               ∧ meetups (log w')
                 = meetups (log w)
                   ++ [mkMeetup (Py.str_or (p_buyer_name info) "Buyer") tk
                         (item_name (product_cfg w)) (location (product_cfg w))
                         (d_meetup_time_text dec)
                         "Meetup confirmed (AI flagged) - sent reply"]))).
Proof.
  cbv zeta. unfold flush_thread. cbv zeta.
  destruct (Py.otruthy (p_href info) && negb _); [by repeat split; try left|].
  destruct (db_get_recent_buyer_messages_since _ _ _ _) as [|m0 ms];
    [by repeat split; try left|].
  set (w1 := log_ai_call w _ _).
  change (product_cfg w1) with (product_cfg w).
  destruct (read_decision _ _) as [dec|] eqn:Hr;
    [|by repeat split; try left].
  destruct (approval_raises w1 tk _ (p_href info) dec o) as [wr|] eqn:Er.
  { cbn [snd].
    destruct (approval_raises_store _ _ _ _ _ _ _ Er)
      as (-> & -> & -> & -> & -> & -> & _).
    by repeat split; try left. }
  destruct (flush_decide w1 tk _ (p_href info) dec o) as [fin w2] eqn:E.
  set (name := Py.str_or (p_buyer_name info) "Buyer") in *.
  pose proof (flush_decide_store w1 tk name (p_href info) dec o) as Hst.
  pose proof (flush_decide_reply w1 tk name (p_href info) dec o) as Hrep.
  rewrite E in Hst, Hrep. cbn [fst snd] in Hst, Hrep.
  destruct Hst as (Hd & Hc & Ho & Hm).
  assert (pending_threads w2 = pending_threads w
          ∧ product_cfg w2 = product_cfg w) as [Hp2 Hcfg2].
  { assert (w2 = (flush_decide w1 tk name (p_href info) dec o).2) as ->
      by (by rewrite E).
    unfold flush_decide. cbv zeta. destruct (d_requires_approval dec); [|done].
    destruct (ask_human_approval _ _ _ _ _ _ _ _ _ _) as [[b a'] out].
    by destruct (Py.truthy (d_notes_for_owner dec)). }
  unfold flush_send.
  destruct (negb (json_truthy fin)); [by repeat split; try left|].
  destruct (Py.otruthy (p_href info) && negb _); [by repeat split; try left|].
  destruct (send_message fin (fo_send o)) eqn:Hsend;
    [|by repeat split; try left].
  assert (∃ text, fin = JStr text ∧ fo_send o = true) as (text & -> & Hok).
  { destruct fin; try done. by eexists. }
  cbn [as_str].
  pose proof (record_sent_effects (log_sent w2 tk text) tk name (p_href info)
                text (fo_t_insert o) (fo_t_state o)) as Hrec.
  cbv zeta in Hrec.
  destruct Hrec as (_ & _ & _ & R4 & _ & R6 & R7 & R8 & _).
  assert (text ≠ "") as Hne.
  { destruct (read_decision_replies _ _ _ Hr) as (Hy & Hn & _).
    apply strip_truthy.
    destruct Hrep as [E1|E1]; [rewrite <- E1 in Hy|rewrite <- E1 in Hn]; done. }
  assert (d_yes_reply dec = JStr text ∨ d_no_reply dec = JStr text) as Hrep'.
  { destruct Hrep as [E1|E1]; [left|right]; done. }
  assert (messages (db_insert_message (db (log_sent w2 tk text)) tk "seller"
                      text (fo_t_insert o)).2
          = messages (db_insert_message (db w) tk "seller" text
                        (fo_t_insert o)).2) as Hmsg.
  { change (db (log_sent w2 tk text)) with (db w2). by rewrite Hd. }
  destruct (d_meetup_confirmed dec && Py.truthy (d_meetup_time_text dec)) eqn:Em;
    [destruct (fo_tg_report o)|];
    cbn [snd log_tg log_meetup set_log log outbox meetups db caches
         pending_threads product_cfg];
    rewrite ?R4, ?R6, ?R7, ?R8;
    cbn [log_sent set_log log outbox meetups pending_threads product_cfg];
    rewrite ?Hp2, ?Hcfg2, ?Ho, ?Hm, ?Hmsg.
  - split; [done|]. split; [done|]. right. exists dec, text.
    apply andb_true_iff in Em as [Em1 Em2]. apply strip_truthy in Em2.
    do 6 (split; [done|]). right. done.
  - split; [done|]. split; [done|]. right. exists dec, text.
    apply andb_true_iff in Em as [Em1 Em2]. apply strip_truthy in Em2.
    do 6 (split; [done|]). right. done.
  - split; [done|]. split; [done|]. right. exists dec, text.
    do 6 (split; [done|]). by left.
Qed.

(** X13. A flush iteration sends at most one message, and only the accept or
    the decline reply of the decision it read. It writes to the store and the
    caches only together with that message, and it logs a meetup only
    together with it, when the decision confirms a meetup with a time. The
    windows are not touched by the iteration itself. *)
Theorem flush_sends_at_most_one_reply :
  ∀ (json_loads : string → option (gmap string json)) (w : World)
    (tk : string) (info : PendingInfo) (o : FlushOracle),
    let w' := (flush_thread json_loads w tk info o).2 in
    pending_threads w' = pending_threads w
    ∧ ((outbox (log w') = outbox (log w) ∧ meetups (log w') = meetups (log w)
        ∧ db w' = db w ∧ caches w' = caches w)
       ∨ ∃ dec text,
           read_decision (analyze_message json_loads (fo_http o))
             (product_cfg w) = Some dec
           ∧ (d_yes_reply dec = JStr text ∨ d_no_reply dec = JStr text)
           ∧ outbox (log w') = outbox (log w) ++ [(tk, text)]
           ∧ (meetups (log w') = meetups (log w)
              ∨ (d_meetup_confirmed dec = true
                 ∧ d_meetup_time_text dec ≠ ""
                 ∧ length (meetups (log w'))
                   = S (length (meetups (log w)))))).
Proof.
  intros json_loads w tk info o. cbv zeta.
  destruct (flush_thread_effects json_loads w tk info o)
    as (Hp & _ & [Hsame|(dec & text & Hr & Hrep & _ & _ & Hout & _ & Hm)]).
  - split; [exact Hp|]. by left.
  - split; [exact Hp|]. right. exists dec, text. repeat split; try done.
    destruct Hm as [Hm|(H1 & H2 & ->)]; [by left|right].
    repeat split; try done. rewrite length_app. cbn. lia.
Qed.

(** ** The approval flow when the request goes out *)

(** X14. A request whose message went out is created pending; the call
    returns with its future in one terminal state, cancelled by the timeout
    (result false) or completed by a handler (result the value set); a
    handler completes a pending future only as the approve button, the
    decline button or the custom text of its request, the last one queueing
    the send action; a future that is done is never changed by a handler; and
    once the call has returned, a button pressed for its id changes nothing
    (the message is edited to "expired") and a text is ignored, except that
    in a chat whose Custom button was pressed before the resolution the text
    clears that stale mark and nothing else. *)
Theorem approval_resolves_once :
  ∀ (a : Approvals) (loop_time : float) (buyer : string)
    (intent yes_text no_text : json) (thread_key : string)
    (href meetup_log : option string) (evs : list UiEvent),
    let '(request_id, fid, a1, _) :=
      ask_human_approval_begin a loop_time buyer intent yes_text no_text
        thread_key href meetup_log in
    let a2 := (await_future a1 fid evs).1 in
    let '(res, a3) := ask_human_approval_end a2 request_id fid in
    futures a1 !! fid = Some FutPending
    ∧ pending_approvals a1 !! request_id = Some fid
    ∧ ((futures a2 !! fid = Some FutPending ∧ res = false
        ∧ futures a3 !! fid = Some FutCancelled)
       ∨ (futures a2 !! fid = Some (FutResult res)
          ∧ futures a3 !! fid = Some (FutResult res)))
    ∧ (∀ s ev, futures s !! fid = Some FutPending →
         future_step s fid ev (handle_ui s ev).1)
    ∧ (∀ s ev f, futures s !! fid = Some f → fut_done f = true →
         futures (handle_ui s ev).1 !! fid = Some f)
    ∧ (∀ chat data action,
         Py.split1 "_" data = (action, Some request_id) →
         handle_approval a3 chat (Some data) = (a3, [TgEditExpired]))
    ∧ (∀ w chat data action,
         appr w = a3 → Py.split1 "_" data = (action, Some request_id) →
         ui_step w (CallbackQuery chat (Some data)) = log_tg w [TgEditExpired])
    ∧ (∀ chat text,
         custom_reply_wait a3 !! chat = None →
         handle_admin_text a3 chat text = (a3, []))
    ∧ (∀ chat text,
         custom_reply_wait a3 !! chat = Some request_id →
         handle_admin_text a3 chat text
         = (pop_custom_wait a3 chat, [TgCustomExpired])).
Proof.
  intros. unfold ask_human_approval_begin. cbv zeta.
  set (rid := request_id_at loop_time). set (fid := length (futures a)).
  set (a1 := mkApprovals _ _ _ _ _).
  assert (futures a1 !! fid = Some FutPending) as Hp1.
  { cbn [a1 futures]. rewrite lookup_app_r by done.
    by replace (fid - length (futures a))%nat with 0%nat by (unfold fid; lia). }
  destruct (ask_human_approval_end _ rid fid) as [res a3] eqn:Eend.
  unfold ask_human_approval_end in Eend.
  assert (∀ chat data action,
            Py.split1 "_" data = (action, Some rid) →
            handle_approval a3 chat (Some data) = (a3, [TgEditExpired])) as Hlate.
  { intros chat data action Hs. unfold handle_approval.
    change (default "" (Some data)) with data.
    rewrite (split1_contains _ _ _ _ Hs), Hs. cbn [negb].
    assert (approval_meta a3 !! rid = None) as ->; [|done].
    destruct (futures (await_future a1 fid evs).1 !! fid) as [[]|];
      injection Eend as _ <-; cbn [approval_meta]; apply lookup_delete_eq. }
  split; [exact Hp1|]. split; [apply lookup_insert_eq|]. split.
  { destruct (await_future_outcome a1 fid evs Hp1) as [Hp|[b Hb]].
    - left. rewrite Hp in Eend. injection Eend as <- <-. cbn [futures].
      repeat split; try done. apply list_lookup_insert_eq.
      by eapply lookup_lt_Some.
    - right. rewrite Hb in Eend. injection Eend as <- <-. done. }
  split; [intros s ev Hs; by eapply handle_ui_future_step|].
  split; [intros s ev f; apply handle_ui_done_stable|].
  split; [exact Hlate|]. split; [|split].
  - intros w chat data action <- Hs. unfold ui_step. cbn [handle_ui].
    rewrite (Hlate chat data action Hs). by rewrite set_appr_same.
  - intros chat text Hw. unfold handle_admin_text. by rewrite Hw.
  - intros chat text Hw. unfold handle_admin_text. rewrite Hw.
    assert (approval_meta a3 !! rid = None) as ->; [|done].
    destruct (futures (await_future a1 fid evs).1 !! fid) as [[]|];
      injection Eend as _ <-; cbn [approval_meta]; apply lookup_delete_eq.
Qed.

(** On the run: the request of the second tick, answered by the custom
    path, and a late tap on its Decline button. *)
Lemma approval_resolves_once_witness :
  handle_approval
    (ask_human_approval (appr Scenario.w1) 14.5 "Bob" (d_intent Scenario.decision)
       (d_yes_reply Scenario.decision) (d_no_reply Scenario.decision) Scenario.thread (Some Scenario.thread) None
       Scenario.ui_custom).1.2
    "42" (Some "decline_14500")
  = ((ask_human_approval (appr Scenario.w1) 14.5 "Bob" (d_intent Scenario.decision)
        (d_yes_reply Scenario.decision) (d_no_reply Scenario.decision) Scenario.thread (Some Scenario.thread)
        None Scenario.ui_custom).1.2,
     [TgEditExpired]).
Proof.
  pose proof (approval_resolves_once (appr Scenario.w1) 14.5 "Bob" (d_intent Scenario.decision)
                (d_yes_reply Scenario.decision) (d_no_reply Scenario.decision) Scenario.thread
                (Some Scenario.thread) None Scenario.ui_custom) as H.
  unfold ask_human_approval.
  destruct (ask_human_approval_begin _ _ _ _ _ _ _ _ _) as [[[rid fid] a1] out1]
    eqn:Eb.
  assert (rid = "14500") as -> by (by vm_compute in Eb; injection Eb as <- _ _).
  cbv zeta in H. destruct (await_future a1 fid Scenario.ui_custom) as [a2 out2].
  cbn [fst] in H. destruct (ask_human_approval_end a2 "14500" fid) as [res a3].
  destruct H as (_ & _ & _ & _ & _ & Hlate & _). cbn [fst snd].
  by apply (Hlate "42" "decline_14500" "decline").
Defined.

(** X15. A request that went out and that no handler resolves before the
    timeout: the call answers false, the flush takes the decline reply as its
    final reply, and nothing but that decline text is dispatched for the
    thread; it is dispatched when the thread opens and the send succeeds. The
    decline reply is the engine's [reply_if_declined], or the fixed apology
    when that is missing or empty. The version 3 call answers false as well. *)
Theorem approval_timeout_declines :
  ∀ (w : World) (tk buyer_name : string) (href : option string)
    (dec : Decision) (o : FlushOracle),
    d_requires_approval dec = true →
    times_out (appr w) (fo_loop_time o) buyer_name (d_intent dec)
      (d_yes_reply dec) (d_no_reply dec) tk href (meetup_log_of dec) (fo_ui o) →
    (ask_human_approval (appr w) (fo_loop_time o) buyer_name (d_intent dec)
       (d_yes_reply dec) (d_no_reply dec) tk href (meetup_log_of dec)
       (fo_ui o)).1.1 = false
    ∧ (flush_decide w tk buyer_name href dec o).1 = d_no_reply dec
    ∧ (let w2 := (flush_decide w tk buyer_name href dec o).2 in
       let w3 := (flush_send w2 tk buyer_name href dec (d_no_reply dec) o).2 in
       outbox (log w2) = outbox (log w)
       ∧ (outbox (log w3) = outbox (log w)
          ∨ outbox (log w3) = outbox (log w) ++ [(tk, as_str (d_no_reply dec))])
       ∧ (∀ text, d_no_reply dec = JStr text → text ≠ "" →
            (Py.otruthy href = true → fo_goto_send o = true) →
            fo_send o = true →
            outbox (log w3) = outbox (log w) ++ [(tk, text)]))
    ∧ (∀ analysis cfg dec',
         read_decision analysis cfg = Some dec' →
         d_no_reply dec'
         = if json_truthy (get_or analysis "reply_if_declined" (JStr ""))
           then get_or analysis "reply_if_declined" (JStr "")
           else JStr "Sorry, I can’t do that.")
    ∧ (∀ a loop_time buyer intent yes_text no_text evs,
         (let '(_, fid, a1, _) :=
            V3.ask_human_approval_begin a loop_time buyer intent yes_text
              no_text in
          futures (V3.await_future a1 fid evs).1 !! fid = Some FutPending) →
         (V3.ask_human_approval a loop_time buyer intent yes_text no_text
            evs).1.1 = false).
Proof.
  intros w tk buyer_name href dec o Hreq Hto.
  pose proof (ask_human_approval_timeout _ _ _ _ _ _ _ _ _ _ Hto) as Hask.
  assert (∀ w1, appr w1 = appr w → outbox (log w1) = outbox (log w) →
            (let '(user_approved, a, out) :=
               ask_human_approval (appr w1) (fo_loop_time o) buyer_name
                 (d_intent dec) (d_yes_reply dec) (d_no_reply dec) tk href
                 (meetup_log_of dec) (fo_ui o) in
             (if user_approved then d_yes_reply dec else d_no_reply dec,
              log_tg (set_appr w1 a) out)).1 = d_no_reply dec
            ∧ outbox (log (let '(user_approved, a, out) :=
               ask_human_approval (appr w1) (fo_loop_time o) buyer_name
                 (d_intent dec) (d_yes_reply dec) (d_no_reply dec) tk href
                 (meetup_log_of dec) (fo_ui o) in
             (if user_approved then d_yes_reply dec else d_no_reply dec,
              log_tg (set_appr w1 a) out)).2) = outbox (log w)) as Hdec.
  { intros w1 -> Ho.
    destruct (ask_human_approval _ _ _ _ _ _ _ _ _ _) as [[b a'] out].
    cbn [fst] in Hask. subst b. cbn [fst snd]. split; [done|exact Ho]. }
  assert ((flush_decide w tk buyer_name href dec o).1 = d_no_reply dec
          ∧ outbox (log (flush_decide w tk buyer_name href dec o).2)
            = outbox (log w)) as [Hfin Hout].
  { unfold flush_decide. cbv zeta. rewrite Hreq.
    destruct (Py.truthy (d_notes_for_owner dec)); apply Hdec; done. }
  split; [exact Hask|]. split; [exact Hfin|]. split.
  { cbv zeta. split; [exact Hout|]. rewrite flush_send_outbox, Hout. split.
    - destruct (_ && _ && _); [by right|left; by rewrite app_nil_r].
    - intros text Ht Hne Hgoto Hsend. rewrite Ht. cbn [json_truthy send_message as_str].
      rewrite Hsend, (proj2 (strip_truthy text) Hne).
      unfold open_thread_by_href.
      destruct (Py.otruthy href); cbn [negb andb]; [|done].
      by rewrite Hgoto. }
  split.
  { intros analysis cfg dec' Hr. unfold read_decision in Hr.
    destruct (stripped (get_or analysis "category" _)); [|done].
    destruct (stripped (get_or analysis "meetup_time_text" _)); [|done].
    destruct (stripped (get_or analysis "notes_for_owner" _)); [|done].
    cbn in Hr. injection Hr as <-. cbn [d_no_reply].
    by destruct (json_truthy (get_or analysis "reply_if_declined" _)). }
  intros a loop_time buyer intent yes_text no_text evs.
  unfold V3.ask_human_approval, V3.ask_human_approval_begin. cbv zeta.
  destruct (V3.await_future _ _ evs) as [a2 out2]. cbn [fst]. intros Hp.
  unfold V3.ask_human_approval_end. by rewrite Hp.
Qed.

(** On the run: the operator taps Custom and never types a reply. *)
Lemma approval_timeout_declines_witness :
  (flush_decide Scenario.w1 Scenario.thread "Bob" (Some Scenario.thread) Scenario.decision
     (Scenario.flush_with Scenario.ui_custom_only true)).1
  = JStr "Sorry, 5pm does not work for me.".
Proof.
  refine (proj1 (proj2 (approval_timeout_declines Scenario.w1 Scenario.thread "Bob" (Some Scenario.thread)
                          Scenario.decision (Scenario.flush_with Scenario.ui_custom_only true) eq_refl _))).
  vm_compute. reflexivity.
Defined.


(** ** Windows, the send queue and the scan *)

Lemma dict_get_Some_in {V} (k : string) (v : V) (d : list (string * V)) :
  dict_get k d = Some v → (k, v) ∈ d.
Proof.
  induction d as [|[k' v'] r IH]; cbn [dict_get]; [done|].
  destruct (String.eqb k k') eqn:E.
  - apply String.eqb_eq in E as <-. intros [= <-]. left.
  - intros H. right. by apply IH.
Qed.

Lemma dict_get_None_keys {V} (k : string) (d : list (string * V)) :
  dict_get k d = None ↔ k ∉ map fst d.
Proof.
  induction d as [|[k' v'] r IH]; cbn [dict_get map fst].
  - split; [intros _; apply not_elem_of_nil|done].
  - rewrite not_elem_of_cons. destruct (String.eqb k k') eqn:E.
    + apply String.eqb_eq in E as <-. split; [done|]. by intros [? _].
    + apply String.eqb_neq in E. rewrite IH. split; [done|]. by intros [_ ?].
Qed.

Lemma dict_get_in_nodup {V} (k : string) (v : V) (d : list (string * V)) :
  NoDup (map fst d) → (k, v) ∈ d → dict_get k d = Some v.
Proof.
  induction d as [|[k' v'] r IH]; cbn [dict_get map fst]; intros Hnd Hin.
  - by apply elem_of_nil in Hin.
  - apply NoDup_cons in Hnd as [Hk Hnd]. apply elem_of_cons in Hin as [[= <- <-]|Hin].
    + by rewrite String.eqb_refl.
    + destruct (String.eqb k k') eqn:E; [|by apply IH].
      apply String.eqb_eq in E as <-. destruct Hk.
      by apply (list_elem_of_fmap_2 fst r (k, v)).
Qed.

Lemma dict_remove_keys {V} (k : string) (d : list (string * V)) :
  map fst (dict_remove k d) `sublist_of` map fst d.
Proof.
  induction d as [|[k' v'] r IH]; cbn [dict_remove map fst]; [done|].
  destruct (String.eqb k k'); cbn [map fst].
  - by apply sublist_cons.
  - by apply sublist_skip.
Qed.

Lemma dict_remove_nodup {V} (k : string) (d : list (string * V)) :
  NoDup (map fst d) → NoDup (map fst (dict_remove k d)).
Proof. intros H. eapply sublist_NoDup; [|apply dict_remove_keys]. done. Qed.

Lemma dict_get_remove_eq {V} (k : string) (d : list (string * V)) :
  NoDup (map fst d) → dict_get k (dict_remove k d) = None.
Proof.
  induction d as [|[k' v'] r IH]; cbn [dict_remove map fst]; intros Hnd;
    [done|].
  apply NoDup_cons in Hnd as [Hk Hnd]. destruct (String.eqb k k') eqn:E.
  - apply String.eqb_eq in E as <-. by apply dict_get_None_keys.
  - cbn [dict_get]. rewrite E. by apply IH.
Qed.

Lemma dict_get_remove_ne {V} (k k0 : string) (d : list (string * V)) :
  k0 ≠ k → dict_get k0 (dict_remove k d) = dict_get k0 d.
Proof.
  intros Hne. induction d as [|[k' v'] r IH]; cbn [dict_remove dict_get];
    [done|].
  destruct (String.eqb k k') eqn:E; cbn [dict_get].
  - apply String.eqb_eq in E as <-.
    by rewrite (proj2 (String.eqb_neq k0 k) Hne).
  - by rewrite IH.
Qed.

Lemma dict_set_keys {V} (k : string) (v : V) (d : list (string * V)) :
  map fst (dict_set k v d)
  = match dict_get k d with
    | Some _ => map fst d
    | None => map fst d ++ [k]
    end.
Proof.
  induction d as [|[k' v'] r IH]; cbn [dict_set dict_get map fst]; [done|].
  destruct (String.eqb k k') eqn:E; cbn [map fst]; [done|].
  rewrite IH. by destruct (dict_get k r).
Qed.

Lemma dict_set_nodup {V} (k : string) (v : V) (d : list (string * V)) :
  NoDup (map fst d) → NoDup (map fst (dict_set k v d)).
Proof.
  intros Hnd. rewrite dict_set_keys. destruct (dict_get k d) eqn:E; [done|].
  apply NoDup_app. split; [done|]. split; [|apply NoDup_singleton].
  intros x Hx Hin. apply list_elem_of_singleton in Hin as ->.
  by apply dict_get_None_keys in E.
Qed.

Lemma debounce_notify_nodup (p : list (string * PendingInfo)) (tk : string)
    (href : option string) (name : string) (loop_now : float) (ts_now : Z) :
  NoDup (map fst p) →
  NoDup (map fst (debounce_notify p tk href name loop_now ts_now)).
Proof.
  intros H. unfold debounce_notify.
  destruct (dict_get tk p); by apply dict_set_nodup.
Qed.

Lemma flush_thread_pending (json_loads : string → option (gmap string json))
    (w : World) (tk : string) (info : PendingInfo) (o : FlushOracle) :
  pending_threads (flush_thread json_loads w tk info o).2 = pending_threads w.
Proof. apply (flush_thread_effects json_loads w tk info o). Qed.

Lemma flush_loop_pending (json_loads : string → option (gmap string json))
    (to_flush : list string) (w : World) (o : string → FlushOracle) :
  NoDup (map fst (pending_threads w)) →
  let r := flush_loop json_loads w to_flush o in
  NoDup (map fst (pending_threads r.2))
  ∧ (∀ tk, tk ∉ to_flush →
       dict_get tk (pending_threads r.2) = dict_get tk (pending_threads w))
  ∧ (∀ tk, dict_get tk (pending_threads w) = None →
       dict_get tk (pending_threads r.2) = None)
  ∧ (r.1 = Next → ∀ tk, tk ∈ to_flush →
       dict_get tk (pending_threads r.2) = None).
Proof.
  revert w. induction to_flush as [|tk rest IH]; intros w Hnd; cbv zeta.
  - cbn [flush_loop fst snd]. repeat split; try done.
    intros _ tk Htk. by apply elem_of_nil in Htk.
  - cbn [flush_loop].
    destruct (dict_get tk (pending_threads w)) as [info|] eqn:Eg.
    + set (w1 := set_pending_threads w (dict_remove tk (pending_threads w))).
      assert (NoDup (map fst (pending_threads w1))) as Hnd1
        by (by apply dict_remove_nodup).
      destruct (flush_thread json_loads w1 tk info (o tk)) as [fl w2] eqn:E.
      assert (pending_threads w2 = pending_threads w1) as Hp2.
      { pose proof (flush_thread_pending json_loads w1 tk info (o tk)) as H.
        by rewrite E in H. }
      assert (dict_get tk (pending_threads w2) = None) as Hgone.
      { rewrite Hp2. by apply dict_get_remove_eq. }
      assert (∀ k, k ≠ tk → dict_get k (pending_threads w2)
                            = dict_get k (pending_threads w)) as Hother.
      { intros k Hk. rewrite Hp2. by apply dict_get_remove_ne. }
      assert (∀ k, dict_get k (pending_threads w) = None →
                   dict_get k (pending_threads w2) = None) as Hnone.
      { intros k Hk. destruct (decide (k = tk)) as [->|Hne]; [done|].
        by rewrite Hother. }
      destruct fl.
      * destruct (IH w2) as (I1 & I2 & I3 & I4); [by rewrite Hp2|].
        cbv zeta in I1, I2, I3, I4. repeat split.
        -- exact I1.
        -- intros k Hk. apply not_elem_of_cons in Hk as [Hk1 Hk2].
           rewrite I2 by done. by apply Hother.
        -- intros k Hk. apply I3. by apply Hnone.
        -- intros Hn k Hk. apply elem_of_cons in Hk as [->|Hk].
           ++ by apply I3.
           ++ by apply I4.
      * cbn [fst snd]. repeat split; try done.
        -- by rewrite Hp2.
        -- intros k Hk. apply not_elem_of_cons in Hk as [Hk1 Hk2].
           by apply Hother.
      * cbn [fst snd]. repeat split; try done.
        -- by rewrite Hp2.
        -- intros k Hk. apply not_elem_of_cons in Hk as [Hk1 Hk2].
           by apply Hother.
    + destruct (IH w Hnd) as (I1 & I2 & I3 & I4).
      cbv zeta in I1, I2, I3, I4. repeat split.
      * exact I1.
      * intros k Hk. apply not_elem_of_cons in Hk as [Hk1 Hk2]. by apply I2.
      * exact I3.
      * intros Hn k Hk. apply elem_of_cons in Hk as [->|Hk].
        -- by apply I3.
        -- by apply I4.
Qed.

Lemma ripe_spec (now_loop : float) (p : list (string * PendingInfo))
    (tk : string) (info : PendingInfo) :
  NoDup (map fst p) → dict_get tk p = Some info →
  tk ∈ ripe now_loop p
  ↔ (DEBOUNCE_SECONDS <=? now_loop - p_last_update info)%float = true.
Proof.
  intros Hnd Hget. unfold ripe. rewrite list_elem_of_fmap. split.
  - intros ([k i] & -> & Hin). apply list_elem_of_filter in Hin as [Hr Hin].
    cbn [fst snd] in *. rewrite (dict_get_in_nodup k i p Hnd Hin) in Hget.
    by injection Hget as <-.
  - intros Hr. exists (tk, info). split; [done|].
    apply list_elem_of_filter. split; [done|]. by apply dict_get_Some_in.
Qed.

(** X16. A flush takes every window it processes out of [pending_threads]
    before it works on it. With distinct keys in [pending_threads]: exactly
    the windows whose last update is at least the quiet period old are ripe;
    the windows that are not ripe are left as they are; when the flush runs
    to its end every ripe window is gone; and a flush never opens a
    window. *)
Theorem flush_takes_the_ripe_windows :
  ∀ (json_loads : string → option (gmap string json)) (w : World)
    (now_loop : float) (o : string → FlushOracle),
    NoDup (map fst (pending_threads w)) →
    let r := flush_debounced_threads json_loads w now_loop o in
    (∀ tk info,
       dict_get tk (pending_threads w) = Some info →
       (tk ∈ ripe now_loop (pending_threads w)
        ↔ (DEBOUNCE_SECONDS <=? now_loop - p_last_update info)%float = true))
    ∧ (∀ tk, tk ∉ ripe now_loop (pending_threads w) →
         dict_get tk (pending_threads r.2) = dict_get tk (pending_threads w))
    ∧ (r.1 = Next →
       ∀ tk, tk ∈ ripe now_loop (pending_threads w) →
         dict_get tk (pending_threads r.2) = None)
    ∧ (∀ tk, dict_get tk (pending_threads w) = None →
         dict_get tk (pending_threads r.2) = None)
    ∧ NoDup (map fst (pending_threads r.2)).
Proof.
  intros json_loads w now_loop o Hnd. cbv zeta.
  destruct (flush_loop_pending json_loads (ripe now_loop (pending_threads w))
              w o Hnd) as (I1 & I2 & I3 & I4).
  cbv zeta in I1, I2, I3, I4. unfold flush_debounced_threads.
  split; [intros tk info; by apply ripe_spec|]. done.
Qed.

Lemma flush_takes_the_ripe_windows_witness :
  dict_get Scenario.thread
    (pending_threads
       (flush_debounced_threads Scenario2.json_loads Scenario.w1 14
          (fun _ => Scenario.flush_with [] true)).2) = None.
Proof.
  refine (proj1 (proj2 (proj2 (flush_takes_the_ripe_windows
            Scenario2.json_loads Scenario.w1 14
            (fun _ => Scenario.flush_with [] true) _))) _ Scenario.thread _).
  - vm_compute. repeat constructor. apply not_elem_of_nil.
  - vm_compute. reflexivity.
  - vm_compute. left.
Defined.

(** An action that [drain_send_queue] would try to send. *)
Lemma drain_action_effects (w : World) (action : SendAction) (o : SendOracle) :
  let w' := drain_action w action o in
  appr w' = appr w ∧ pending_threads w' = pending_threads w
  ∧ product_cfg w' = product_cfg w ∧ tg_out (log w') = tg_out (log w)
  ∧ (w' = w
     ∨ (Py.otruthy (sa_href action) = true
        ∧ sa_type action = "send_custom"
        ∧ Py.strip (sa_text action) ≠ ""
        ∧ so_send o = true
        ∧ outbox (log w')
          = outbox (log w) ++ [(sa_thread_key action, Py.strip (sa_text action))]
        ∧ messages (db w')
          = messages (db_insert_message (db w) (sa_thread_key action) "seller"
                        (Py.strip (sa_text action)) (so_t_insert o)).2
        ∧ autoinc (db w')
          = autoinc (db_insert_message (db w) (sa_thread_key action) "seller"
                       (Py.strip (sa_text action)) (so_t_insert o)).2
        ∧ last_sent_by_us (caches w') !! sa_thread_key action
          = Some (Py.strip (sa_text action)))).
Proof.
  cbv zeta. unfold drain_action.
  destruct (String.eqb (sa_type action) "send_custom") eqn:Et; cbn [negb];
    [|by repeat split; try left].
  apply String.eqb_eq in Et.
  destruct (Py.otruthy (sa_href action)) eqn:Eh; cbn [andb negb];
    [|by repeat split; try left].
  destruct (Py.truthy (sa_thread_key action)); cbn [andb negb];
    [|by repeat split; try left].
  destruct (Py.truthy (Py.strip (sa_text action))) eqn:Ex; cbn [andb negb];
    [|by repeat split; try left].
  apply strip_truthy in Ex.
  destruct (negb (open_thread_by_href _ _)); [by repeat split; try left|].
  cbn [send_message]. destruct (so_send o) eqn:Es; [|by repeat split; try left].
  set (text := Py.strip (sa_text action)) in *.
  pose proof (record_sent_effects (log_sent w (sa_thread_key action) text)
                (sa_thread_key action) (sa_buyer_name action) (sa_href action)
                text (so_t_insert o) (so_t_state o)) as Hrec.
  cbv zeta in Hrec.
  destruct Hrec as (R1 & _ & _ & R4 & R5 & R6 & R7 & R8 & R9 & _).
  assert (∀ wm, (wm = record_sent (log_sent w (sa_thread_key action) text)
                        (sa_thread_key action) (sa_buyer_name action)
                        (sa_href action) text (so_t_insert o) (so_t_state o)
                 ∨ ∃ m, wm = log_meetup
                               (record_sent
                                  (log_sent w (sa_thread_key action) text)
                                  (sa_thread_key action) (sa_buyer_name action)
                                  (sa_href action) text (so_t_insert o)
                                  (so_t_state o)) m) →
            appr wm = appr w ∧ pending_threads wm = pending_threads w
            ∧ product_cfg wm = product_cfg w ∧ tg_out (log wm) = tg_out (log w)
            ∧ (wm = w
               ∨ (true = true ∧ sa_type action = "send_custom" ∧ text ≠ ""
                  ∧ true = true
                  ∧ outbox (log wm)
                    = outbox (log w) ++ [(sa_thread_key action, text)]
                  ∧ messages (db wm)
                    = messages (db_insert_message (db w) (sa_thread_key action)
                                  "seller" text (so_t_insert o)).2
                  ∧ autoinc (db wm)
                    = autoinc (db_insert_message (db w) (sa_thread_key action)
                                 "seller" text (so_t_insert o)).2
                  ∧ last_sent_by_us (caches wm) !! sa_thread_key action
                    = Some text))) as Hall.
  { intros wm [-> | [m ->]];
      cbn [log_meetup set_log log outbox tg_out db caches appr pending_threads
           product_cfg];
      rewrite ?R4, ?R5, ?R6, ?R7, ?R8, ?R9, ?R1; repeat split; try done;
      right; repeat split; done. }
  destruct (sa_meetup_log action) as [tt|]; [|apply Hall; by left].
  destruct (Py.truthy tt); apply Hall; [right; by eexists|by left].
Qed.

Lemma drain_actions_effects (q : list SendAction) (w : World)
    (o : nat → SendOracle) (i : nat) :
  let w' := drain_actions w q o i in
  appr w' = appr w ∧ pending_threads w' = pending_threads w
  ∧ tg_out (log w') = tg_out (log w)
  ∧ (∃ sent,
       outbox (log w') = outbox (log w) ++ sent
       ∧ sent `sublist_of`
           map (fun a => (sa_thread_key a, Py.strip (sa_text a))) q)
  ∧ (Forall (fun a => Py.otruthy (sa_href a) = false) q → w' = w).
Proof.
  cbv zeta. revert w i. induction q as [|a rest IH]; intros w i;
    cbn [drain_actions].
  - repeat split; try done. exists []. by rewrite app_nil_r.
  - destruct (IH (drain_action w a (o i)) (S i))
      as (I1 & I2 & I3 & (sent & Is & Isub) & I5).
    destruct (drain_action_effects w a (o i))
      as (D1 & D2 & _ & D4 & [Dsame|(Dh & _ & _ & _ & Dout & _)]).
    + rewrite I1, I2, I3, Is, D1, D2, D4. split; [done|]. split; [done|].
      split; [done|]. split.
      * exists sent. rewrite Dsame. split; [done|]. cbn [map].
        by apply sublist_cons.
      * intros Hall. apply Forall_cons in Hall as [_ Hall].
        rewrite I5 by done. exact Dsame.
    + rewrite I1, I2, I3, Is, D1, D2, D4, Dout. split; [done|]. split; [done|].
      split; [done|]. split.
      * exists ((sa_thread_key a, Py.strip (sa_text a)) :: sent).
        split; [by rewrite <- app_assoc|]. cbn [map]. by apply sublist_skip.
      * intros Hall. apply Forall_cons in Hall as [Ha _]. congruence.
Qed.

(** X17. Draining the send queue empties it and touches neither the other
    approval tables nor the windows. What it sends are stripped texts of
    queued actions, to their threads, in the order of the queue. An action
    without an href is dropped without a send or a store write, so a custom
    reply for a thread known only by its positional key is never
    delivered. *)
Theorem drain_sends_only_what_was_queued :
  ∀ (w : World) (o : nat → SendOracle),
    let w' := drain_send_queue w o in
    send_queue (appr w') = []
    ∧ futures (appr w') = futures (appr w)
    ∧ pending_approvals (appr w') = pending_approvals (appr w)
    ∧ approval_meta (appr w') = approval_meta (appr w)
    ∧ custom_reply_wait (appr w') = custom_reply_wait (appr w)
    ∧ pending_threads w' = pending_threads w
    ∧ (∃ sent,
         outbox (log w') = outbox (log w) ++ sent
         ∧ sent `sublist_of`
             map (fun a => (sa_thread_key a, Py.strip (sa_text a)))
               (send_queue (appr w)))
    ∧ (Forall (fun a => Py.otruthy (sa_href a) = false) (send_queue (appr w)) →
       outbox (log w') = outbox (log w) ∧ db w' = db w ∧ caches w' = caches w).
Proof.
  intros w o. cbv zeta. unfold drain_send_queue. cbv zeta.
  set (w0 := set_appr w _).
  destruct (drain_actions_effects (send_queue (appr w)) w0 o 0)
    as (I1 & I2 & _ & Isent & I5).
  rewrite I1, I2. do 6 (split; [done|]). split; [exact Isent|].
  intros Hall. by rewrite (I5 Hall).
Qed.

Lemma scan_row_frame (w : World) (i : nat) (obs : RowObs) :
  appr (scan_row w i obs) = appr w
  ∧ log (scan_row w i obs) = log w
  ∧ product_cfg (scan_row w i obs) = product_cfg w
  ∧ last_sent_by_us (caches (scan_row w i obs)) = last_sent_by_us (caches w)
  ∧ messages (db w) `prefix_of` messages (db (scan_row w i obs))
  ∧ (store_inv (db w) → store_inv (db (scan_row w i obs)))
  ∧ (NoDup (map fst (pending_threads w)) →
     NoDup (map fst (pending_threads (scan_row w i obs))))
  ∧ (ro_side obs ≠ Incoming →
     pending_threads (scan_row w i obs) = pending_threads w
     ∧ last_seen_incoming (caches (scan_row w i obs))
       = last_seen_incoming (caches w)).
Proof.
  assert (∀ wf : World,
            appr wf = appr w → log wf = log w → product_cfg wf = product_cfg w →
            last_sent_by_us (caches wf) = last_sent_by_us (caches w) →
            messages (db w) `prefix_of` messages (db wf) →
            (store_inv (db w) → store_inv (db wf)) →
            (NoDup (map fst (pending_threads w)) →
             NoDup (map fst (pending_threads wf))) →
            (ro_side obs ≠ Incoming →
             pending_threads wf = pending_threads w
             ∧ last_seen_incoming (caches wf) = last_seen_incoming (caches w)) →
            appr wf = appr w ∧ log wf = log w ∧ product_cfg wf = product_cfg w
            ∧ last_sent_by_us (caches wf) = last_sent_by_us (caches w)
            ∧ messages (db w) `prefix_of` messages (db wf)
            ∧ (store_inv (db w) → store_inv (db wf))
            ∧ (NoDup (map fst (pending_threads w)) →
               NoDup (map fst (pending_threads wf)))
            ∧ (ro_side obs ≠ Incoming →
               pending_threads wf = pending_threads w
               ∧ last_seen_incoming (caches wf)
                 = last_seen_incoming (caches w))) as Hpack by done.
  unfold scan_row. destruct (ro_click obs) as [href|]; [|by apply Hpack].
  cbv zeta.
  set (tk := thread_key_of i href (ro_buyer_name obs)).
  set (w1 := upsert_from_caches w tk (ro_buyer_name obs) href (ro_t_meta obs)).
  assert (appr w1 = appr w ∧ log w1 = log w ∧ product_cfg w1 = product_cfg w
          ∧ caches w1 = caches w ∧ messages (db w1) = messages (db w)
          ∧ pending_threads w1 = pending_threads w
          ∧ (store_inv (db w) → store_inv (db w1)))
    as (A1 & L1 & P1 & C1 & M1 & N1 & S1) by done.
  assert (appr w1 = appr w ∧ log w1 = log w ∧ product_cfg w1 = product_cfg w
          ∧ last_sent_by_us (caches w1) = last_sent_by_us (caches w)
          ∧ messages (db w) `prefix_of` messages (db w1)
          ∧ (store_inv (db w) → store_inv (db w1))
          ∧ (NoDup (map fst (pending_threads w)) →
             NoDup (map fst (pending_threads w1)))
          ∧ (ro_side obs ≠ Incoming →
             pending_threads w1 = pending_threads w
             ∧ last_seen_incoming (caches w1) = last_seen_incoming (caches w)))
    as Hw1.
  { apply Hpack; try done; try (by rewrite M1). }
  destruct (negb (ro_scroller obs)); [exact Hw1|].
  destruct (negb (ro_at_bottom obs)); [exact Hw1|].
  destruct (negb (Py.otruthy (ro_bottom_text obs))); [exact Hw1|].
  set (b := default "" (ro_bottom_text obs)).
  set (w2 := match ro_side obs with
             | Incoming => _ | Outgoing => _ | UnknownSide => w1 end).
  assert ((store_inv (db w) → store_inv (db w2))
          ∧ messages (db w) `prefix_of` messages (db w2)
          ∧ appr w2 = appr w ∧ log w2 = log w ∧ product_cfg w2 = product_cfg w
          ∧ caches w2 = caches w
          ∧ pending_threads w2 = pending_threads w)
    as (S2 & M2 & A2 & L2 & P2 & C2 & N2).
  { unfold w2. destruct (ro_side obs);
      cbn [set_db appr log product_cfg caches db pending_threads];
      rewrite ?A1, ?L1, ?P1, ?C1, ?N1.
    - split; [intros Hs0; by apply db_insert_message_store_inv, S1|].
      split; [rewrite <- M1; apply db_insert_message_prefix|]. done.
    - split; [intros Hs0; by apply db_insert_message_store_inv, S1|].
      split; [rewrite <- M1; apply db_insert_message_prefix|]. done.
    - split; [exact S1|]. split; [by rewrite M1|]. done. }
  destruct (decide _); [apply Hpack; try done; by rewrite ?C2, ?N2|].
  set (w3 := set_caches w2 _).
  set (w4 := upsert_from_caches w3 tk (ro_buyer_name obs) href (ro_t_state obs)).
  assert ((store_inv (db w) → store_inv (db w4))
          ∧ messages (db w) `prefix_of` messages (db w4)
          ∧ appr w4 = appr w ∧ log w4 = log w ∧ product_cfg w4 = product_cfg w
          ∧ last_sent_by_us (caches w4) = last_sent_by_us (caches w)
          ∧ last_seen_incoming (caches w4) = last_seen_incoming (caches w)
          ∧ pending_threads w4 = pending_threads w)
    as (S4 & M4 & A4 & L4 & P4 & C4 & C4' & N4).
  { unfold w4, w3.
    cbn [upsert_from_caches set_db set_caches appr log product_cfg caches db
         pending_threads last_sent_by_us last_seen_incoming].
    rewrite ?A2, ?L2, ?P2, ?C2, ?N2.
    split; [exact S2|]. split; [exact M2|]. done. }
  destruct (ro_side obs) eqn:Eside.
  - destruct (decide _).
    + apply Hpack; try done; try (by rewrite N4).
    + apply Hpack; try done.
      cbn [set_pending_threads set_caches pending_threads]. rewrite N4.
      intros Hnd0. by apply debounce_notify_nodup.
  - apply Hpack; try done; try (by rewrite N4).
  - apply Hpack; try done; try (by rewrite N4).
Qed.

(** X18. The scan of a row never touches the approval state, the outbound
    logs or the last-sent cache, and it only appends to the messages. An
    observation that is not incoming, an outgoing echo of our own reply or a
    bubble of unknown side, changes neither the windows nor the
    last-seen-incoming cache, whatever its text. *)
Theorem scan_reacts_to_incoming_only :
  ∀ (w : World) (i : nat) (obs : RowObs),
    appr (scan_row w i obs) = appr w
    ∧ log (scan_row w i obs) = log w
    ∧ last_sent_by_us (caches (scan_row w i obs)) = last_sent_by_us (caches w)
    ∧ messages (db w) `prefix_of` messages (db (scan_row w i obs))
    ∧ (ro_side obs ≠ Incoming →
       pending_threads (scan_row w i obs) = pending_threads w
       ∧ last_seen_incoming (caches (scan_row w i obs))
         = last_seen_incoming (caches w))
    ∧ (ro_click obs = None → scan_row w i obs = w).
Proof.
  intros w i obs.
  destruct (scan_row_frame w i obs) as (H1 & H2 & _ & H4 & H5 & _ & _ & H8).
  repeat split; try done; try by apply H8.
  intros Hc. unfold scan_row. by rewrite Hc.
Qed.

Lemma db_insert_message_ext (d1 d2 : DB) (tk role text : string) (now : Z) :
  messages d1 = messages d2 → autoinc d1 = autoinc d2 →
  messages (db_insert_message d1 tk role text now).2
  = messages (db_insert_message d2 tk role text now).2
  ∧ autoinc (db_insert_message d1 tk role text now).2
    = autoinc (db_insert_message d2 tk role text now).2.
Proof.
  intros Hm Ha. unfold db_insert_message. rewrite Hm, Ha.
  destruct (negb (Py.truthy (Py.strip text))); [done|].
  by destruct (existsb _ _).
Qed.

(** X19. A new incoming bottom message. When a row is scanned down to its
    bottom bubble, the bubble is incoming and its text differs from both the
    cached last-seen-bottom and the cached last-seen-incoming text of the
    thread, the scan stores the message as a buyer row, sets both caches to
    the text, and opens a window with the wall clock as [since_ts], or
    refreshes the open one keeping its [since_ts]; either way [last_update]
    is the event-loop clock. Windows of other threads are not touched. *)
Theorem new_incoming_message_opens_a_window :
  ∀ (w : World) (i : nat) (obs : RowObs) (href : option string) (b : string),
    ro_click obs = Some href →
    ro_scroller obs = true →
    ro_at_bottom obs = true →
    ro_bottom_text obs = Some b →
    b ≠ "" →
    ro_side obs = Incoming →
    let tk := thread_key_of i href (ro_buyer_name obs) in
    last_seen_bottom (caches w) !! tk ≠ Some b →
    last_seen_incoming (caches w) !! tk ≠ Some b →
    let w' := scan_row w i obs in
    dict_get tk (pending_threads w')
    = Some (match dict_get tk (pending_threads w) with
            | None =>
                mkPendingInfo (ro_ts_now obs) (ro_loop_now obs) href
                  (ro_buyer_name obs)
            | Some old =>
                mkPendingInfo (p_since_ts old) (ro_loop_now obs)
                  (Py.opt_or href (p_href old))
                  (Py.str_or (ro_buyer_name obs) (p_buyer_name old))
            end)
    ∧ (∀ other, other ≠ tk →
         dict_get other (pending_threads w')
         = dict_get other (pending_threads w))
    ∧ last_seen_bottom (caches w') !! tk = Some b
    ∧ last_seen_incoming (caches w') !! tk = Some b
    ∧ messages (db w')
      = messages (db_insert_message (db w) tk "buyer" b (ro_t_insert obs)).2.
Proof.
  intros w i obs href b Hclick Hsc Hab Hbot Hne Hside tk Hcb Hci. cbv zeta.
  unfold scan_row. rewrite Hclick, Hsc, Hab, Hbot, Hside. fold tk. cbv zeta.
  cbn [negb Py.otruthy]. rewrite (proj2 (strip_truthy b) Hne). cbn [negb].
  change (default "" (Some b)) with b.
  rewrite decide_False by done. rewrite decide_False.
  2:{ cbn [upsert_from_caches set_db set_caches caches last_seen_incoming].
      done. }
  cbn [set_pending_threads set_caches upsert_from_caches set_db pending_threads
       caches db last_seen_bottom last_seen_incoming].
  rewrite !lookup_insert_eq. split; [|split; [|split; [|split]]]; try done.
  - unfold debounce_notify.
    destruct (dict_get tk (pending_threads w)); by rewrite dict_get_set_eq.
  - intros other Hother. unfold debounce_notify.
    destruct (dict_get tk (pending_threads w)); by rewrite dict_get_set_ne.
  - apply db_insert_message_ext; done.
Qed.

Lemma new_incoming_message_opens_a_window_witness :
  dict_get Scenario.thread
    (pending_threads (scan_row (world_init Scenario.cfg) 0 Scenario.row_buyer))
  = Some (mkPendingInfo 100 10 (Some Scenario.thread) "Bob").
Proof.
  refine (proj1 (new_incoming_message_opens_a_window (world_init Scenario.cfg)
                   0 Scenario.row_buyer (Some Scenario.thread)
                   "Can I pick it up at 5pm?" eq_refl eq_refl eq_refl eq_refl _
                   eq_refl _ _)).
  - discriminate.
  - vm_compute. discriminate.
  - vm_compute. discriminate.
Defined.

(** X20. The second lock. When the incoming bottom text differs from the
    cached last-seen-bottom text but equals the cached last-seen-incoming
    text of the thread (the buyer repeats their last message after our reply),
    the scan updates the last-seen-bottom cache and the persisted state, but
    it opens or refreshes no window: the repeated message is not answered. *)
Theorem repeated_incoming_text_opens_no_window :
  ∀ (w : World) (i : nat) (obs : RowObs) (href : option string) (b : string),
    ro_click obs = Some href →
    ro_scroller obs = true →
    ro_at_bottom obs = true →
    ro_bottom_text obs = Some b →
    b ≠ "" →
    ro_side obs = Incoming →
    let tk := thread_key_of i href (ro_buyer_name obs) in
    last_seen_bottom (caches w) !! tk ≠ Some b →
    last_seen_incoming (caches w) !! tk = Some b →
    let w' := scan_row w i obs in
    pending_threads w' = pending_threads w
    ∧ last_seen_bottom (caches w') !! tk = Some b
    ∧ last_seen_incoming (caches w') = last_seen_incoming (caches w)
    ∧ (∃ row, thread_state (db w') !! tk = Some row
              ∧ ts_last_seen_bottom row = Some b).
Proof.
  intros w i obs href b Hclick Hsc Hab Hbot Hne Hside tk Hcb Hci. cbv zeta.
  unfold scan_row. rewrite Hclick, Hsc, Hab, Hbot, Hside. fold tk. cbv zeta.
  cbn [negb Py.otruthy]. rewrite (proj2 (strip_truthy b) Hne). cbn [negb].
  change (default "" (Some b)) with b.
  rewrite decide_False by done. rewrite decide_True.
  2:{ cbn [upsert_from_caches set_db set_caches caches last_seen_incoming].
      done. }
  cbn [set_caches upsert_from_caches set_db pending_threads caches db
       last_seen_bottom last_seen_incoming].
  rewrite !lookup_insert_eq. repeat split; try done.
  unfold db_upsert_thread_state. cbn [thread_state].
  rewrite lookup_insert_eq. by eexists.
Qed.

Lemma repeated_incoming_text_opens_no_window_witness :
  pending_threads
    (scan_row Scenario.w2 0 (Scenario.row_echo "Can I pick it up at 5pm?" 130 20))
  = pending_threads Scenario.w2.
Proof.
  refine (proj1 (repeated_incoming_text_opens_no_window Scenario.w2 0
                   (Scenario.row_echo "Can I pick it up at 5pm?" 130 20)
                   (Some Scenario.thread) "Can I pick it up at 5pm?" eq_refl
                   eq_refl eq_refl eq_refl _ eq_refl _ _)).
  - discriminate.
  - vm_compute. discriminate.
  - vm_compute. reflexivity.
Defined.

(** ** What every reachable state satisfies *)

Lemma set_result_if_pending_length (a : Approvals) (rid : string) (b : bool) :
  length (futures (set_result_if_pending a rid b)) = length (futures a).
Proof.
  destruct (set_result_if_pending_cases a rid b) as [->|(fid & _ & _ & ->)];
    [done|]. cbn [futures]. apply length_insert.
Qed.

Lemma handle_ui_length (s : Approvals) (ev : UiEvent) :
  length (futures (handle_ui s ev).1) = length (futures s).
Proof.
  destruct ev as [chat data|chat text]; cbn [handle_ui].
  - unfold handle_approval. repeat case_match; cbn [fst futures]; try done.
    apply set_result_if_pending_length.
  - unfold handle_admin_text. repeat case_match; cbn [fst futures]; try done.
    cbn [pop_custom_wait futures]. by rewrite set_result_if_pending_length.
Qed.

Lemma handle_ui_wf (s : Approvals) (ev : UiEvent) :
  appr_wf s → appr_wf (handle_ui s ev).1.
Proof.
  intros Hwf rid fid. rewrite handle_ui_length.
  destruct (handle_ui_maps s ev) as [-> _]. apply Hwf.
Qed.

Lemma await_future_wf (evs : list UiEvent) (a : Approvals) (fid : nat) :
  appr_wf a → appr_wf (await_future a fid evs).1.
Proof.
  revert a. induction evs as [|ev rest IH]; intros a Hwf; cbn [await_future];
    [done|].
  destruct (futures a !! fid) as [[]|]; try done.
  destruct (handle_ui a ev) as [a1 out1] eqn:E1.
  destruct (await_future a1 fid rest) as [a2 out2] eqn:E2. cbn [fst].
  specialize (IH a1). rewrite E2 in IH. apply IH.
  pose proof (handle_ui_wf a ev Hwf) as H. by rewrite E1 in H.
Qed.

Lemma ask_human_approval_wf (a : Approvals) (loop_time : float)
    (buyer : string) (intent yes_text no_text : json) (thread_key : string)
    (href meetup_log : option string) (evs : list UiEvent) :
  appr_wf a →
  appr_wf (ask_human_approval a loop_time buyer intent yes_text no_text
             thread_key href meetup_log evs).1.2.
Proof.
  intros Hwf. unfold ask_human_approval, ask_human_approval_begin. cbv zeta.
  set (rid := request_id_at loop_time). set (a1 := mkApprovals _ _ _ _ _).
  assert (appr_wf a1) as Hwf1.
  { intros r f. unfold a1. cbn [pending_approvals futures].
    rewrite length_app, lookup_insert. cbn [length].
    destruct (decide (rid = r)); [intros [= <-]; lia|].
    intros H. apply Hwf in H. lia. }
  pose proof (await_future_wf evs a1 (length (futures a)) Hwf1) as Hwf2.
  destruct (await_future a1 (length (futures a)) evs) as [a2 out2].
  cbn [fst] in Hwf2. unfold ask_human_approval_end.
  assert (∀ fs, length fs = length (futures a2) →
            appr_wf (mkApprovals fs (delete rid (pending_approvals a2))
                       (delete rid (approval_meta a2)) (custom_reply_wait a2)
                       (send_queue a2))) as Hend.
  { intros fs Hlen r f. cbn [pending_approvals futures]. rewrite Hlen.
    rewrite lookup_delete. destruct (decide (rid = r)); [done|]. apply Hwf2. }
  destruct (futures a2 !! length (futures a)) as [[]|]; cbn [fst snd];
    apply Hend; by rewrite ?length_insert.
Qed.

Lemma record_sent_store_inv (w : World) (tk buyer_name : string)
    (href : option string) (text : string) (t_insert t_state : Z) :
  store_inv (db w) →
  store_inv (db (record_sent w tk buyer_name href text t_insert t_state)).
Proof.
  intros H. unfold record_sent. cbn [set_caches set_db db].
  by apply db_upsert_thread_state_store_inv, db_insert_message_store_inv.
Qed.

Lemma flush_decide_inv (w : World) (tk buyer_name : string)
    (href : option string) (dec : Decision) (o : FlushOracle) :
  (appr_wf (appr w) → appr_wf (appr (flush_decide w tk buyer_name href dec o).2))
  ∧ db (flush_decide w tk buyer_name href dec o).2 = db w.
Proof.
  split; [|apply flush_decide_store]. intros Hwf.
  unfold flush_decide. cbv zeta. destruct (d_requires_approval dec); [|done].
  set (w1 := if Py.truthy (d_notes_for_owner dec) then _ else w).
  assert (appr w1 = appr w) as Ha
    by (unfold w1; by destruct (Py.truthy (d_notes_for_owner dec))).
  pose proof (ask_human_approval_wf (appr w1) (fo_loop_time o) buyer_name
                (d_intent dec) (d_yes_reply dec) (d_no_reply dec) tk href
                (meetup_log_of dec) (fo_ui o)) as H.
  destruct (ask_human_approval _ _ _ _ _ _ _ _ _ _) as [[b a'] out].
  cbn [fst snd log_tg set_log set_appr appr] in *. apply H. by rewrite Ha.
Qed.

Lemma flush_send_inv (w : World) (tk buyer_name : string)
    (href : option string) (dec : Decision) (final_reply : json)
    (o : FlushOracle) :
  appr (flush_send w tk buyer_name href dec final_reply o).2 = appr w
  ∧ (store_inv (db w) →
     store_inv (db (flush_send w tk buyer_name href dec final_reply o).2)).
Proof.
  unfold flush_send.
  destruct (negb (json_truthy final_reply)); [done|].
  destruct (Py.otruthy href && negb _); [done|].
  destruct (send_message final_reply (fo_send o)); [|done].
  set (ws := record_sent _ _ _ _ _ _ _).
  assert (appr ws = appr w
          ∧ (store_inv (db w) → store_inv (db ws))) as [Ha Hs].
  { split; [done|]. intros H. by apply record_sent_store_inv. }
  destruct (d_meetup_confirmed dec && Py.truthy (d_meetup_time_text dec));
    [|done].
  by destruct (fo_tg_report o).
Qed.

Lemma ask_human_approval_raise_wf (a : Approvals) (loop_time : float)
    (buyer : string) (intent yes_text no_text : json) (thread_key : string)
    (href meetup_log : option string) :
  appr_wf a →
  appr_wf (ask_human_approval_raise a loop_time buyer intent yes_text no_text
             thread_key href meetup_log).
Proof.
  intros Hwf r f. unfold ask_human_approval_raise, ask_human_approval_begin.
  cbn [fst snd pending_approvals futures].
  rewrite length_app, lookup_insert. cbn [length].
  destruct (decide (request_id_at loop_time = r)); [intros [= <-]; lia|].
  intros H. apply Hwf in H. lia.
Qed.

Lemma approval_raises_wf (w w' : World) (tk buyer_name : string)
    (href : option string) (dec : Decision) (o : FlushOracle) :
  approval_raises w tk buyer_name href dec o = Some w' →
  appr_wf (appr w) → appr_wf (appr w').
Proof.
  unfold approval_raises. destruct (d_requires_approval dec); [|done].
  destruct (Py.truthy (d_notes_for_owner dec)); cbn [andb].
  - destruct (negb (fo_tg_note o)); [by intros [= <-]|].
    destruct (fo_tg_ask o); [done|]. intros [= <-] H.
    by apply ask_human_approval_raise_wf.
  - destruct (fo_tg_ask o); [done|]. intros [= <-] H.
    by apply ask_human_approval_raise_wf.
Qed.

Lemma flush_thread_inv (json_loads : string → option (gmap string json))
    (w : World) (tk : string) (info : PendingInfo) (o : FlushOracle) :
  (store_inv (db w) → store_inv (db (flush_thread json_loads w tk info o).2))
  ∧ (appr_wf (appr w) →
     appr_wf (appr (flush_thread json_loads w tk info o).2)).
Proof.
  unfold flush_thread. cbv zeta.
  destruct (Py.otruthy (p_href info) && negb _); [done|].
  destruct (db_get_recent_buyer_messages_since _ _ _ _) as [|m0 ms]; [done|].
  set (w1 := log_ai_call w _ _).
  destruct (read_decision _ _) as [dec|]; [|done].
  set (name := Py.str_or (p_buyer_name info) "Buyer").
  destruct (approval_raises w1 tk name (p_href info) dec o) as [wr|] eqn:Er.
  { cbn [snd]. split.
    - by destruct (approval_raises_store _ _ _ _ _ _ _ Er) as (-> & _).
    - by apply (approval_raises_wf _ _ _ _ _ _ _ Er). }
  destruct (flush_decide_inv w1 tk name (p_href info) dec o) as [Ha Hd].
  destruct (flush_decide w1 tk name (p_href info) dec o) as [fin w2].
  cbn [snd] in Ha, Hd.
  destruct (flush_send_inv w2 tk name (p_href info) dec fin o) as [Sa Ss].
  split.
  - intros H. apply Ss. by rewrite Hd.
  - intros H. rewrite Sa. by apply Ha.
Qed.

Lemma flush_loop_inv (json_loads : string → option (gmap string json))
    (to_flush : list string) (w : World) (o : string → FlushOracle) :
  bot_inv w → bot_inv (flush_loop json_loads w to_flush o).2.
Proof.
  intros (Hs & Hn & Ha). split; [|split].
  - clear Hn Ha. revert w Hs. induction to_flush as [|tk rest IH]; intros w Hs;
      cbn [flush_loop]; [done|].
    destruct (dict_get tk (pending_threads w)) as [info|]; [|by apply IH].
    set (w1 := set_pending_threads w _).
    destruct (flush_thread_inv json_loads w1 tk info (o tk)) as [H1 _].
    destruct (flush_thread json_loads w1 tk info (o tk)) as [[] w2];
      cbn [snd] in *; [apply IH|..]; by apply H1.
  - apply (flush_loop_pending json_loads to_flush w o Hn).
  - clear Hs Hn. revert w Ha. induction to_flush as [|tk rest IH]; intros w Ha;
      cbn [flush_loop]; [done|].
    destruct (dict_get tk (pending_threads w)) as [info|]; [|by apply IH].
    set (w1 := set_pending_threads w _).
    destruct (flush_thread_inv json_loads w1 tk info (o tk)) as [_ H1].
    destruct (flush_thread json_loads w1 tk info (o tk)) as [[] w2];
      cbn [snd] in *; [apply IH|..]; by apply H1.
Qed.

Lemma drain_action_store_inv (w : World) (action : SendAction) (o : SendOracle) :
  store_inv (db w) → store_inv (db (drain_action w action o)).
Proof.
  intros H. unfold drain_action.
  destruct (negb (String.eqb _ _)); [done|].
  destruct (negb (_ && _ && _)); [done|].
  destruct (negb (open_thread_by_href _ _)); [done|].
  destruct (send_message _ _); [|done].
  set (ws := record_sent _ _ _ _ _ _ _).
  assert (store_inv (db ws)) as Hs by (by apply record_sent_store_inv).
  destruct (sa_meetup_log action) as [tt|]; [|done]. by destruct (Py.truthy tt).
Qed.

Lemma drain_actions_store_inv (actions : list SendAction) (w : World)
    (o : nat → SendOracle) (i : nat) :
  store_inv (db w) → store_inv (db (drain_actions w actions o i)).
Proof.
  revert w i. induction actions as [|a rest IH]; intros w i Hs;
    cbn [drain_actions]; [done|].
  apply IH. by apply drain_action_store_inv.
Qed.

Lemma drain_send_queue_inv (w : World) (o : nat → SendOracle) :
  bot_inv w → bot_inv (drain_send_queue w o).
Proof.
  intros (Hs & Hn & Ha). unfold drain_send_queue. cbv zeta.
  set (w0 := set_appr w _).
  destruct (drain_actions_effects (send_queue (appr w)) w0 o 0)
    as (I1 & I2 & _).
  split; [|split].
  - by apply drain_actions_store_inv.
  - by rewrite I2.
  - rewrite I1. intros r f. cbn [set_appr appr pending_approvals futures].
    apply Ha.
Qed.

Lemma scan_rows_inv (rows : list RowObs) (w : World) (i : nat) :
  bot_inv w → bot_inv (scan_rows w i rows).
Proof.
  revert w i. induction rows as [|obs rest IH]; intros w i Hinv;
    cbn [scan_rows]; [done|].
  apply IH. destruct Hinv as (Hs & Hn & Ha).
  destruct (scan_row_frame w i obs) as (A & _ & _ & _ & _ & S & N & _).
  split; [by apply S|]. split; [by apply N|]. by rewrite A.
Qed.

Lemma run_step_inv (json_loads : string → option (gmap string json))
    (w : World) (s : Step) :
  bot_inv w → bot_inv (run_step json_loads w s).
Proof.
  intros Hinv. destruct s as [o|ev|]; cbn [run_step].
  - unfold run_bot_tick. cbv zeta.
    pose proof (drain_send_queue_inv w (to_drain o) Hinv) as H1.
    pose proof (flush_loop_inv json_loads
                  (ripe (to_now_loop o)
                     (pending_threads (drain_send_queue w (to_drain o))))
                  _ (to_flush o) H1) as H2.
    unfold flush_debounced_threads.
    destruct (flush_loop json_loads _ _ _) as [[] w2]; cbn [snd] in H2;
      try done; by apply scan_rows_inv.
  - destruct Hinv as (Hs & Hn & Ha). unfold ui_step.
    pose proof (handle_ui_wf (appr w) ev Ha) as H.
    destruct (handle_ui (appr w) ev) as [a out]. cbn [fst] in H.
    split; [exact Hs|]. split; [exact Hn|]. exact H.
  - destruct Hinv as (Hs & _ & _). split; [exact Hs|].
    split; [constructor|apply appr_wf_init].
Qed.

(** X21. Whatever the collaborators answer and the operator does, after
    any history of loop iterations, Telegram updates and restarts from an
    empty database: the store is well formed (no two rows under one key of
    the unique index, hence never two rows of the same thread, role and
    text; rowids growing along the table, between 1 and the counter of
    [sqlite_sequence]; every text stripped and non-empty), the
    windows have distinct thread keys, and every future named in
    [pending_approvals] exists. *)
Theorem reachable_states_are_well_formed :
  ∀ (json_loads : string → option (gmap string json)) (cfg : ProductCfg)
    (steps : list Step),
    let w := run_steps json_loads cfg steps in
    store_inv (db w)
    ∧ NoDup (map fst (pending_threads w))
    ∧ appr_wf (appr w)
    ∧ (∀ thread_key role text,
         (length (rows_of (db w) thread_key role text) ≤ 1)%nat).
Proof.
  intros json_loads cfg steps. cbv zeta.
  assert (bot_inv (run_steps json_loads cfg steps)) as (Hs & Hn & Ha).
  { unfold run_steps.
    assert (bot_inv (world_init cfg)) as H0.
    { split; [apply store_inv_init|]. split; [constructor|apply appr_wf_init]. }
    revert H0. generalize (world_init cfg).
    induction steps as [|s rest IH]; intros w Hw; cbn [fold_left]; [done|].
    apply IH. by apply run_step_inv. }
  split; [exact Hs|]. split; [exact Hn|]. split; [exact Ha|].
  intros tk role text. destruct Hs as (Hwf & Hnd & _). unfold rows_of.
  apply (filter_same_image row_key _ (tk, _hash_msg tk role text)); [done|].
  intros r Hr (H1 & H2 & H3). unfold db_wf in Hwf.
  rewrite Forall_forall in Hwf. unfold row_key.
  by rewrite (Hwf r Hr), H1, H2, H3.
Qed.

(** ** The life of an approval request *)

Lemma await_future_length (evs : list UiEvent) (a : Approvals) (fid : nat) :
  length (futures (await_future a fid evs).1) = length (futures a).
Proof.
  revert a. induction evs as [|ev rest IH]; intros a; cbn [await_future];
    [done|].
  destruct (futures a !! fid) as [[]|]; try done.
  pose proof (handle_ui_length a ev) as H1.
  destruct (handle_ui a ev) as [a1 out1]. cbn [fst] in H1.
  specialize (IH a1).
  destruct (await_future a1 fid rest) as [a2 out2]. cbn [fst] in *. congruence.
Qed.

Lemma set_result_if_pending_queue (a : Approvals) (rid : string) (b : bool) :
  send_queue (set_result_if_pending a rid b) = send_queue a.
Proof. by destruct (set_result_if_pending_maps a rid b) as (_ & _ & _ & ->). Qed.

Lemma handle_ui_queue (s : Approvals) (ev : UiEvent) :
  send_queue (handle_ui s ev).1 = send_queue s
  ∨ ∃ chat text rid meta,
      ev = AdminText chat text
      ∧ custom_reply_wait s !! chat = Some rid
      ∧ approval_meta s !! rid = Some meta
      ∧ Py.truthy (Py.strip text) = true
      ∧ send_queue (handle_ui s ev).1
        = send_queue s
          ++ [mkSendAction "send_custom" rid (am_thread_key meta) (am_href meta)
                (am_buyer_name meta) (Py.strip text) (am_meetup_log meta)].
Proof.
  destruct ev as [chat data|chat text]; cbn [handle_ui].
  - left. unfold handle_approval. repeat case_match; cbn [fst send_queue];
      try done. apply set_result_if_pending_queue.
  - unfold handle_admin_text.
    destruct (custom_reply_wait s !! chat) as [rid|] eqn:Hw; [|by left].
    destruct (approval_meta s !! rid) as [meta|] eqn:Hm; [|by left].
    destruct (Py.truthy (Py.strip text)) eqn:Ht; [|by left].
    right. exists chat, text, rid, meta. do 4 (split; [done|]).
    cbn [negb fst pop_custom_wait send_queue].
    by rewrite set_result_if_pending_queue.
Qed.

Lemma await_future_queue (evs : list UiEvent) (a : Approvals) (fid : nat) :
  send_queue a `prefix_of` send_queue (await_future a fid evs).1.
Proof.
  revert a. induction evs as [|ev rest IH]; intros a; cbn [await_future];
    [done|].
  destruct (futures a !! fid) as [[]|]; try done.
  pose proof (handle_ui_queue a ev) as H1.
  destruct (handle_ui a ev) as [a1 out1]. cbn [fst] in H1.
  specialize (IH a1).
  destruct (await_future a1 fid rest) as [a2 out2]. cbn [fst] in *.
  etrans; [|exact IH].
  destruct H1 as [->|(? & ? & ? & ? & _ & _ & _ & _ & ->)]; [done|].
  by apply prefix_app_r.
Qed.

Lemma ask_human_approval_shape (a : Approvals) (loop_time : float)
    (buyer : string) (intent yes_text no_text : json) (thread_key : string)
    (href meetup_log : option string) (evs : list UiEvent) :
  let r := ask_human_approval a loop_time buyer intent yes_text no_text
             thread_key href meetup_log evs in
  let rid := request_id_at loop_time in
  pending_approvals r.1.2 = delete rid (pending_approvals a)
  ∧ approval_meta r.1.2 = delete rid (approval_meta a)
  ∧ length (futures r.1.2) = S (length (futures a))
  ∧ (futures r.1.2 !! length (futures a) = Some (FutResult r.1.1)
     ∨ (futures r.1.2 !! length (futures a) = Some FutCancelled
        ∧ r.1.1 = false))
  ∧ send_queue a `prefix_of` send_queue r.1.2.
Proof.
  cbv zeta. unfold ask_human_approval, ask_human_approval_begin. cbv zeta.
  set (rid := request_id_at loop_time). set (a1 := mkApprovals _ _ _ _ _).
  set (fid := length (futures a)).
  destruct (await_future_maps a1 fid evs) as [Mp Mm].
  pose proof (await_future_length evs a1 fid) as Hlen.
  pose proof (await_future_queue evs a1 fid) as Hq.
  assert (futures a1 !! fid = Some FutPending) as Hnew.
  { unfold a1, fid. cbn [futures].
    rewrite lookup_app_r by lia. by rewrite Nat.sub_diag. }
  pose proof (await_future_outcome a1 fid evs Hnew) as Hout.
  destruct (await_future a1 fid evs) as [a2 out2]. cbn [fst] in *.
  assert (length (futures a2) = S fid) as Hlen2.
  { rewrite Hlen. unfold a1. cbn [futures]. rewrite length_app. cbn. lia. }
  unfold ask_human_approval_end.
  destruct Hout as [Hp|[b Hb]].
  - rewrite Hp. cbn [fst snd pending_approvals approval_meta futures send_queue].
    rewrite Mp, Mm. unfold a1.
    cbn [pending_approvals approval_meta].
    rewrite !delete_insert_eq, length_insert.
    do 3 (split; [done|]). split; [|done]. right. split; [|done].
    apply list_lookup_insert_eq. lia.
  - rewrite Hb. cbn [fst snd pending_approvals approval_meta futures send_queue].
    rewrite Mp, Mm. unfold a1.
    cbn [pending_approvals approval_meta].
    rewrite !delete_insert_eq.
    do 3 (split; [done|]). split; [by left|done].
Qed.

(** X22. Whatever the operator does during the wait, when an
    [ask_human_approval] whose request went out returns, its request id is in
    neither request table (an older request under the same id is removed with
    it, the other ids are kept), exactly one future has been created and it
    is not pending any more: it holds the answer that is returned, or it was
    cancelled by the timeout and the answer is False. The send queue has only
    grown. *)
Theorem approval_request_cleans_up :
  ∀ (a : Approvals) (loop_time : float) (buyer : string)
    (intent yes_text no_text : json) (thread_key : string)
    (href meetup_log : option string) (evs : list UiEvent),
    let r := ask_human_approval a loop_time buyer intent yes_text no_text
               thread_key href meetup_log evs in
    let rid := request_id_at loop_time in
    pending_approvals r.1.2 !! rid = None
    ∧ approval_meta r.1.2 !! rid = None
    ∧ (∀ other, other ≠ rid →
         pending_approvals r.1.2 !! other = pending_approvals a !! other
         ∧ approval_meta r.1.2 !! other = approval_meta a !! other)
    ∧ length (futures r.1.2) = S (length (futures a))
    ∧ (∃ f, futures r.1.2 !! length (futures a) = Some f ∧ fut_done f = true
            ∧ (f = FutResult r.1.1 ∨ (f = FutCancelled ∧ r.1.1 = false)))
    ∧ send_queue a `prefix_of` send_queue r.1.2.
Proof.
  intros a loop_time buyer intent yes_text no_text thread_key href meetup_log
    evs. cbv zeta.
  destruct (ask_human_approval_shape a loop_time buyer intent yes_text no_text
              thread_key href meetup_log evs) as (Hp & Hm & Hl & Hf & Hq).
  rewrite Hp, Hm. split; [apply lookup_delete_eq|].
  split; [apply lookup_delete_eq|]. split.
  { intros other Hne. by rewrite !lookup_delete_ne. }
  split; [exact Hl|]. split; [|exact Hq].
  destruct Hf as [Hf|[Hf Hb]].
  - eexists. split; [exact Hf|]. split; [done|by left].
  - eexists. split; [exact Hf|]. split; [done|by right].
Qed.

Lemma flush_decide_closed (w : World) (tk buyer_name : string)
    (href : option string) (dec : Decision) (o : FlushOracle) :
  no_open_request (appr w) →
  no_open_request (appr (flush_decide w tk buyer_name href dec o).2).
Proof.
  intros [Hp Hm]. unfold flush_decide. cbv zeta.
  destruct (d_requires_approval dec); [|done].
  set (w1 := if Py.truthy (d_notes_for_owner dec) then _ else w).
  assert (appr w1 = appr w) as Ha
    by (unfold w1; by destruct (Py.truthy (d_notes_for_owner dec))).
  destruct (ask_human_approval_shape (appr w1) (fo_loop_time o) buyer_name
              (d_intent dec) (d_yes_reply dec) (d_no_reply dec) tk href
              (meetup_log_of dec) (fo_ui o)) as (Sp & Sm & _).
  destruct (ask_human_approval _ _ _ _ _ _ _ _ _ _) as [[b a'] out].
  cbn [fst snd log_tg set_log set_appr appr] in *.
  split; [rewrite Sp, Ha, Hp|rewrite Sm, Ha, Hm]; apply delete_empty.
Qed.

Lemma flush_thread_closed (json_loads : string → option (gmap string json))
    (w : World) (tk : string) (info : PendingInfo) (o : FlushOracle) :
  fo_tg_ask o = true →
  no_open_request (appr w) →
  no_open_request (appr (flush_thread json_loads w tk info o).2).
Proof.
  intros Hask H. unfold flush_thread. cbv zeta.
  destruct (Py.otruthy (p_href info) && negb _); [done|].
  destruct (db_get_recent_buyer_messages_since _ _ _ _) as [|m0 ms]; [done|].
  set (w1 := log_ai_call w _ _).
  destruct (read_decision _ _) as [dec|]; [|done].
  set (name := Py.str_or (p_buyer_name info) "Buyer").
  destruct (approval_raises w1 tk name (p_href info) dec o) as [wr|] eqn:Er.
  { cbn [snd]. unfold approval_raises in Er. rewrite Hask in Er.
    destruct (d_requires_approval dec); [|done].
    destruct (Py.truthy (d_notes_for_owner dec) && negb (fo_tg_note o));
      [|done].
    by injection Er as <-. }
  pose proof (flush_decide_closed w1 tk name (p_href info) dec o H) as Hd.
  destruct (flush_decide w1 tk name (p_href info) dec o) as [fin w2].
  cbn [snd] in Hd.
  destruct (flush_send_inv w2 tk name (p_href info) dec fin o) as [-> _].
  exact Hd.
Qed.

Lemma flush_loop_closed (json_loads : string → option (gmap string json))
    (to_flush : list string) (w : World) (o : string → FlushOracle) :
  (∀ tk, fo_tg_ask (o tk) = true) →
  no_open_request (appr w) →
  no_open_request (appr (flush_loop json_loads w to_flush o).2).
Proof.
  intros Hask.
  revert w. induction to_flush as [|tk rest IH]; intros w H; cbn [flush_loop];
    [done|].
  destruct (dict_get tk (pending_threads w)) as [info|]; [|by apply IH].
  set (w1 := set_pending_threads w _).
  pose proof (flush_thread_closed json_loads w1 tk info (o tk) (Hask tk) H)
    as H1.
  destruct (flush_thread json_loads w1 tk info (o tk)) as [[] w2];
    cbn [snd] in *; [by apply IH|done..].
Qed.

Lemma scan_rows_appr (rows : list RowObs) (w : World) (i : nat) :
  appr (scan_rows w i rows) = appr w.
Proof.
  revert w i. induction rows as [|obs rest IH]; intros w i; cbn [scan_rows];
    [done|].
  rewrite IH. by destruct (scan_row_frame w i obs) as (-> & _).
Qed.

Lemma run_step_closed (json_loads : string → option (gmap string json))
    (w : World) (s : Step) :
  requests_go_out s →
  no_open_request (appr w) → no_open_request (appr (run_step json_loads w s)).
Proof.
  intros Hout H. destruct s as [o|ev|]; cbn [run_step requests_go_out] in *.
  - unfold run_bot_tick. cbv zeta.
    assert (no_open_request (appr (drain_send_queue w (to_drain o)))) as H1.
    { unfold drain_send_queue. cbv zeta.
      by destruct (drain_actions_effects (send_queue (appr w))
                     (set_appr w
                        (mkApprovals (futures (appr w))
                           (pending_approvals (appr w))
                           (approval_meta (appr w))
                           (custom_reply_wait (appr w)) [])) (to_drain o) 0)
        as (-> & _). }
    pose proof (flush_loop_closed json_loads
                  (ripe (to_now_loop o)
                     (pending_threads (drain_send_queue w (to_drain o))))
                  _ (to_flush o) Hout H1) as H2.
    unfold flush_debounced_threads.
    destruct (flush_loop json_loads _ _ _) as [[] w2]; cbn [snd] in H2;
      try done; by rewrite scan_rows_appr.
  - unfold ui_step. destruct (handle_ui_maps (appr w) ev) as [Mp Mm].
    destruct (handle_ui (appr w) ev) as [a out]. cbn [fst] in *.
    destruct H as [Hp Hm]. split; cbn [log_tg set_log set_appr appr]; congruence.
  - done.
Qed.

Lemma handle_ui_closed (a : Approvals) (ev : UiEvent) :
  approval_meta a = ∅ →
  futures (handle_ui a ev).1 = futures a
  ∧ send_queue (handle_ui a ev).1 = send_queue a
  ∧ (∀ m, m ∈ (handle_ui a ev).2 → m = TgEditExpired ∨ m = TgCustomExpired).
Proof.
  intros Hm. destruct ev as [chat data|chat text]; cbn [handle_ui].
  - unfold handle_approval. cbv zeta.
    destruct (negb _); [by repeat split; try intros ? ?%elem_of_nil|].
    destruct (Py.split1 _ _) as [action [rid|]];
      [|by repeat split; try intros ? ?%elem_of_nil].
    rewrite Hm, lookup_empty. cbn [fst snd]. do 2 (split; [done|]).
    intros m ->%list_elem_of_singleton. by left.
  - unfold handle_admin_text.
    destruct (custom_reply_wait a !! chat) as [rid|];
      [|by repeat split; try intros ? ?%elem_of_nil].
    rewrite Hm, lookup_empty. cbn [fst snd pop_custom_wait futures send_queue].
    do 2 (split; [done|]). intros m ->%list_elem_of_singleton. by right.
Qed.

(** X23. An approval request outlives its flush only when Telegram did not
    take it. After any history of loop iterations, Telegram updates and
    restarts in which every request went out, both request tables are empty;
    so a button tapped or a text typed between two loop iterations resolves
    no future, queues no reply, writes nothing to the store, and is answered,
    if at all, with one of the two expiry notices. *)
Theorem no_delivered_request_outlives_its_flush :
  ∀ (json_loads : string → option (gmap string json)) (cfg : ProductCfg)
    (steps : list Step) (ev : UiEvent),
    Forall requests_go_out steps →
    let w := run_steps json_loads cfg steps in
    pending_approvals (appr w) = ∅
    ∧ approval_meta (appr w) = ∅
    ∧ futures (appr (ui_step w ev)) = futures (appr w)
    ∧ send_queue (appr (ui_step w ev)) = send_queue (appr w)
    ∧ db (ui_step w ev) = db w
    ∧ outbox (log (ui_step w ev)) = outbox (log w)
    ∧ ∃ notices,
        tg_out (log (ui_step w ev)) = tg_out (log w) ++ notices
        ∧ ∀ m, m ∈ notices → m = TgEditExpired ∨ m = TgCustomExpired.
Proof.
  intros json_loads cfg steps ev Hall. cbv zeta.
  assert (no_open_request (appr (run_steps json_loads cfg steps))) as [Hp Hm].
  { unfold run_steps.
    assert (no_open_request (appr (world_init cfg))) as H0 by done.
    revert H0. generalize (world_init cfg).
    induction Hall as [|s rest Hs Hrest IH]; intros w Hw; cbn [fold_left];
      [done|].
    apply IH. by apply run_step_closed. }
  split; [exact Hp|]. split; [exact Hm|].
  destruct (handle_ui_closed (appr (run_steps json_loads cfg steps)) ev Hm)
    as (Hf & Hq & Hn).
  unfold ui_step. destruct (handle_ui _ ev) as [a out]. cbn [fst snd] in *.
  do 4 (split; [done|]). by exists out.
Qed.

Lemma no_delivered_request_outlives_its_flush_witness :
  pending_approvals
    (appr (run_steps Scenario.json_loads Scenario.cfg
             [Tick Scenario.tick1; Tick Scenario.tick2]))
  = ∅.
Proof.
  refine (proj1 (no_delivered_request_outlives_its_flush Scenario.json_loads
                   Scenario.cfg [Tick Scenario.tick1; Tick Scenario.tick2]
                   (CallbackQuery "42" (Some "approve_14500")) _)).
  repeat constructor.
Defined.

(** ** Reading the engine's answer *)

Lemma append_cons (d : ascii) (a b : string) :
  String d a +:+ b = String d (a +:+ b).
Proof. reflexivity. Qed.

Lemma append_nil (b : string) : "" +:+ b = b.
Proof. reflexivity. Qed.

Lemma from_first_app (c : ascii) (pre rest : string) :
  Py.contains_char c pre = false →
  from_first c (pre +:+ String c rest) = Some (String c rest).
Proof.
  induction pre as [|d pre IH]; intros H.
  - rewrite append_nil. cbn [from_first]. by rewrite Ascii.eqb_refl.
  - rewrite append_cons. cbn [from_first Py.contains_char] in *.
    destruct (Ascii.eqb c d); [done|]. by apply IH.
Qed.

Lemma from_first_Some (c : ascii) (s t : string) :
  from_first c s = Some t →
  ∃ pre rest, s = pre +:+ String c rest ∧ t = String c rest
              ∧ Py.contains_char c pre = false.
Proof.
  induction s as [|d r IH]; cbn [from_first]; [done|].
  destruct (Ascii.eqb c d) eqn:E.
  - apply Ascii.eqb_eq in E as <-. intros [= <-]. by exists "", r.
  - intros (pre & rest & -> & -> & Hp)%IH. exists (String d pre), rest.
    cbn [Py.contains_char]. by rewrite E.
Qed.

Lemma upto_last_None (c : ascii) (s : string) :
  upto_last c s = None ↔ Py.contains_char c s = false.
Proof.
  induction s as [|d r IH]; cbn [upto_last Py.contains_char]; [done|].
  destruct (upto_last c r) as [p|].
  - destruct (Ascii.eqb c d); [done|]. split; [done|]. intros H.
    by apply IH in H.
  - destruct (Ascii.eqb c d); [done|]. split; [intros _; by apply IH|done].
Qed.

Lemma upto_last_app (c : ascii) (mid post : string) :
  Py.contains_char c post = false →
  upto_last c (mid +:+ String c post) = Some (mid +:+ String c "").
Proof.
  intros H. induction mid as [|d mid IH].
  - rewrite !append_nil. cbn [upto_last].
    rewrite (proj2 (upto_last_None c post) H). by rewrite Ascii.eqb_refl.
  - rewrite !append_cons. cbn [upto_last]. by rewrite IH.
Qed.

Lemma upto_last_Some (c : ascii) (s p : string) :
  upto_last c s = Some p →
  ∃ mid post, s = mid +:+ String c post ∧ p = mid +:+ String c ""
              ∧ Py.contains_char c post = false.
Proof.
  revert p. induction s as [|d r IH]; intros p; cbn [upto_last]; [done|].
  destruct (upto_last c r) as [q|] eqn:E.
  - intros [= <-]. destruct (IH q eq_refl) as (mid & post & -> & -> & Hp).
    by exists (String d mid), post.
  - destruct (Ascii.eqb c d) eqn:Ec; [|done]. intros [= <-].
    apply Ascii.eqb_eq in Ec as <-. exists "", r.
    by rewrite <- upto_last_None.
Qed.

Lemma search_braces_spec (text m : string) :
  search_braces text = Some m ↔
  ∃ pre mid post,
    text = pre +:+ String "{" (mid +:+ String "}" post)
    ∧ m = String "{" (mid +:+ String "}" "")
    ∧ Py.contains_char "{" pre = false
    ∧ Py.contains_char "}" post = false.
Proof.
  unfold search_braces. split.
  - destruct (from_first "{" text) as [[|b r]|] eqn:E; try done.
    apply from_first_Some in E as (pre & rest & -> & [= -> ->] & Hpre).
    destruct (upto_last "}" rest) as [p|] eqn:E2; [|done]. intros [= <-].
    apply upto_last_Some in E2 as (mid & post & -> & -> & Hpost).
    by exists pre, mid, post.
  - intros (pre & mid & post & -> & -> & Hpre & Hpost).
    rewrite (from_first_app "{" pre _ Hpre).
    by rewrite (upto_last_app "}" mid post Hpost).
Qed.

(** X24. [_extract_json] hands to [json.loads] the text from the first
    opening brace to the last closing brace after it, whatever surrounds
    them (prose, a Markdown fence) and whatever braces lie between; a text
    without such a pair raises, before anything is decoded. *)
Theorem extract_json_takes_the_outermost_braces :
  ∀ (json_loads : string → option (gmap string json)) (text : string),
    (∀ pre mid post,
       text = pre +:+ String "{" (mid +:+ String "}" post) →
       Py.contains_char "{" pre = false →
       Py.contains_char "}" post = false →
       _extract_json json_loads text
       = json_loads (String "{" (mid +:+ String "}" "")))
    ∧ ((∀ pre mid post,
          text ≠ pre +:+ String "{" (mid +:+ String "}" post)) →
       _extract_json json_loads text = None).
Proof.
  intros json_loads text. unfold _extract_json. split.
  - intros pre mid post Ht Hpre Hpost.
    assert (search_braces text = Some (String "{" (mid +:+ String "}" "")))
      as -> by (apply search_braces_spec; by exists pre, mid, post).
    done.
  - intros Hno. destruct (search_braces text) as [m|] eqn:E; [|done].
    apply search_braces_spec in E as (pre & mid & post & Ht & _).
    by destruct (Hno pre mid post).
Qed.

Lemma extract_json_takes_the_outermost_braces_witness :
  _extract_json Scenario.json_loads "x {a{b}c} y"
  = Scenario.json_loads "{a{b}c}".
Proof.
  apply (proj1 (extract_json_takes_the_outermost_braces Scenario.json_loads
                  "x {a{b}c} y") "x " "a{b}c" " y"); reflexivity.
Defined.

Lemma proxy_attempts_Some (json_loads : string → option (gmap string json))
    (resp : nat → HttpResponse) (d : gmap string json) :
  proxy_attempts json_loads resp 1 3 = Some d →
  ∃ (k : nat) content,
    (1 ≤ k ≤ 3)%nat
    ∧ resp k = HttpOk (Some content)
    ∧ (∀ j : nat, (1 ≤ j < k)%nat → resp j = Http503)
    ∧ _extract_json json_loads content = Some d.
Proof.
  cbn [proxy_attempts].
  destruct (resp 1%nat) as [| | |[c1|]] eqn:E1; try done.
  - destruct (resp 2%nat) as [| | |[c2|]] eqn:E2; try done.
    + destruct (resp 3%nat) as [| | |[c3|]] eqn:E3; try done.
      intros H. exists 3%nat, c3. split; [lia|]. split; [done|]. split; [|done].
      intros j Hj. assert (j = 1 ∨ j = 2)%nat as [->| ->] by lia; done.
    + intros H. exists 2%nat, c2. split; [lia|]. split; [done|]. split; [|done].
      intros j Hj. by assert (j = 1)%nat as -> by lia.
  - intros H. exists 1%nat, c1. split; [lia|]. split; [done|]. split; [|done].
    intros j Hj. lia.
Qed.

(** X25. Where an analysis comes from.  When [_call_proxy_chat] returns an
    object, it is the object decoded from the content of a successful
    response of one of the two endpoints, at one of the attempts 1 to 3;
    every earlier attempt at that endpoint was answered with status 503, and
    the second endpoint is used only when the first gave nothing. *)
Theorem proxy_answer_comes_from_a_response :
  ∀ (json_loads : string → option (gmap string json))
    (http : nat → nat → HttpResponse) (d : gmap string json),
    _call_proxy_chat json_loads http = Some d →
    ∃ (base k : nat) content,
      (base ≤ 1)%nat ∧ (1 ≤ k ≤ 3)%nat
      ∧ http base k = HttpOk (Some content)
      ∧ (∀ j : nat, (1 ≤ j < k)%nat → http base j = Http503)
      ∧ _extract_json json_loads content = Some d
      ∧ (base = 1%nat → proxy_attempts json_loads (http 0%nat) 1 3 = None).
Proof.
  intros json_loads http d. unfold _call_proxy_chat.
  destruct (proxy_attempts json_loads (http 0%nat) 1 3) as [d0|] eqn:E0.
  - intros [= ->].
    destruct (proxy_attempts_Some json_loads _ d E0) as (k & c & Hk & Hr & H5 & He).
    exists 0%nat, k, c. split; [lia|]. by do 4 (split; [done|]).
  - intros E1.
    destruct (proxy_attempts_Some json_loads _ d E1) as (k & c & Hk & Hr & H5 & He).
    exists 1%nat, k, c. split; [lia|]. by do 4 (split; [done|]).
Qed.

Lemma proxy_answer_comes_from_a_response_witness :
  ∃ (base k : nat) content,
    (base ≤ 1)%nat ∧ (1 ≤ k ≤ 3)%nat
    ∧ Scenario.http_ok base k = HttpOk (Some content)
    ∧ (∀ j : nat, (1 ≤ j < k)%nat → Scenario.http_ok base j = Http503)
    ∧ _extract_json Scenario.json_loads content = Some Scenario.engine_answer
    ∧ (base = 1%nat
       → proxy_attempts Scenario.json_loads (Scenario.http_ok 0%nat) 1 3 = None).
Proof.
  apply (proxy_answer_comes_from_a_response Scenario.json_loads
           Scenario.http_ok Scenario.engine_answer).
  reflexivity.
Defined.

(** ** The [/avail] command *)

Lemma rstrip_fix_blank (r : string) :
  Py.rstrip (String " " r) = String " " r → r ≠ "" ∧ Py.rstrip r = r.
Proof.
  intros H. destruct (rstrip_fix_tail _ _ H) as [Hr Hc]. split; [|done].
  by intros ->.
Qed.

Lemma split1_rest_fix (s a rest : string) :
  Py.rstrip s = s → Py.split1 " " s = (a, Some rest) →
  rest ≠ "" ∧ Py.rstrip rest = rest.
Proof.
  revert a. induction s as [|d r IH]; intros a Hfix; cbn [Py.split1]; [done|].
  destruct (Ascii.eqb " " d) eqn:E.
  - apply Ascii.eqb_eq in E as <-. intros [= _ <-].
    by apply rstrip_fix_blank.
  - destruct (Py.split1 " " r) as [x y] eqn:Es. intros [= _ ->].
    apply (IH x); [|done]. by destruct (rstrip_fix_tail d r Hfix).
Qed.

(** A text that [rstrip] leaves alone and that is not empty is not made of
    white space: what [lstrip] leaves of it is not empty and is left alone
    by [rstrip] as well. *)
Lemma strip_of_fix (s : string) :
  s ≠ "" → Py.rstrip s = s → Py.strip s ≠ "".
Proof.
  unfold Py.strip.
  assert (∀ n s, (String.length s ≤ n)%nat → s ≠ "" → Py.rstrip s = s →
                 Py.lstrip s ≠ "" ∧ Py.rstrip (Py.lstrip s) = Py.lstrip s)
    as H.
  { clear s. induction n as [|n IH]; intros s Hlen Hne Hfix.
    { destruct s; [done|cbn in Hlen; lia]. }
    destruct s as [|c1 r1]; [done|]. cbn [String.length] in Hlen.
    destruct (rstrip_fix_tail c1 r1 Hfix) as [Hf1 Hc1].
    cbn [Py.lstrip]. destruct (Py.is_space c1) eqn:E1.
    { apply IH; [lia| |done]. intros ->. cbn in Hc1. congruence. }
    destruct r1 as [|c2 r2]; [by rewrite Hfix|].
    cbn [String.length] in Hlen.
    destruct (rstrip_fix_tail c2 r2 Hf1) as [Hf2 Hc2].
    destruct (Py.is_space2 c1 c2) eqn:E2.
    { apply IH; [lia| |done]. intros ->. cbn in Hc1. congruence. }
    destruct r2 as [|c3 r3]; [by rewrite Hfix|].
    cbn [String.length] in Hlen.
    destruct (rstrip_fix_tail c3 r3 Hf2) as [Hf3 Hc3].
    destruct (Py.is_space3 c1 c2 c3) eqn:E3; [|by rewrite Hfix].
    apply IH; [lia| |done]. intros ->. cbn in Hc1. congruence. }
  intros Hne Hfix.
  destruct (H (String.length s) s (le_n _) Hne Hfix) as [Hl Hr].
  by rewrite Hr.
Qed.

(** X26. [/avail] changes the note exactly when the stripped message has a
    blank in it: the test [not parts[1].strip()] of the guard can never be
    the one that fires.  The new note is what follows the first blank,
    stripped; it is never empty; the item and the location are kept, and
    without a blank nothing changes at all. *)
Theorem avail_updates_iff_there_is_a_blank :
  ∀ (w : World) (text : option string),
    let txt := Py.strip (default "" text) in
    let r := cmd_avail w text in
    (Py.contains_char " " txt = false → r = (w, AvailUsage))
    ∧ (Py.contains_char " " txt = true →
       ∃ command rest,
         Py.split1 " " txt = (command, Some rest)
         ∧ r.2 = AvailUpdated (Py.strip rest)
         ∧ availability_note (product_cfg r.1) = Py.strip rest
         ∧ Py.strip rest ≠ ""
         ∧ item_name (product_cfg r.1) = item_name (product_cfg w)
         ∧ location (product_cfg r.1) = location (product_cfg w)
         ∧ db r.1 = db w ∧ appr r.1 = appr w
         ∧ pending_threads r.1 = pending_threads w).
Proof.
  intros w text. cbv zeta. unfold cmd_avail. cbv zeta.
  assert (Py.str_or (default "" text) "" = default "" text) as ->.
  { unfold Py.str_or. by destruct (default "" text). }
  set (txt := Py.strip (default "" text)).
  assert (Py.rstrip txt = txt) as Hfix by apply rstrip_idem.
  destruct (Py.split1 " " txt) as [command [rest|]] eqn:Es.
  - rewrite (split1_contains _ _ _ _ Es).
    destruct (split1_rest_fix txt command rest Hfix Es) as [Hne Hr].
    pose proof (strip_of_fix rest Hne Hr) as Hs.
    rewrite (proj2 (strip_truthy (Py.strip rest))) by exact Hs.
    split; [done|]. intros _. exists command, rest. by repeat split.
  - split; [done|]. intros Hc. exfalso. clear Hfix. revert command Es Hc.
    induction txt as [|d r IH]; intros command; cbn [Py.split1 Py.contains_char];
      [done|].
    destruct (Ascii.eqb " " d); [done|].
    destruct (Py.split1 " " r) as [x y]. intros [= _ ->]. by apply (IH x).
Qed.

Lemma avail_updates_iff_there_is_a_blank_witness :
  let r := cmd_avail (world_init Scenario.cfg) (Some "/avail  Sat 10am ") in
  ∃ command rest,
    Py.split1 " " (Py.strip "/avail  Sat 10am ") = (command, Some rest)
    ∧ r.2 = AvailUpdated (Py.strip rest)
    ∧ availability_note (product_cfg r.1) = Py.strip rest
    ∧ Py.strip rest ≠ ""
    ∧ item_name (product_cfg r.1) = item_name Scenario.cfg
    ∧ location (product_cfg r.1) = location Scenario.cfg
    ∧ db r.1 = db_init ∧ appr r.1 = approvals_init
    ∧ pending_threads r.1 = [].
Proof.
  apply (proj2 (avail_updates_iff_there_is_a_blank (world_init Scenario.cfg)
                  (Some "/avail  Sat 10am "))).
  reflexivity.
Defined.

(** ** Version 3 of the flush *)

Lemma v3_open_guard (href : option string) (goto_ok : bool) :
  (Py.otruthy href = true → goto_ok = true) →
  Py.otruthy href && negb (open_thread_by_href href goto_ok) = false.
Proof.
  intros H. unfold open_thread_by_href.
  destruct (Py.otruthy href); [|done]. by rewrite H.
Qed.

(** X27. Version 3 answers on its own when the engine gives nothing.  If
    [_call_proxy_chat] raises, the thread opens, the window holds buyer
    messages and the send succeeds, the flush sends the canned availability
    reply without asking the owner: nothing goes to Telegram, no request is
    created, and the reply is stored as a seller message. *)
Theorem v3_engine_failure_sends_the_canned_reply :
  ∀ (json_loads : string → option (gmap string json)) (w : World)
    (tk : string) (info : PendingInfo) (o : FlushOracle),
    (Py.otruthy (p_href info) = true → fo_goto_read o = true) →
    db_get_recent_buyer_messages_since (db w) tk (p_since_ts info)
      V3.MAX_BATCH_MESSAGES ≠ [] →
    _call_proxy_chat json_loads (fo_http o) = None →
    fo_send o = true →
    let r := V3.flush_thread json_loads w tk info o in
    r.1 = Next
    ∧ outbox (log r.2) = outbox (log w) ++ [(tk, V3.default_reply)]
    ∧ tg_out (log r.2) = tg_out (log w)
    ∧ appr r.2 = appr w
    ∧ messages (db r.2)
      = messages (db_insert_message (db w) tk "seller" V3.default_reply
                    (fo_t_insert o)).2.
Proof.
  intros json_loads w tk info o Hgoto Hbatch Hdown Hsend. cbv zeta.
  unfold V3.flush_thread. cbv zeta.
  rewrite (v3_open_guard _ _ Hgoto).
  destruct (db_get_recent_buyer_messages_since _ _ _ _) as [|m0 ms] eqn:Eb;
    [done|].
  unfold V3.analyze_message. rewrite Hdown.
  change (V3.requires_approval V3.ai_error_analysis) with false.
  change (V3.ai_error_analysis !! "reply_if_accepted") with (Some JNull).
  rewrite Hsend. set (w1 := log_ai_call w _ _).
  cbn [andb default from_option id json_truthy negb send_message as_str fst
       snd].
  pose proof (record_sent_effects (log_sent w1 tk V3.default_reply) tk
                (Py.str_or (p_buyer_name info) "Buyer") (p_href info)
                V3.default_reply (fo_t_insert o) (fo_t_state o)) as Hrec.
  cbv zeta in Hrec.
  destruct Hrec as (_ & _ & _ & _ & R5 & R6 & _ & R8 & _).
  rewrite R5, R6, R8. by repeat split.
Qed.

Lemma v3_engine_failure_sends_the_canned_reply_witness :
  outbox (log (V3.flush_thread Scenario.json_loads Scenario.w1
                 Scenario.thread Scenario.window Scenario3.flush_down).2)
  = [(Scenario.thread, V3.default_reply)].
Proof.
  refine (proj1 (proj2 (v3_engine_failure_sends_the_canned_reply
                          Scenario.json_loads Scenario.w1 Scenario.thread
                          Scenario.window Scenario3.flush_down _ _ eq_refl
                          eq_refl))).
  - intros _. reflexivity.
  - vm_compute. discriminate.
Defined.

(** X28. Version 3 can answer a refusal with an offer.  When the analysis
    requires approval and carries no text for a refusal, the request goes
    out, and the owner declines or never answers, the reply that goes out
    (the thread opening and the send succeeding) is the canned availability
    reply, and the owner is told so after the messages of the approval, if
    that report can be sent. *)
Theorem v3_decline_without_text_sends_the_canned_reply :
  ∀ (json_loads : string → option (gmap string json)) (w : World)
    (tk : string) (info : PendingInfo) (o : FlushOracle),
    let analysis := V3.analyze_message json_loads (fo_http o) in
    let buyer_name := Py.str_or (p_buyer_name info) "Buyer" in
    let ask :=
      V3.ask_human_approval (appr w) (fo_loop_time o) buyer_name
        (default (JStr "General Inquiry") (analysis !! "intent_summary"))
        (default JNull (analysis !! "reply_if_accepted"))
        (default JNull (analysis !! "reply_if_declined"))
        (V3.callback_data (fo_ui o)) in
    let r := V3.flush_thread json_loads w tk info o in
    (Py.otruthy (p_href info) = true → fo_goto_read o = true) →
    db_get_recent_buyer_messages_since (db w) tk (p_since_ts info)
      V3.MAX_BATCH_MESSAGES ≠ [] →
    V3.requires_approval analysis = true →
    fo_tg_ask o = true →
    json_truthy (default JNull (analysis !! "reply_if_declined")) = false →
    ask.1.1 = false →
    fo_send o = true →
    r.1 = (if fo_tg_report o then Next else Raised)
    ∧ outbox (log r.2) = outbox (log w) ++ [(tk, V3.default_reply)]
    ∧ tg_out (log r.2)
      = tg_out (log w) ++ ask.2
        ++ (if fo_tg_report o then [TgSent buyer_name V3.default_reply]
            else []).
Proof.
  intros json_loads w tk info o. cbv zeta.
  intros Hgoto Hbatch Hreq Hask_ok Hno Hask Hsend.
  unfold V3.flush_thread. cbv zeta.
  rewrite (v3_open_guard _ _ Hgoto).
  destruct (db_get_recent_buyer_messages_since _ _ _ _) as [|m0 ms] eqn:Eb;
    [done|].
  rewrite Hreq, Hask_ok. cbn [negb andb]. set (w1 := log_ai_call w _ _).
  change (appr w1) with (appr w).
  destruct (V3.ask_human_approval _ _ _ _ _ _ _) as [[b a] out].
  cbn [fst snd] in Hask. subst b. rewrite Hno.
  cbn [negb send_message as_str]. rewrite Hsend. cbn [fst snd].
  pose proof (record_sent_effects
                (log_sent (log_tg (set_appr w1 a) out) tk V3.default_reply)
                tk (Py.str_or (p_buyer_name info) "Buyer") (p_href info)
                V3.default_reply (fo_t_insert o) (fo_t_state o)) as Hrec.
  cbv zeta in Hrec.
  destruct Hrec as (_ & _ & _ & _ & _ & R6 & _).
  destruct (fo_tg_report o); cbn [fst snd log_tg set_log log outbox tg_out];
    rewrite R6; cbn [log_sent log_tg set_log set_appr log outbox tg_out];
    rewrite ?app_nil_r, <- ?app_assoc; by repeat split.
Qed.

Lemma v3_decline_without_text_sends_the_canned_reply_witness :
  outbox (log (V3.flush_thread Scenario.json_loads_deal Scenario.w1
                 Scenario.thread Scenario.window
                 (Scenario.flush_with Scenario3.ui_decline true)).2)
  = [(Scenario.thread, V3.default_reply)].
Proof.
  refine (proj1 (proj2 (v3_decline_without_text_sends_the_canned_reply
                          Scenario.json_loads_deal Scenario.w1 Scenario.thread
                          Scenario.window
                          (Scenario.flush_with Scenario3.ui_decline true)
                          _ _ _ eq_refl _ _ eq_refl))).
  - intros _. reflexivity.
  - vm_compute. discriminate.
  - vm_compute. reflexivity.
  - vm_compute. reflexivity.
  - vm_compute. reflexivity.
Defined.
